(** * ADSIngestParser: the arXiv and Wiley dialect extractors

    A shallow embedding of [adsingestp/parsers/arxiv.py] and
    [adsingestp/parsers/wiley.py].

    - Python [str] values are Rocq [string]s, one [ascii] per character
      (code points below 256).
    - A parsed document (a BeautifulSoup tree) is a [node]: text leaves and
      tags with a namespace prefix, a name, an attribute table and children
      in document order.
    - Python exceptions are the constructors of [exn]; a method that may
      raise returns a [result].
    - [base_metadata] is a [gmap string value]; the parser object's other
      fields ([input_header], [pubmeta_unit], ...) are record fields that
      hold [None] until [parse] assigns them; [bib], which [__init__] does
      not create, is an attribute that may not exist yet.
    - The collaborators that live in [adsingestp.parsers.base] and
      [adsingestp.utils] are the fields of the class [Collaborators]. *)

From Stdlib Require Import Ascii String.
From stdpp Require Import gmap strings list fin_maps.

Set Warnings "-register-all".
Local Open Scope string_scope.
Local Open Scope list_scope.

(** ** Python string operations *)

Module PyStr.

(** [s.startswith(p)], returning what follows the prefix. *)
Fixpoint strip_prefix (p s : string) : option string :=
  match p, s with
  | EmptyString, _ => Some s
  | String a p', String b s' =>
      if Ascii.eqb a b then strip_prefix p' s' else None
  | String _ _, EmptyString => None
  end.

Definition startswith (p s : string) : bool :=
  match strip_prefix p s with Some _ => true | None => false end.

(** [sub in s] *)
Fixpoint contains (sub s : string) : bool :=
  if startswith sub s then true
  else match s with
       | EmptyString => false
       | String _ s' => contains sub s'
       end.

(** The scan shared by [replace] and [split]: [skip] counts the characters
    of an occurrence of [old] that are still to be passed over. *)
Fixpoint replace_go (old new s : string) (skip : nat) : string :=
  match s with
  | EmptyString => EmptyString
  | String c s' =>
      match skip with
      | S k => replace_go old new s' k
      | O =>
          if startswith old s
          then new +:+ replace_go old new s' (String.length old - 1)
          else String c (replace_go old new s' 0)
      end
  end.

Fixpoint intersperse (new s : string) : string :=
  match s with
  | EmptyString => EmptyString
  | String c s' => String c (new +:+ intersperse new s')
  end.

(** [s.replace(old, new)]: every non-overlapping occurrence, left to
    right; an empty [old] matches between all characters. *)
Definition replace (old new s : string) : string :=
  match old with
  | EmptyString => new +:+ intersperse new s
  | String _ _ => replace_go old new s 0
  end.

Fixpoint split_go (sep s : string) (skip : nat) (cur : string) : list string :=
  match s with
  | EmptyString => [cur]
  | String c s' =>
      match skip with
      | S k => split_go sep s' k cur
      | O =>
          if startswith sep s
          then cur :: split_go sep s' (String.length sep - 1) EmptyString
          else split_go sep s' 0 (cur +:+ String c EmptyString)
      end
  end.

(** [s.split(sep)] for a non-empty [sep] (an empty one is a ValueError;
    the parsers only pass ":" and "-"). *)
Definition split (sep s : string) : list string := split_go sep s 0 EmptyString.

(** [str.isspace] on one character. *)
Definition isspace (c : ascii) : bool :=
  let n := nat_of_ascii c in
  (Nat.leb 9 n && Nat.leb n 13) || (Nat.leb 28 n && Nat.leb n 32)
  || Nat.eqb n 133 || Nat.eqb n 160.

Fixpoint lstrip (s : string) : string :=
  match s with
  | EmptyString => EmptyString
  | String c s' => if isspace c then lstrip s' else s
  end.

(** Drops trailing white space: a character is kept when something is
    kept to its right or when it is not white space itself. *)
Fixpoint rstrip (s : string) : string :=
  match s with
  | EmptyString => EmptyString
  | String c s' =>
      match rstrip s' with
      | EmptyString => if isspace c then EmptyString else String c EmptyString
      | r => String c r
      end
  end.

(** [s.strip()] *)
Definition strip (s : string) : string := rstrip (lstrip s).

Definition flush (cur : string) (acc : list string) : list string :=
  match cur with EmptyString => acc | _ => cur :: acc end.

Fixpoint split_ws_go (s cur : string) : list string :=
  match s with
  | EmptyString => flush cur []
  | String c s' =>
      if isspace c then flush cur (split_ws_go s' EmptyString)
      else split_ws_go s' (cur +:+ String c EmptyString)
  end.

(** [s.split()]: the maximal runs of characters that are not white space. *)
Definition split_ws (s : string) : list string := split_ws_go s EmptyString.

(** [sep.join(l)] *)
Fixpoint join (sep : string) (l : list string) : string :=
  match l with
  | [] => EmptyString
  | [x] => x
  | x :: l' => x +:+ sep +:+ join sep l'
  end.

Fixpoint drop_chars (n : nat) (s : string) : string :=
  match n, s with
  | S k, String _ s' => drop_chars k s'
  | _, _ => s
  end.

(** [s[-n:]] for a positive [n]. *)
Definition last_chars (n : nat) (s : string) : string :=
  drop_chars (String.length s - n) s.

(** Truth value of a string. *)
Definition truthy (s : string) : bool :=
  match s with EmptyString => false | _ => true end.

Definition in_list (s : string) (l : list string) : bool :=
  existsb (String.eqb s) l.

End PyStr.

(** ** Exceptions *)

Inductive exn :=
| XmlLoadException
| NoSchemaException
| WrongSchemaException
| MissingTitleException
| MissingAuthorsException
| KeyError (key : string)
| IndexError
| TypeError
| AttributeError
| UnboundLocalError (var : string).

Inductive result (A : Type) :=
| Ok (a : A)
| Raise (e : exn).
Arguments Ok {A} a.
Arguments Raise {A} e.

Global Instance result_ret : MRet result := @Ok.
Global Instance result_bind : MBind result := fun A B k r =>
  match r with
  | Ok a => k a
  | Raise e => Raise e
  end.

(** A [for] loop whose body may raise: the state after the last iteration,
    or the first exception. *)
Fixpoint for_each {A S} (body : A -> S -> result S) (l : list A) (s : S) : result S :=
  match l with
  | [] => Ok s
  | a :: l' => s' ← body a s; for_each body l' s'
  end.

(** ** Regular expressions
    The fragment of Python's [re] syntax that the two modules use, matched by
    backtracking as [re] does. *)

Module Re.

Inductive item :=
| Chr (p : ascii -> bool)         (* one character of a class *)
| Star (p : ascii -> bool)        (* [class*], greedy *)
| NotAhead (p : ascii -> bool).   (* [(?!c)] for a class of one character *)

Definition regex := list item.

Definition is_char (c : ascii) : ascii -> bool := Ascii.eqb c.
Definition not_char (c : ascii) : ascii -> bool := fun x => negb (Ascii.eqb c x).
(** [\d] *)
Definition digit (c : ascii) : bool :=
  let n := nat_of_ascii c in Nat.leb 48 n && Nat.leb n 57.

Fixpoint lit (s : string) : regex :=
  match s with
  | EmptyString => []
  | String c s' => Chr (is_char c) :: lit s'
  end.

(** [pattern.match(s)]: the text matched at the start of [s] (group 0). *)
Fixpoint match_ (r : regex) (s : string) : option string :=
  match r with
  | [] => Some EmptyString
  | Chr p :: k =>
      match s with
      | String c s' => if p c then String c <$> match_ k s' else None
      | EmptyString => None
      end
  | NotAhead p :: k =>
      match s with
      | String c _ => if p c then None else match_ k s
      | EmptyString => match_ k s
      end
  | Star p :: k =>
      (fix star (s : string) : option string :=
         match s with
         | String c s' =>
             if p c
             then match star s' with
                  | Some t => Some (String c t)
                  | None => match_ k s
                  end
             else match_ k s
         | EmptyString => match_ k s
         end) s
  end.

(** [pattern.search(s)]: the leftmost match. *)
Fixpoint search (r : regex) (s : string) : option string :=
  match match_ r s with
  | Some t => Some t
  | None =>
      match s with
      | String _ s' => search r s'
      | EmptyString => None
      end
  end.

End Re.

(** ** Document trees (what [bsstrtodict] returns) *)

(** A tag keeps its namespace prefix apart from its name, as the tree
    builder does: [<dc:title>] is [Tag (Some "dc") "title" _ _], and
    [<title>] is [Tag None "title" _ _]. *)
Inductive node :=
| Text (s : string)
| Tag (prefix : option string) (name : string)
      (attrs : list (string * string)) (children : list node).

Module Soup.

Definition is_tag (n : node) : bool :=
  match n with Tag _ _ _ _ => true | Text _ => false end.

Definition prefix (n : node) : option string :=
  match n with Tag p _ _ _ => p | Text _ => None end.

Definition name (n : node) : string :=
  match n with Tag _ nm _ _ => nm | Text _ => EmptyString end.

Definition attrs (n : node) : list (string * string) :=
  match n with Tag _ _ a _ => a | Text _ => [] end.

(** The tags below [n], in document order. *)
Fixpoint descendants (n : node) : list node :=
  match n with
  | Text _ => []
  | Tag _ _ _ cs =>
      flat_map (fun c => (if is_tag c then [c] else []) ++ descendants c) cs
  end.

(** Whether a search for the name [nm] keeps the tag [c]: its name is [nm],
    or it has a prefix that is not empty and [prefix:name] is [nm].  So an
    unprefixed [nm] finds the tags of that name under every prefix, and
    [p:l] only those of prefix [p].  (The search without a limit splits [nm]
    at its colon instead of joining prefix and name; for an [nm] with at
    most one colon, and that one not in front, as all names searched for in
    the two modules, that keeps the same tags.) *)
Definition matches (nm : string) (c : node) : bool :=
  match c with
  | Text _ => false
  | Tag pre local _ _ =>
      String.eqb local nm
      || match pre with
         | Some p => PyStr.truthy p && String.eqb (p +:+ ":" +:+ local) nm
         | None => false
         end
  end.

(** [n.find_all(nm)] *)
Definition find_all (nm : string) (n : node) : list node :=
  List.filter (matches nm) (descendants n).

(** [n.find(nm)] *)
Definition find (nm : string) (n : node) : option node :=
  head (find_all nm n).

(** The strings below [n], in document order. *)
Fixpoint strings (n : node) : list string :=
  match n with
  | Text s => [s]
  | Tag _ _ _ cs => flat_map strings cs
  end.

(** [n.get_text()] *)
Definition get_text (n : node) : string :=
  PyStr.join EmptyString (strings n).

(** [n.get_text(separator=sep, strip=True)] *)
Definition get_text_strip (sep : string) (n : node) : string :=
  PyStr.join sep
    (List.filter PyStr.truthy (List.map PyStr.strip (strings n))).

Fixpoint assoc (k : string) (l : list (string * string)) : option string :=
  match l with
  | [] => None
  | (k', v) :: l' => if String.eqb k' k then Some v else assoc k l'
  end.

(** [n.get(k)] *)
Definition get (k : string) (n : node) : option string := assoc k (attrs n).

(** [n.get(k, default)] *)
Definition get_default (k default : string) (n : node) : string :=
  match get k n with Some v => v | None => default end.

(** [n.has_attr(k)] *)
Definition has_attr (k : string) (n : node) : bool :=
  match get k n with Some _ => true | None => false end.

(** [n[k]] *)
Definition getitem (k : string) (n : node) : result string :=
  match get k n with Some v => Ok v | None => Raise (KeyError k) end.

(** A method call on a field of the parser that may still be [None]. *)
Definition deref (o : option node) : result node :=
  match o with Some n => Ok n | None => Raise AttributeError end.

End Soup.

(** ** Metadata values *)

Inductive value :=
| VStr (s : string)
| VList (l : list value)
| VTuple (l : list value)
| VDict (d : gmap string value).

Abbreviation metadata := (gmap string value).

(** Follows [path] through nested dicts and rewrites the entry under [k]
    there: [d[p1]...[pn][k] = f(d[p1]...[pn].get(k))]. *)
Fixpoint update_path (path : list string) (k : string)
    (f : option value -> result value) (d : metadata) : result metadata :=
  match path with
  | [] => v ← f (d !! k); Ok (<[k := v]> d)
  | p :: path' =>
      match d !! p with
      | Some (VDict d') => d'' ← update_path path' k f d'; Ok (<[p := VDict d'']> d)
      | Some _ => Raise TypeError
      | None => Raise (KeyError p)
      end
  end.

(** [d[p1]...[pn][k] = v] *)
Definition set_path (path : list string) (k : string) (v : value) :
    metadata -> result metadata :=
  update_path path k (fun _ => Ok v).

(** [d[p1]...[pn][k].append(v)] *)
Definition append_path (path : list string) (k : string) (v : value) :
    metadata -> result metadata :=
  update_path path k (fun o =>
    match o with
    | Some (VList l) => Ok (VList (l ++ [v]))
    | Some _ => Raise AttributeError
    | None => Raise (KeyError k)
    end).

(** [l[-1]] *)
Definition last_item {A} (l : list A) : result A :=
  match last l with Some a => Ok a | None => Raise IndexError end.

(** ** Collaborators outside the two modules *)

Class Collaborators := {
  (** [BaseBeautifulSoupParser.bsstrtodict]; [None] when it raises. *)
  bsstrtodict : string -> option node;
  (** [BaseBeautifulSoupParser._clean_output] *)
  _clean_output : string -> string;
  (** [utils.AuthorNames().parse(text, collaborations_params=...)] *)
  name_parser_parse : string -> list value;
  (** [str(tag)], the serialized markup of a tag *)
  to_markup : node -> string;
  (** [BaseBeautifulSoupParser._entity_convert] *)
  _entity_convert : metadata -> metadata;
  (** [IngestBase.format(..., format="OtherXML")] *)
  format : metadata -> value;
  (** [IngestBase.get_chunks(text, start_re, end_re, head_foot=...)] *)
  get_chunks : string -> Re.regex -> Re.regex -> bool -> list string;
}.

(** ** arxiv.py *)

Module MultiArxivParser.

(** [r"<record(?!-)[^>]*>"] *)
Definition start_re : Re.regex :=
  Re.lit "<record" ++
  [Re.NotAhead (Re.is_char "-"); Re.Star (Re.not_char ">"); Re.Chr (Re.is_char ">")].

(** [r"</record(?!-)[^>]*>"] *)
Definition end_re : Re.regex :=
  Re.lit "</record" ++
  [Re.NotAhead (Re.is_char "-"); Re.Star (Re.not_char ">"); Re.Chr (Re.is_char ">")].

Definition parse `{Collaborators} (text : string) (header : bool) : list string :=
  List.map PyStr.strip (get_chunks text start_re end_re header).

End MultiArxivParser.

Module ArxivParser.

Definition DUBCORE_SCHEMA : list string :=
  ["http://www.openarchives.org/OAI/2.0/oai_dc/"].

(** The parser object. *)
Record t := Self {
  base_metadata : metadata;
  input_header : option node;
  input_metadata : option node;
}.

(** [__init__] *)
Definition init : t := Self ∅ None None.

Definition put (md : metadata) (self : t) : t :=
  Self md (input_header self) (input_metadata self).

Definition _parse_ids (self : t) : result t :=
  let md := base_metadata self in
  hdr ← Soup.deref (input_header self);
  md ← match Soup.find "identifier" hdr with
       | Some idn =>
           let ids := Soup.get_text idn in
           let id_array := PyStr.split ":" ids in
           arxiv_id ← last_item id_array;
           let md := <["publication" := VStr ("eprint arXiv:" +:+ arxiv_id)]> md in
           let md := <["ids" := VDict {["preprint" := VDict ∅]}]> md in
           md ← set_path ["ids"; "preprint"] "source" (VStr "arXiv") md;
           set_path ["ids"; "preprint"] "id" (VStr arxiv_id) md
       | None => Ok md
       end;
  meta ← Soup.deref (input_metadata self);
  let dc_ids := Soup.find_all "dc:identifier" meta in
  md ← for_each (fun d md =>
          let d_text := Soup.get_text d in
          if PyStr.contains "doi:" d_text
          then set_path ["ids"] "doi" (VStr (PyStr.replace "doi:" "" d_text)) md
          else Ok md) dc_ids md;
  Ok (put md self).

Definition _parse_title `{Collaborators} (self : t) : result t :=
  meta ← Soup.deref (input_metadata self);
  let title_array := Soup.find_all "dc:title" meta in
  match title_array with
  | _ :: _ =>
      let title_array_text := List.map Soup.get_text title_array in
      if Nat.eqb (length title_array) 1
      then
        t0 ← match title_array_text with x :: _ => Ok x | [] => Raise IndexError end;
        Ok (put (<["title" := VStr (_clean_output t0)]> (base_metadata self)) self)
      else
        Ok (put (<["title" := VStr (_clean_output (PyStr.join ": " title_array_text))]>
                   (base_metadata self)) self)
  | [] => Raise MissingTitleException
  end.

Definition _parse_author `{Collaborators} (self : t) : result t :=
  meta ← Soup.deref (input_metadata self);
  let author_array := Soup.find_all "dc:creator" meta in
  let authors_out :=
    flat_map (fun a => name_parser_parse (Soup.get_text a)) author_array in
  match authors_out with
  | [] => Raise MissingAuthorsException
  | _ :: _ => Ok (put (<["authors" := VList authors_out]> (base_metadata self)) self)
  end.

Definition _parse_pubdate (self : t) : result t :=
  meta ← Soup.deref (input_metadata self);
  match Soup.find "dc:date" meta with
  | Some dt =>
      Ok (put (<["pubdate_electronic" := VStr (Soup.get_text dt)]> (base_metadata self)) self)
  | None => Ok self
  end.

Definition _parse_abstract `{Collaborators} (self : t) : result t :=
  meta ← Soup.deref (input_metadata self);
  let desc_array := Soup.find_all "dc:description" meta in
  match desc_array with
  | [] => Ok self
  | first :: desc_array =>
      let md := <["abstract" := VStr (_clean_output (Soup.get_text first))]>
                  (base_metadata self) in
      match desc_array with
      | [] => Ok (put md self)
      | _ :: _ =>
          let comments_out :=
            List.map (fun d => VDict {["origin" := VStr "arxiv";
                                       "text" := VStr (_clean_output (Soup.get_text d))]})
                     desc_array in
          Ok (put (<["comments" := VList comments_out]> md) self)
      end
  end.

Definition _parse_keywords (self : t) : result t :=
  meta ← Soup.deref (input_metadata self);
  let keywords_array := Soup.find_all "dc:subject" meta in
  match keywords_array with
  | [] => Ok self
  | _ :: _ =>
      let keywords_out :=
        List.map (fun k => VDict {["system" := VStr "arxiv";
                                   "string" := VStr (Soup.get_text k)]})
                 keywords_array in
      Ok (put (<["keywords" := VList keywords_out]> (base_metadata self)) self)
  end.

(** Lines 140-143 of [parse]: where the header and the metadata root are
    looked up. *)
Definition locate (d : node) (self : t) : t :=
  let self :=
    match Soup.find "record" d with
    | Some r => Self (base_metadata self) (Soup.find "header" r) (input_metadata self)
    | None => self
    end in
  match Soup.find "record" d with
  | Some r =>
      match Soup.find "metadata" r with
      | Some m => Self (base_metadata self) (input_header self) (Soup.find "oai_dc:dc" m)
      | None => self
      end
  | None => self
  end.

(** Lines 151-162 of [parse]: the field extraction and the hand-over. *)
Definition extract `{Collaborators} (self : t) : result value :=
  self ← _parse_ids self;
  self ← _parse_title self;
  self ← _parse_author self;
  self ← _parse_pubdate self;
  self ← _parse_abstract self;
  self ← _parse_keywords self;
  let self := put (_entity_convert (base_metadata self)) self in
  Ok (format (base_metadata self)).

(** [parse], from the tree that [bsstrtodict] returned. *)
Definition parse_tree `{Collaborators} (d : node) (self : t) : result value :=
  let self := locate d self in
  meta ← Soup.deref (input_metadata self);
  let schema_spec := Soup.get_default "xmlns:oai_dc" "" meta in
  if negb (PyStr.truthy schema_spec) then Raise NoSchemaException
  else if negb (PyStr.in_list schema_spec DUBCORE_SCHEMA) then Raise WrongSchemaException
  else extract self.

Definition parse `{Collaborators} (text : string) (self : t) : result value :=
  match bsstrtodict text with
  | None => Raise XmlLoadException
  | Some d => parse_tree d self
  end.

End ArxivParser.

(** ** wiley.py *)

Module WileyParser.

(** [re.compile(r"(\d{4}-){3}\d{3}(\d|X)")] *)
Definition orcid_format : Re.regex :=
  let d := Re.Chr Re.digit in
  let block := [d; d; d; d; Re.Chr (Re.is_char "-")] in
  block ++ block ++ block ++
  [d; d; d; Re.Chr (fun c => Re.digit c || Re.is_char "X" c)].

(** The parser object. *)
Record t := Self {
  base_metadata : metadata;
  pubmeta_prod : option node;
  pubmeta_part : option node;
  pubmeta_unit : option node;
  content_meta : option node;
  (** [None]: the object has no attribute [bib] (it is first assigned in
      [parse]); [Some v]: it has, and holds [v]. *)
  bib : option (option node);
}.

(** [__init__], which leaves the object without a [bib] attribute. *)
Definition init : t := Self ∅ None None None None None.

(** Reading an attribute of the parser object: AttributeError when it does
    not exist. *)
Definition getattr {A} (o : option A) : result A :=
  match o with Some v => Ok v | None => Raise AttributeError end.

Definition put (md : metadata) (self : t) : t :=
  Self md (pubmeta_prod self) (pubmeta_part self) (pubmeta_unit self)
       (content_meta self) (bib self).

Definition _parse_ids (self : t) : result t :=
  let md := base_metadata self in
  let md := <["ids" := VDict ∅]> md in
  let md := <["issn" := VList []]> md in
  prod ← Soup.deref (pubmeta_prod self);
  md ← for_each (fun i md =>
          ty ← Soup.getitem "type" i;
          append_path [] "issn" (VTuple [VStr ty; VStr (Soup.get_text i)]) md)
        (Soup.find_all "issn" prod) md;
  unit ← Soup.deref (pubmeta_unit self);
  md ← match Soup.find "doi" unit with
       | Some n => set_path ["ids"] "doi" (VStr (Soup.get_text n)) md
       | None => Ok md
       end;
  md ← set_path ["ids"] "pub-id" (VList []) md;
  md ← for_each (fun i md =>
          ty ← Soup.getitem "type" i;
          if negb (PyStr.in_list ty ["society"; "eLocator"])
          then
            v ← Soup.getitem "value" i;
            append_path ["ids"] "pub-id"
              (VDict {["attribute" := VStr ty; "Identifier" := VStr v]}) md
          else Ok md)
        (Soup.find_all "id" unit) md;
  Ok (put md self).

Definition _parse_pub (self : t) : result t :=
  let md := base_metadata self in
  prod ← Soup.deref (pubmeta_prod self);
  md ← for_each (fun t md =>
          ty ← Soup.getitem "type" t;
          if String.eqb ty "main"
          then Ok (<["publication" := VStr (Soup.get_text t)]> md)
          else Ok md)
        (Soup.find_all "title" prod) md;
  part ← Soup.deref (pubmeta_part self);
  md ← for_each (fun n md =>
          ty ← Soup.getitem "type" n;
          if String.eqb ty "journalVolume"
          then Ok (<["volume" := VStr (Soup.get_text n)]> md)
          else if String.eqb ty "journalIssue"
          then Ok (<["issue" := VStr (Soup.get_text n)]> md)
          else Ok md)
        (Soup.find_all "numbering" part) md;
  Ok (put md self).

(** [not page_first] for a variable that holds [None] or a string. *)
Definition falsy (o : option string) : bool :=
  match o with Some s => negb (PyStr.truthy s) | None => true end.

Definition _parse_page (self : t) : result t :=
  let md := base_metadata self in
  let page_first : option string := None in
  unit ← Soup.deref (pubmeta_unit self);
  '(page_first, md) ← for_each (fun n '(page_first, md) =>
          ty ← Soup.getitem "type" n;
          if String.eqb ty "pageFirst"
          then Ok (Some (Soup.get_text n), md)
          else if String.eqb ty "pageLast"
          then
            if negb (PyStr.in_list (Soup.get_text n) ["n/a"; "no"])
            then Ok (page_first, <["page_last" := VStr (Soup.get_text n)]> md)
            else Ok (page_first, md)
          else Ok (page_first, md))
        (Soup.find_all "numbering" unit) (page_first, md);
  '(page_first, md) ←
    (if falsy page_first
     then for_each (fun i '(page_first, md) =>
            ty ← Soup.getitem "type" i;
            let page_first :=
              if String.eqb ty "society" then Some (Soup.get_text i) else page_first in
            if String.eqb ty "eLocator"
            then Ok (page_first,
                     <["electronic_id" := VStr (PyStr.last_chars 5 (Soup.get_text i))]> md)
            else Ok (page_first, md))
          (Soup.find_all "id" unit) (page_first, md)
     else Ok (page_first, md));
  let page_first :=
    match page_first with
    | Some s => if PyStr.in_list s ["n/a"; "no"] then None else Some s
    | None => None
    end in
  let md :=
    match page_first with
    | Some s => if PyStr.truthy s then <["page_first" := VStr s]> md else md
    | None => md
    end in
  md ← match Soup.find "countGroup" unit with
       | Some g =>
           match Soup.find "count" g with
           | Some c =>
               ty ← Soup.getitem "type" c;
               if String.eqb ty "pageTotal"
               then num ← Soup.getitem "number" c; Ok (<["numpages" := VStr num]> md)
               else Ok md
           | None => Ok md
           end
       | None => Ok md
       end;
  Ok (put md self).

(** The body of the [for] loop of [_parse_pubdate], lines 93-105; the
    recursion stops where the loop does [break]. *)
Fixpoint pubdate_loop (events : list node) (found : bool) (md : metadata) :
    result metadata :=
  match events with
  | [] => Ok md
  | d :: events =>
      ty ← Soup.getitem "type" d;
      if String.eqb ty "firstOnline"
      then
        date ← Soup.getitem "date" d;
        Ok (<["pubdate_electronic" := VStr date]> md)
      else if String.eqb ty "publishedOnlineFinalForm"
      then
        date ← Soup.getitem "date" d;
        pubdate_loop events true (<["pubdate_electronic" := VStr date]> md)
      else if String.eqb ty "publishedOnlineAccepted" && negb found
      then
        date ← Soup.getitem "date" d;
        pubdate_loop events found (<["pubdate_electronic" := VStr date]> md)
      else pubdate_loop events found md
  end.

(** Lines 79-90 of [_parse_pubdate]. *)
Definition pubdate_print (part : node) (md : metadata) : result metadata :=
  match Soup.find "coverDate" part with
  | Some cd =>
      start ← Soup.getitem "startDate" cd;
      let pubdate := PyStr.split "-" start in
      year ← match pubdate !! 0%nat with Some y => Ok y | None => Raise IndexError end;
      let month := default "00" (pubdate !! 1%nat) in
      let day := default "00" (pubdate !! 2%nat) in
      Ok (<["pubdate_print" := VStr (year +:+ "-" +:+ month +:+ "-" +:+ day)]> md)
  | None => Ok md
  end.

Definition _parse_pubdate (self : t) : result t :=
  let md := base_metadata self in
  part ← Soup.deref (pubmeta_part self);
  md ← pubdate_print part md;
  let found := false in
  unit ← Soup.deref (pubmeta_unit self);
  md ← pubdate_loop (Soup.find_all "event" unit) found md;
  Ok (put md self).

Definition dates_trans : list (string * string) :=
  [("manuscriptRevised", "edhist_rev");
   ("manuscriptReceived", "edhist_rec");
   ("manuscriptAccepted", "edhist_acc")].

Definition _parse_edhistory (self : t) : result t :=
  let md := base_metadata self in
  unit ← Soup.deref (pubmeta_unit self);
  md ← for_each (fun d md =>
          ty ← Soup.getitem "type" d;
          match Soup.assoc ty dates_trans with
          | Some key =>
              date ← Soup.getitem "date" d;
              let date_out :=
                if String.eqb ty "manuscriptAccepted" then VStr date
                else VList [VStr date] in
              Ok (<[key := date_out]> md)
          | None => Ok md
          end)
        (Soup.find_all "event" unit) md;
  Ok (put md self).

Definition _parse_title_abstract `{Collaborators} (self : t) : result t :=
  let md := base_metadata self in
  cm ← Soup.deref (content_meta self);
  md ← match Soup.find "titleGroup" cm with
       | Some g =>
           for_each (fun t md =>
               ty ← Soup.getitem "type" t;
               if String.eqb ty "main"
               then Ok (<["title" := VStr (Soup.get_text t)]> md)
               else Ok md)
             (Soup.find_all "title" g) md
       | None => Ok md
       end;
  md ← match Soup.find "abstractGroup" cm with
       | Some g =>
           for_each (fun a md =>
               ty ← Soup.getitem "type" a;
               if String.eqb ty "main"
               then Ok (<["abstract" := VStr (_clean_output (Soup.get_text a))]> md)
               else Ok md)
             (Soup.find_all "abstract" g) md
       | None => Ok md
       end;
  Ok (put md self).

Definition _parse_copyright (self : t) : result t :=
  unit ← Soup.deref (pubmeta_unit self);
  match Soup.find "copyright" unit with
  | Some c => Ok (put (<["copyright" := VStr (Soup.get_text c)]> (base_metadata self)) self)
  | None => Ok self
  end.

(** Lines 142-147: the affiliations cross-reference dict. *)
Definition build_aff_dict (cm : node) : result (gmap string string) :=
  for_each (fun a aff_dict =>
      label ← Soup.getitem "xml:id" a;
      let value := Soup.get_text_strip ", " a in
      Ok (<[label := value]> aff_dict))
    (Soup.find_all "affiliation" cm) ∅.

(** The truth value of [aff_dict.get(a)]. *)
Definition aff_get (aff_dict : gmap string string) (a : string) : bool :=
  match aff_dict !! a with Some v => PyStr.truthy v | None => false end.

(** Lines 170-173: the assignment to [akey], a local of [_parse_authors]
    that is unbound ([None]) until one of the two branches is taken and
    keeps its value otherwise. *)
Definition choose_akey (aff_dict : gmap string string) (a : string)
    (akey : option string) : option string :=
  if aff_get aff_dict a then Some a
  else if aff_get aff_dict (PyStr.replace "#" "" a) then Some (PyStr.replace "#" "" a)
  else akey.

(** Lines 169-175: one turn of the loop over the labels. *)
Definition resolve_label (aff_dict : gmap string string) (a : string)
    (st : option string * list value * list value) :
    result (option string * list value * list value) :=
  let '(akey, affs, xaffs) := st in
  let akey := choose_akey aff_dict a akey in
  match akey with
  | None => Raise (UnboundLocalError "akey")
  | Some k =>
      let xaffs := xaffs ++ [VStr k] in
      match aff_dict !! k with
      | Some text => Ok (akey, affs ++ [VStr text], xaffs)
      | None => Raise (KeyError k)
      end
  end.

(** Lines 151-177: the entry of one creator node. *)
Definition author_entry (aff_dict : gmap string string) (c : node)
    (akey : option string) : result (option string * metadata) :=
  let author_tmp : metadata := ∅ in
  let author_tmp :=
    match Soup.find "givenNames" c with
    | Some g => <["given" := VStr (Soup.get_text g)]> author_tmp
    | None => author_tmp
    end in
  let author_tmp :=
    match Soup.find "familyName" c with
    | Some f => <["surname" := VStr (Soup.get_text f)]> author_tmp
    | None => author_tmp
    end in
  author_tmp ← for_each (fun id author_tmp =>
      ty ← Soup.getitem "type" id;
      if String.eqb ty "orcid"
      then
        orcid ← Soup.getitem "value" id;
        match Re.search orcid_format orcid with
        | Some group0 => Ok (<["orcid" := VStr group0]> author_tmp)
        | None => Ok author_tmp
        end
      else Ok author_tmp)
    (Soup.find_all "id" c) author_tmp;
  let author_tmp :=
    match Soup.find "email" c with
    | Some e => <["email" := VStr (Soup.get_text e)]> author_tmp
    | None => author_tmp
    end in
  if Soup.has_attr "affiliationRef" c
  then
    affs_raw ← Soup.getitem "affiliationRef" c;
    let affs_raw_arr := PyStr.split_ws affs_raw in
    '(akey, affs, xaffs) ← for_each (resolve_label aff_dict) affs_raw_arr (akey, [], []);
    let author_tmp := <["aff" := VList affs]> author_tmp in
    let author_tmp := <["xaff" := VList xaffs]> author_tmp in
    Ok (akey, author_tmp)
  else Ok (akey, author_tmp).

(** Lines 142-178: [author_list] as it stands before line 180. *)
Definition author_list_of (cm : node) : result (list value) :=
  aff_dict ← build_aff_dict cm;
  '(_, author_list) ← for_each (fun c '(akey, author_list) =>
      '(akey, author_tmp) ← author_entry aff_dict c akey;
      Ok (akey, author_list ++ [VDict author_tmp]))
    (Soup.find_all "creator" cm) (None, []);
  Ok author_list.

Definition _parse_authors (self : t) : result t :=
  cm ← Soup.deref (content_meta self);
  author_list ← author_list_of cm;
  match author_list with
  | _ :: _ => Ok (put (<["authors" := VList author_list]> (base_metadata self)) self)
  | [] => Ok self
  end.

Definition _parse_keywords (self : t) : result t :=
  cm ← Soup.deref (content_meta self);
  let keywords :=
    List.map (fun k => VDict {["system" := VStr "Wiley";
                               "string" := VStr (Soup.get_text k)]})
             (Soup.find_all "keyword" cm) in
  (* [keywords] goes out of scope here *)
  Ok self.

Definition _parse_references `{Collaborators} (self : t) : result t :=
  bib ← getattr (bib self);
  match bib with
  | Some b =>
      let references :=
        List.map (fun ref =>
            VStr (PyStr.replace (String "160" "") " "
                    (PyStr.replace (String "010" "") " " (to_markup ref))))
          (Soup.find_all "citation" b) in
      Ok (put (<["references" := VList references]> (base_metadata self)) self)
  | None => Ok self
  end.

(** Lines 209-218 of [parse]. *)
Definition locate (d : node) (self : t) : result t :=
  self ← for_each (fun p self =>
      level ← Soup.getitem "level" p;
      if String.eqb level "product"
      then Ok (Self (base_metadata self) (Some p) (pubmeta_part self)
                    (pubmeta_unit self) (content_meta self) (bib self))
      else if String.eqb level "part"
      then Ok (Self (base_metadata self) (pubmeta_prod self) (Some p)
                    (pubmeta_unit self) (content_meta self) (bib self))
      else if String.eqb level "unit"
      then Ok (Self (base_metadata self) (pubmeta_prod self) (pubmeta_part self)
                    (Some p) (content_meta self) (bib self))
      else Ok self)
    (Soup.find_all "publicationMeta" d) self;
  Ok (Self (base_metadata self) (pubmeta_prod self) (pubmeta_part self)
           (pubmeta_unit self) (Soup.find "contentMeta" d)
           (Some (Soup.find "bibliography" d))).

(** Lines 220-229 of [parse]: the extraction steps, up to the
    [base_metadata] that is handed to [format]. *)
Definition extract `{Collaborators} (self : t) : result t :=
  self ← _parse_ids self;
  self ← _parse_pub self;
  self ← _parse_page self;
  self ← _parse_pubdate self;
  self ← _parse_edhistory self;
  self ← _parse_title_abstract self;
  self ← _parse_copyright self;
  self ← _parse_authors self;
  self ← _parse_keywords self;
  _parse_references self.

(** [parse], from the tree that [bsstrtodict] returned. *)
Definition parse_tree `{Collaborators} (d : node) (self : t) : result value :=
  self ← locate d self;
  self ← extract self;
  let output := format (base_metadata self) in
  Ok output.

Definition parse `{Collaborators} (text : string) (self : t) : result value :=
  match bsstrtodict text with
  | None => Raise XmlLoadException
  | Some d => parse_tree d self
  end.

End WileyParser.

(** [d[p1][p2]...] read-only, for stating what a step stored. *)
Fixpoint lookup_path (path : list string) (d : metadata) : option value :=
  match path with
  | [] => None
  | [k] => d !! k
  | p :: path' =>
      match d !! p with
      | Some (VDict d') => lookup_path path' d'
      | _ => None
      end
  end.

(** ** Sample documents *)

Module Sample.

Definition oai_dc_ns : string := "http://www.openarchives.org/OAI/2.0/oai_dc/".

Definition field (name text : string) : node := Tag None name [] [Text text].

(** A field of the Dublin Core namespace, [<dc:name>text</dc:name>]. *)
Definition dc_field (name text : string) : node := Tag (Some "dc") name [] [Text text].

(** An [oai_dc:dc] element with the given attributes and fields. *)
Definition dc (attrs : list (string * string)) (fields : list node) : node :=
  Tag (Some "oai_dc") "dc" attrs fields.

(** An OAI-PMH record around a header identifier and a metadata root. *)
Definition arxiv_doc (identifier : string) (root : node) : node :=
  Tag None "[document]" []
    [Tag None "record" []
       [Tag None "header" [] [field "identifier" identifier];
        Tag None "metadata" [] [root]]].

Definition arxiv_fields : list node :=
  [dc_field "identifier" "http://arxiv.org/abs/0704.0001";
   dc_field "identifier" "doi:10.1000/xyz";
   dc_field "title" "A title";
   dc_field "creator" "Doe, Jane"].

(** A deleted record: OAI-PMH gives it a header and no metadata. *)
Definition arxiv_deleted : node :=
  Tag None "[document]" []
    [Tag None "record" []
       [Tag None "header" [("status", "deleted")]
          [field "identifier" "oai:arXiv.org:0704.0001";
           field "datestamp" "2008-01-13"]]].

(** A record in arXiv's own metadata format, not in Dublin Core. *)
Definition arxiv_native : node :=
  arxiv_doc "oai:arXiv.org:0704.0001"
    (Tag None "arXiv" [("xmlns", "http://arxiv.org/OAI/arXiv/")]
       [field "id" "0704.0001"; field "title" "A title"]).

Definition source_text : string := "<record>...</record>".

(** Stand-ins for the collaborators, to run the parsers on the samples. *)
Definition collaborators (doc : node) : Collaborators := {|
  bsstrtodict := fun text => if String.eqb text source_text then Some doc else None;
  _clean_output := PyStr.strip;
  name_parser_parse := fun text => [VStr text];
  to_markup := Soup.get_text;
  _entity_convert := fun md => md;
  format := VDict;
  get_chunks := fun _ _ _ _ => [];
|}.

Definition event (type date : string) : node :=
  Tag None "event" [("type", type); ("date", date)] [].

Definition affiliation (label text : string) : node :=
  Tag None "affiliation" [("xml:id", label)]
    [Tag None "unparsedAffiliation" [] [Text text]].

Definition creator (attrs : list (string * string)) (given family : string) : node :=
  Tag None "creator" attrs
    [Tag None "personName" []
       [Tag None "givenNames" [] [Text given]; Tag None "familyName" [] [Text family]]].

(** A Wiley component: the three [publicationMeta] levels, with [events]
    in the unit level, and a [contentMeta] holding [content]. *)
Definition wiley_doc (events content : list node) : node :=
  Tag None "[document]" []
    [Tag None "component" []
       [Tag None "header" []
          [Tag None "publicationMeta" [("level", "product")]
             [Tag None "issn" [("type", "print")] [Text "0001-0002"];
              Tag None "titleGroup" [] [Tag None "title" [("type", "main")] [Text "A Journal"]]];
           Tag None "publicationMeta" [("level", "part")]
             [Tag None "numbering" [("type", "journalVolume")] [Text "12"];
              Tag None "coverDate" [("startDate", "2020-05")] [Text "May 2020"]];
           Tag None "publicationMeta" [("level", "unit")]
             [Tag None "doi" [] [Text "10.1002/abc.1"];
              Tag None "numbering" [("type", "pageFirst")] [Text "n/a"];
              Tag None "numbering" [("type", "pageLast")] [Text "12"];
              Tag None "id" [("type", "eLocator"); ("value", "e1234567890")] [Text "e1234567890"];
              Tag None "eventGroup" [] events];
           Tag None "contentMeta" [] content]]].

Definition wiley_content : list node :=
  [Tag None "titleGroup" [] [Tag None "title" [("type", "main")] [Text "A title"]];
   Tag None "keywordGroup" [] [field "keyword" "stars"; field "keyword" "dust"];
   Tag None "affiliationGroup" [] [affiliation "a1" " Univ A "; affiliation "a2" "Univ B"];
   Tag None "creators" []
     [creator [("affiliationRef", "#a1 #a2")] "Jane" "Doe";
      creator [("affiliationRef", "#zz")] "John" "Roe";
      creator [] "Ann" "Poe"]].

End Sample.

(** ** Predicates on event nodes, for the statements about [_parse_pubdate] *)

Module Event.

(** The node's [type] attribute is [ty]. *)
Definition has_type (ty : string) (e : node) : Prop := Soup.get "type" e = Some ty.

(** The node carries the two attributes that [_parse_pubdate] reads. *)
Definition well_formed (e : node) : Prop :=
  is_Some (Soup.get "type" e) /\ is_Some (Soup.get "date" e).

(** No node of [l] has type [ty]. *)
Definition none_of (ty : string) (l : list node) : Prop :=
  Forall (fun e => ~ has_type ty e) l.

End Event.

(** ** Resolved labels, for the statements about [_parse_authors] *)

Module Affiliation.

(** The key and the text that a label stands for when one of the two
    lookups of lines 170-173 finds it ([akey] not yet bound). *)
Definition resolved (aff_dict : gmap string string) (a : string) :
    option (string * string) :=
  match WileyParser.choose_akey aff_dict a None with
  | Some k =>
      match aff_dict !! k with
      | Some text => Some (k, text)
      | None => None
      end
  | None => None
  end.

(** All labels of an [affiliationRef] value, resolved, or [None] when one of
    them is not. *)
Fixpoint resolved_all (aff_dict : gmap string string) (labels : list string) :
    option (list (string * string)) :=
  match labels with
  | [] => Some []
  | a :: labels =>
      match resolved aff_dict a, resolved_all aff_dict labels with
      | Some kt, Some kts => Some (kt :: kts)
      | _, _ => None
      end
  end.

(** The creator's [id] nodes carry the attributes that lines 156-161 read,
    and its labels, if it has any, all resolve. *)
Definition well_formed (aff_dict : gmap string string) (c : node) : Prop :=
  Forall (fun id => exists ty, Soup.get "type" id = Some ty
                               /\ (ty = "orcid" -> is_Some (Soup.get "value" id)))
         (Soup.find_all "id" c)
  /\ forall raw, Soup.get "affiliationRef" c = Some raw ->
                 is_Some (resolved_all aff_dict (PyStr.split_ws raw)).

End Affiliation.

(** ** Kinds of exceptions, for the statements about what [parse] raises *)

(** The exceptions that Python itself raises, as opposed to those of
    [adsingestp.ingest_exceptions]. *)
Definition builtin_exn (e : exn) : Prop :=
  match e with
  | KeyError _ | IndexError | TypeError | AttributeError | UnboundLocalError _ => True
  | XmlLoadException | NoSchemaException | WrongSchemaException
  | MissingTitleException | MissingAuthorsException => False
  end.

(** ** Creator nodes, for the statements about unresolved labels *)



(** ** Identifier nodes, for the statements about [WileyParser._parse_ids] *)

(** The [id] nodes that line 32 lets through. *)
Definition is_pub_id (i : node) : bool :=
  match Soup.get "type" i with
  | Some ty => negb (PyStr.in_list ty ["society"; "eLocator"])
  | None => false
  end.

(** ** Keys of [base_metadata], for the statements about what the Wiley steps
    write *)

(** The keys that the steps of [WileyParser.parse] write, [_parse_authors]
    apart (its key is "authors"). *)
Definition wiley_keys : list string :=
  ["ids"; "issn"; "publication"; "volume"; "issue"; "page_last"; "electronic_id";
   "page_first"; "numpages"; "pubdate_print"; "pubdate_electronic";
   "edhist_rev"; "edhist_rec"; "edhist_acc"; "title"; "abstract"; "copyright";
   "references"].

(** ** The canonical record *)

(** The field [k] of a record that [format] returned. *)
Definition record_field (k : string) (record : value) : option value :=
  match record with VDict fields => fields !! k | _ => None end.

(** Modelled from the spec: [IngestBase.format], the CanonicalRecordBuilder
    of the spec, which is code of the base class and not under src/.  The
    spec has it convert known keys of the accumulated field mapping into the
    shapes of the output schema (4.5), with "optional-field absence simply
    omits the canonical key" (4.3) and an absent field "is simply omitted
    from the canonical record" (7).  For the field [k]: the record made from
    a mapping without [k] has no field [k]. *)
Definition omits_absent `{Collaborators} (k : string) : Prop :=
  forall md : metadata, md !! k = None -> record_field k (format md) = None.

(** * Properties *)

(** ** Document trees *)

Section SoupFacts.

(** A search by name finds the tags of that name under every prefix. *)
Lemma matches_name pre nm a cs : Soup.matches nm (Tag pre nm a cs) = true.
Proof. cbn [Soup.matches]. now rewrite String.eqb_refl. Qed.

(** A search by [p:l] finds the tags of prefix [p] and name [l]. *)
Lemma matches_qualified p l a cs :
  p <> EmptyString -> Soup.matches (p +:+ ":" +:+ l) (Tag (Some p) l a cs) = true.
Proof.
  intros Hp. cbn [Soup.matches]. rewrite String.eqb_refl.
  destruct p; [contradiction|]. cbn [PyStr.truthy andb]. apply orb_true_r.
Qed.

(** [find("identifier")] finds [<dc:identifier>]; [find("dc:identifier")]
    does not find [<identifier>]. *)
Example find_by_local_name :
  let hdr := Tag None "header" [] [Sample.dc_field "identifier" "oai:arXiv.org:0704.0001"] in
  Soup.find "identifier" hdr = Some (Sample.dc_field "identifier" "oai:arXiv.org:0704.0001")
  /\ Soup.find "dc:identifier" hdr = Soup.find "identifier" hdr
  /\ Soup.find "dc:identifier"
       (Tag None "header" [] [Sample.field "identifier" "oai:arXiv.org:0704.0001"]) = None.
Proof. cbv zeta. repeat split; reflexivity. Qed.

End SoupFacts.

(** ** Strings *)

#[local] Arguments String.append !_ _ / : assert.

Section PyStrFacts.
Import PyStr.

Lemma contains_cons_false sub c s :
  contains sub (String c s) = false ->
  startswith sub (String c s) = false /\ contains sub s = false.
Proof.
  simpl. destruct (startswith sub (String c s)); [discriminate | auto].
Qed.

Lemma append_assoc_char (cur : string) c s :
  (cur +:+ String c EmptyString) +:+ s = cur +:+ String c s.
Proof. induction cur as [|a cur IH]; cbn; [reflexivity | f_equal; exact IH]. Qed.

Lemma append_empty_r (s : string) : s +:+ EmptyString = s.
Proof. induction s as [|a s IH]; simpl; [reflexivity | now rewrite IH]. Qed.

(** Without an occurrence of [old], [replace] returns its argument. *)
Lemma replace_go_absent old new s :
  contains old s = false -> replace_go old new s 0 = s.
Proof.
  induction s as [|c s IH]; intros Hc; [reflexivity|].
  apply contains_cons_false in Hc as [Hp Hs].
  cbn [replace_go]. rewrite Hp, IH by assumption. reflexivity.
Qed.

Lemma replace_doi_prefix x :
  contains "doi:" x = false -> replace "doi:" "" ("doi:" +:+ x) = x.
Proof. intros Hx. cbn. apply replace_go_absent, Hx. Qed.

Lemma contains_doi_prefix x : contains "doi:" ("doi:" +:+ x) = true.
Proof. reflexivity. Qed.

(** A string without the separator is one segment. *)
Lemma split_go_absent s cur :
  contains ":" s = false -> split_go ":" s 0 cur = [cur +:+ s].
Proof.
  revert cur. induction s as [|c s IH]; intros cur Hc.
  - cbn. now rewrite append_empty_r.
  - apply contains_cons_false in Hc as [Hp Hs].
    cbn [split_go]. rewrite Hp, IH by assumption.
    now rewrite append_assoc_char.
Qed.

Lemma last_cons_nonempty {A} (x : A) l : l <> [] -> last (x :: l) = last l.
Proof. destruct l; [congruence | reflexivity]. Qed.

Lemma split_go_nonempty sep s k cur : split_go sep s k cur <> [].
Proof.
  revert k cur. induction s as [|c s IH]; intros k cur; cbn; [congruence|].
  destruct k; [|apply IH].
  destruct (startswith sep (String c s)); [congruence | apply IH].
Qed.

Lemma split_go_last p s cur :
  contains ":" s = false ->
  last (split_go ":" (p +:+ ":" +:+ s) 0 cur) = Some s.
Proof.
  intros Hs. revert cur.
  induction p as [|c p IH]; intros cur.
  - cbn [String.append split_go].
    change (startswith ":" (String ":" s)) with true.
    change (String.length ":" - 1) with 0.
    now rewrite split_go_absent.
  - cbn [String.append split_go]. change (String.length ":" - 1) with 0.
    destruct (startswith ":" (String c _)); cbv iota.
    + rewrite last_cons_nonempty by apply split_go_nonempty. apply IH.
    + apply IH.
Qed.

(** The last segment of [p:s] is [s] when [s] has no colon. *)
Lemma split_last_segment p s :
  contains ":" s = false -> last (split ":" (p +:+ ":" +:+ s)) = Some s.
Proof. apply split_go_last. Qed.

End PyStrFacts.

(** ** Record boundary patterns *)

Section ReFacts.
Import Re.

Lemma match_chr_cons p k c s :
  match_ (Chr p :: k) (String c s) = if p c then String c <$> match_ k s else None.
Proof. reflexivity. Qed.

Lemma match_star_cons p k c s :
  match_ (Star p :: k) (String c s) =
  if p c
  then match match_ (Star p :: k) s with
       | Some t => Some (String c t)
       | None => match_ k (String c s)
       end
  else match_ k (String c s).
Proof. reflexivity. Qed.

Lemma match_not_ahead_cons p k c s :
  match_ (NotAhead p :: k) (String c s) =
  if p c then None else match_ k (String c s).
Proof. reflexivity. Qed.

(** A literal prefix is consumed as it stands. *)
Lemma match_lit_app l k s :
  match_ (lit l ++ k) (l +:+ s) = String.append l <$> match_ k s.
Proof.
  induction l as [|c l IH]; cbn [lit app String.append].
  - now destruct (match_ k s).
  - rewrite match_chr_cons. unfold is_char at 1. rewrite Ascii.eqb_refl, IH.
    now destruct (match_ k s).
Qed.

Lemma startswith_char_false c d s :
  PyStr.startswith (String c EmptyString) (String d s) = false ->
  Ascii.eqb c d = false.
Proof.
  unfold PyStr.startswith. cbn. now destruct (Ascii.eqb c d).
Qed.

Lemma startswith_char c d s :
  PyStr.startswith (String c EmptyString) (String d s) = Ascii.eqb c d.
Proof.
  unfold PyStr.startswith. cbn. now destruct (Ascii.eqb c d).
Qed.

(** [[^>]*>] runs up to the first [>]. *)
Lemma match_up_to_gt a rest :
  PyStr.contains ">" a = false ->
  match_ [Star (not_char ">"); Chr (is_char ">")] (a +:+ String ">" rest)
  = Some (a +:+ ">").
Proof.
  induction a as [|c a IH]; intros Ha; cbn [String.append].
  - reflexivity.
  - apply contains_cons_false in Ha as [Hc Ha].
    apply startswith_char_false in Hc.
    rewrite match_star_cons. unfold not_char at 1. rewrite Hc. cbn [negb].
    now rewrite IH.
Qed.

Lemma match_tag_rest a rest :
  PyStr.contains ">" a = false ->
  match_ [NotAhead (is_char "-"); Star (not_char ">"); Chr (is_char ">")]
         (a +:+ String ">" rest)
  = if PyStr.startswith "-" a then None else Some (a +:+ ">").
Proof.
  intros Ha. destruct a as [|c a].
  - reflexivity.
  - cbn [String.append]. rewrite match_not_ahead_cons, startswith_char.
    unfold is_char at 1. destruct (Ascii.eqb "-" c); [reflexivity|].
    now apply (match_up_to_gt (String c a)).
Qed.

End ReFacts.

(** C9, as the code has it: after the tag name the patterns refuse a
    hyphen and nothing else.  For every text [a] without [>], the start
    pattern matches [<record a>] (and the end pattern [</record a>]), up to
    that first [>], unless [a] begins with a hyphen; so [<record ...>] is
    matched, [<record-stub>] is not, and a name that goes on with any other
    character is matched too. *)
Theorem record_patterns_exclude_hyphen_only (a rest : string) :
  PyStr.contains ">" a = false ->
  Re.match_ MultiArxivParser.start_re ("<record" +:+ a +:+ ">" +:+ rest)
  = (if PyStr.startswith "-" a then None else Some ("<record" +:+ a +:+ ">"))
  /\
  Re.match_ MultiArxivParser.end_re ("</record" +:+ a +:+ ">" +:+ rest)
  = (if PyStr.startswith "-" a then None else Some ("</record" +:+ a +:+ ">")).
Proof.
  intros Ha. unfold MultiArxivParser.start_re, MultiArxivParser.end_re.
  rewrite !match_lit_app.
  change (">" +:+ rest) with (String ">" rest).
  rewrite (match_tag_rest a rest Ha).
  destruct (PyStr.startswith "-" a); split; reflexivity.
Qed.

Lemma record_patterns_exclude_hyphen_only_witness :
  Re.match_ MultiArxivParser.start_re "<record-stub>" = None /\
  Re.match_ MultiArxivParser.end_re "</record-stub>" = None.
Proof.
  exact (record_patterns_exclude_hyphen_only "-stub" "" eq_refl).
Defined.

(** C9, as stated, fails: [<records>] and [</records>] are matched. *)
Lemma record_patterns_match_longer_name :
  Re.match_ MultiArxivParser.start_re "<records>" = Some "<records>" /\
  Re.match_ MultiArxivParser.end_re "</records>" = Some "</records>".
Proof. split; reflexivity. Qed.

(** ** arXiv: schema dispatch *)

Section InList.

Lemma in_list_true s l : PyStr.in_list s l = true <-> s ∈ l.
Proof.
  unfold PyStr.in_list. rewrite existsb_exists, list_elem_of_In.
  split.
  - intros (x & Hx & He). apply String.eqb_eq in He. now subst.
  - intros Hs. exists s. split; [assumption | apply String.eqb_refl].
Qed.

Lemma in_list_false s l : PyStr.in_list s l = false <-> s ∉ l.
Proof.
  rewrite <- in_list_true. destruct (PyStr.in_list s l); split; congruence.
Qed.

Lemma truthy_false s : PyStr.truthy s = false <-> s = EmptyString.
Proof. destruct s; cbn; split; congruence. Qed.

End InList.

(** C2, where the code departs from it.  A record without an [oai_dc:dc]
    metadata root (a deleted record, which has a header only, or a record
    in arXiv's own metadata format) declares no Dublin Core schema, and
    [parse] does not raise NoSchemaException for it: lines 140-143 leave
    [input_metadata] at [None], and the read of [xmlns:oai_dc] in line 145
    raises AttributeError. *)
Theorem arxiv_parse_record_without_dc_root :
  let run doc :=
    @ArxivParser.parse (Sample.collaborators doc) Sample.source_text ArxivParser.init in
  ArxivParser.input_metadata (ArxivParser.locate Sample.arxiv_deleted ArxivParser.init) = None
  /\ run Sample.arxiv_deleted = Raise AttributeError
  /\ run Sample.arxiv_deleted <> Raise NoSchemaException
  /\ ArxivParser.input_metadata (ArxivParser.locate Sample.arxiv_native ArxivParser.init) = None
  /\ run Sample.arxiv_native = Raise AttributeError
  /\ run Sample.arxiv_native <> Raise NoSchemaException
  /\ run Sample.arxiv_native <> Raise WrongSchemaException.
Proof. cbv zeta. repeat split; vm_compute; congruence. Qed.

(** X20: the three outcomes of the schema check.  When [input_metadata]
    holds a metadata root [meta] after lines 140-143 (the [oai_dc:dc] element
    found in this document, or the one a parser that is used again still
    holds), [parse] raises NoSchemaException when [xmlns:oai_dc] is absent
    or empty, raises WrongSchemaException when it is present, not empty and
    not in DUBCORE_SCHEMA, and otherwise (the attribute is a member of
    DUBCORE_SCHEMA, whose only member is the OAI Dublin Core namespace) is
    the field extraction of lines 151-162. *)
Theorem arxiv_parse_schema_dispatch `{Collaborators}
    (text : string) (d : node) (self : ArxivParser.t) (meta : node) :
  bsstrtodict text = Some d ->
  ArxivParser.input_metadata (ArxivParser.locate d self) = Some meta ->
  (Soup.get "xmlns:oai_dc" meta = None \/ Soup.get "xmlns:oai_dc" meta = Some EmptyString ->
     ArxivParser.parse text self = Raise NoSchemaException)
  /\ (forall s, Soup.get "xmlns:oai_dc" meta = Some s -> s <> EmptyString ->
        s ∉ ArxivParser.DUBCORE_SCHEMA ->
        ArxivParser.parse text self = Raise WrongSchemaException)
  /\ (forall s, Soup.get "xmlns:oai_dc" meta = Some s ->
        s ∈ ArxivParser.DUBCORE_SCHEMA ->
        s = "http://www.openarchives.org/OAI/2.0/oai_dc/" /\
        ArxivParser.parse text self = ArxivParser.extract (ArxivParser.locate d self)).
Proof.
  intros Hd Hm. unfold ArxivParser.parse, ArxivParser.parse_tree.
  rewrite Hd. cbv zeta. rewrite Hm. cbn [Soup.deref mbind result_bind].
  unfold Soup.get_default. split; [|split].
  - intros [-> | ->]; reflexivity.
  - intros s -> Hne Hnot. destruct (PyStr.truthy s) eqn:E.
    + cbn [negb]. apply in_list_false in Hnot. now rewrite Hnot.
    + apply truthy_false in E. contradiction.
  - intros s -> Hin. pose proof Hin as Hs.
    apply list_elem_of_singleton in Hs. split; [exact Hs|].
    apply in_list_true in Hin. rewrite Hin. now subst s.
Qed.

Lemma arxiv_parse_schema_dispatch_witness :
  let doc attrs := Sample.arxiv_doc "oai:arXiv.org:0704.0001" (Sample.dc attrs Sample.arxiv_fields) in
  let run attrs :=
    @ArxivParser.parse (Sample.collaborators (doc attrs)) Sample.source_text ArxivParser.init in
  run [] = Raise NoSchemaException
  /\ run [("xmlns:oai_dc", "http://www.loc.gov/MARC21/slim")] = Raise WrongSchemaException
  /\ run [("xmlns:oai_dc", Sample.oai_dc_ns)]
     = @ArxivParser.extract (Sample.collaborators (doc [("xmlns:oai_dc", Sample.oai_dc_ns)]))
         (ArxivParser.locate (doc [("xmlns:oai_dc", Sample.oai_dc_ns)]) ArxivParser.init).
Proof.
  intros doc run. split; [|split].
  - apply (proj1 (@arxiv_parse_schema_dispatch (Sample.collaborators (doc []))
                    Sample.source_text (doc []) ArxivParser.init
                    (Sample.dc [] Sample.arxiv_fields) eq_refl eq_refl)).
    left. reflexivity.
  - pose (attrs := [("xmlns:oai_dc", "http://www.loc.gov/MARC21/slim")]).
    apply (proj1 (proj2 (@arxiv_parse_schema_dispatch (Sample.collaborators (doc attrs))
                    Sample.source_text (doc attrs) ArxivParser.init
                    (Sample.dc attrs Sample.arxiv_fields) eq_refl eq_refl))
             "http://www.loc.gov/MARC21/slim" eq_refl).
    + discriminate.
    + intros Hin. apply list_elem_of_singleton in Hin. discriminate.
  - pose (attrs := [("xmlns:oai_dc", Sample.oai_dc_ns)]).
    apply (proj2 (proj2 (@arxiv_parse_schema_dispatch (Sample.collaborators (doc attrs))
                    Sample.source_text (doc attrs) ArxivParser.init
                    (Sample.dc attrs Sample.arxiv_fields) eq_refl eq_refl))
             Sample.oai_dc_ns eq_refl).
    apply list_elem_of_singleton. reflexivity.
Defined.

(** ** arXiv: title *)

(** C7: with no [dc:title] node [_parse_title] raises
    MissingTitleException; with exactly one, the title is its cleaned text;
    with two or more, it is the cleaned join of all their texts, in document
    order, with the separator ": ". *)
Theorem arxiv_parse_title_cases `{Collaborators}
    (md : metadata) (hdr : option node) (meta : node) :
  let self := ArxivParser.Self md hdr (Some meta) in
  let titles := Soup.find_all "dc:title" meta in
  (titles = [] -> ArxivParser._parse_title self = Raise MissingTitleException)
  /\ (forall t, titles = [t] ->
        ArxivParser._parse_title self
        = Ok (ArxivParser.put (<["title" := VStr (_clean_output (Soup.get_text t))]> md) self))
  /\ (2 <= length titles ->
        ArxivParser._parse_title self
        = Ok (ArxivParser.put
                (<["title" := VStr (_clean_output
                                      (PyStr.join ": " (List.map Soup.get_text titles)))]> md)
                self)).
Proof.
  intros self titles. unfold ArxivParser._parse_title.
  cbn [ArxivParser.input_metadata self Soup.deref mbind result_bind].
  fold titles. split; [|split].
  - intros ->. reflexivity.
  - intros t ->. reflexivity.
  - intros Hlen. destruct titles as [|t1 [|t2 ts]]; cbn in Hlen; try lia.
    reflexivity.
Qed.

Lemma arxiv_parse_title_cases_witness :
  let C := Sample.collaborators (Text "") in
  let run fields :=
    base_title ← @ArxivParser._parse_title C
                   (ArxivParser.Self ∅ None (Some (Sample.dc [] fields)));
    Ok (ArxivParser.base_metadata base_title !! "title") in
  run [] = Raise MissingTitleException
  /\ run [Sample.dc_field "title" " A title "] = Ok (Some (VStr "A title"))
  /\ run [Sample.dc_field "title" "A title"; Sample.dc_field "creator" "Doe";
          Sample.dc_field "title" "a subtitle"; Sample.dc_field "title" "more"]
     = Ok (Some (VStr "A title: a subtitle: more")).
Proof.
  intros C run. unfold run. split; [|split].
  - rewrite (proj1 (@arxiv_parse_title_cases C ∅ None (Sample.dc [] [])) eq_refl).
    reflexivity.
  - rewrite (proj1 (proj2 (@arxiv_parse_title_cases C ∅ None
                             (Sample.dc [] [Sample.dc_field "title" " A title "])))
               _ eq_refl).
    reflexivity.
  - rewrite (proj2 (proj2 (@arxiv_parse_title_cases C ∅ None
               (Sample.dc [] [Sample.dc_field "title" "A title"; Sample.dc_field "creator" "Doe";
                              Sample.dc_field "title" "a subtitle"; Sample.dc_field "title" "more"])))).
    + reflexivity.
    + cbn. lia.
Defined.

(** ** Loops *)

Section ForEach.
Context {A S : Type} (body : A -> S -> result S).

Lemma for_each_app l1 l2 s :
  for_each body (l1 ++ l2) s = s' ← for_each body l1 s; for_each body l2 s'.
Proof.
  revert s. induction l1 as [|a l1 IH]; intros s; cbn; [reflexivity|].
  destruct (body a s); cbn; [apply IH | reflexivity].
Qed.

(** A loop whose every turn succeeds and keeps [I] succeeds and keeps [I]. *)
Lemma for_each_invariant (I : S -> Prop) l s :
  (forall a s, a ∈ l -> I s -> exists s', body a s = Ok s' /\ I s') ->
  I s -> exists s', for_each body l s = Ok s' /\ I s'.
Proof.
  revert s. induction l as [|a l IH]; intros s Hstep Hs; cbn.
  - eauto.
  - destruct (Hstep a s) as (s1 & -> & Hs1); [left | assumption |].
    cbn. apply IH; [|assumption].
    intros b t Hb. apply Hstep. now right.
Qed.

(** A loop whose turns return the state they got returns its argument. *)
Lemma for_each_skip l s :
  (forall a, a ∈ l -> body a s = Ok s) -> for_each body l s = Ok s.
Proof.
  induction l as [|a l IH]; intros Hskip; cbn; [reflexivity|].
  rewrite Hskip by left. cbn. apply IH. intros b Hb. apply Hskip. now right.
Qed.

(** If the loop returns, each turn kept [I]. *)
Lemma for_each_preserves (I : S -> Prop) l s s' :
  (forall a s s', a ∈ l -> body a s = Ok s' -> I s -> I s') ->
  for_each body l s = Ok s' -> I s -> I s'.
Proof.
  revert s. induction l as [|a l IH]; intros s Hstep; cbn.
  - intros [= <-]. auto.
  - destruct (body a s) as [s1|] eqn:E; cbn; [|discriminate].
    intros Hl Hs. apply (IH s1); [|assumption|].
    + intros b t t' Hb. apply Hstep. now right.
    + eapply Hstep; [left | exact E | exact Hs].
Qed.

End ForEach.

(** ** arXiv: identifiers *)

(** C8, as stated, fails: with the header identifier text "1234:doi:xyz"
    and a [dc:identifier] node "doi:xyz", the DOI is "xyz", and the preprint
    id is "xyz" as well, the final segment, not "1234". *)
Lemma arxiv_parse_ids_takes_final_segment :
  let self := ArxivParser.Self ∅
                (Some (Tag None "header" [] [Sample.field "identifier" "1234:doi:xyz"]))
                (Some (Sample.dc [] [Sample.dc_field "identifier" "doi:xyz"])) in
  let at_path path :=
    self' ← ArxivParser._parse_ids self;
    Ok (lookup_path path (ArxivParser.base_metadata self')) in
  at_path ["ids"; "doi"] = Ok (Some (VStr "xyz"))
  /\ at_path ["ids"; "preprint"; "id"] = Ok (Some (VStr "xyz"))
  /\ at_path ["ids"; "preprint"; "id"] <> Ok (Some (VStr "1234")).
Proof.
  cbv zeta. split; [|split].
  - vm_compute. reflexivity.
  - vm_compute. reflexivity.
  - vm_compute. discriminate.
Qed.

Section ArxivIds.

(** Lines 59-64: what the header identifier leaves in [base_metadata]. *)
Lemma arxiv_preprint_block (md : metadata) (P : value) (s : string) :
  exists d pd md',
    (md1 ← set_path ["ids"; "preprint"] "source" (VStr "arXiv")
             (<["ids" := VDict {["preprint" := VDict ∅]}]> (<["publication" := P]> md));
     set_path ["ids"; "preprint"] "id" (VStr s) md1) = Ok md'
    /\ md' !! "ids" = Some (VDict d)
    /\ d !! "preprint" = Some (VDict pd)
    /\ pd !! "id" = Some (VStr s)
    /\ pd !! "source" = Some (VStr "arXiv")
    /\ md' !! "publication" = Some P.
Proof.
  unfold set_path. cbn [update_path mbind result_bind].
  rewrite lookup_insert_eq, lookup_singleton_eq. cbn [mbind result_bind].
  rewrite !lookup_insert_eq. cbn [mbind result_bind].
  do 3 eexists. split; [reflexivity|].
  rewrite lookup_insert_eq. split; [reflexivity|].
  rewrite lookup_insert_eq. split; [reflexivity|].
  rewrite lookup_insert_eq. split; [reflexivity|].
  rewrite lookup_insert_ne by discriminate. rewrite lookup_insert_eq. split; [reflexivity|].
  rewrite !lookup_insert_ne by discriminate. now rewrite lookup_insert_eq.
Qed.

(** Line 70 on a [base_metadata] that has its "ids" dict. *)
Lemma arxiv_set_doi (md d : metadata) (v : value) :
  md !! "ids" = Some (VDict d) ->
  set_path ["ids"] "doi" v md = Ok (<["ids" := VDict (<["doi" := v]> d)]> md).
Proof.
  intros Hd. unfold set_path. cbn [update_path]. now rewrite Hd.
Qed.

End ArxivIds.

(** C8, as the code has it: when the header identifier text is [p:s] with
    no colon in [s], and [dcid] is the last [dc:identifier] node whose text
    contains "doi:", [_parse_ids] stores under ids.doi the text of [dcid]
    after [replace("doi:", "")], which takes out every occurrence of "doi:"
    and not only a leading one; so it stores [x] when the text is "doi:"
    followed by an [x] without a further "doi:".  Under ids.preprint.id it
    stores [s], the final colon-split segment (with source "arXiv" and the
    publication "eprint arXiv:" followed by [s]). *)
Theorem arxiv_parse_ids_final_segment
    (md : metadata) (hdr meta idn dcid : node) (pre post : list node) (p s : string) :
  Soup.find "identifier" hdr = Some idn ->
  Soup.get_text idn = p +:+ ":" +:+ s ->
  PyStr.contains ":" s = false ->
  Soup.find_all "dc:identifier" meta = pre ++ dcid :: post ->
  PyStr.contains "doi:" (Soup.get_text dcid) = true ->
  Forall (fun n => PyStr.contains "doi:" (Soup.get_text n) = false) post ->
  exists md',
    ArxivParser._parse_ids (ArxivParser.Self md (Some hdr) (Some meta))
    = Ok (ArxivParser.Self md' (Some hdr) (Some meta))
    /\ lookup_path ["ids"; "doi"] md'
       = Some (VStr (PyStr.replace "doi:" "" (Soup.get_text dcid)))
    /\ (forall x, Soup.get_text dcid = "doi:" +:+ x ->
                  PyStr.contains "doi:" x = false ->
                  lookup_path ["ids"; "doi"] md' = Some (VStr x))
    /\ lookup_path ["ids"; "preprint"; "id"] md' = Some (VStr s)
    /\ lookup_path ["ids"; "preprint"; "source"] md' = Some (VStr "arXiv")
    /\ md' !! "publication" = Some (VStr ("eprint arXiv:" +:+ s)).
Proof.
  intros Hidn Htext Hs Hall Hdoi Hpost.
  unfold ArxivParser._parse_ids.
  cbn [ArxivParser.base_metadata ArxivParser.input_header ArxivParser.input_metadata
       Soup.deref mbind result_bind].
  rewrite Hidn. cbv zeta. rewrite Htext. unfold last_item.
  rewrite split_last_segment by assumption. cbn [mbind result_bind].
  destruct (arxiv_preprint_block md (VStr ("eprint arXiv:" +:+ s)) s)
    as (d0 & pd & md1 & -> & Hids & Hpre & Hid & Hsrc & Hpub).
  cbn [mbind result_bind]. rewrite Hall, for_each_app.
  set (body := fun (d : node) (md : metadata) => _).
  set (I := fun md : metadata =>
              exists d, md !! "ids" = Some (VDict d)
                        /\ d !! "preprint" = Some (VDict pd)
                        /\ md !! "publication" = Some (VStr ("eprint arXiv:" +:+ s))).
  destruct (for_each_invariant body I pre md1) as (md2 & -> & (d2 & Hids2 & Hpre2 & Hpub2)).
  { intros a m _ (d & Hd & Hp & Hq). unfold body.
    destruct (PyStr.contains "doi:" (Soup.get_text a)); [|exists m; split; [reflexivity | exists d; auto]].
    rewrite (arxiv_set_doi m d) by assumption. eexists. split; [reflexivity|].
    exists (<["doi" := VStr (PyStr.replace "doi:" "" (Soup.get_text a))]> d).
    rewrite lookup_insert_eq. split; [reflexivity|].
    rewrite !lookup_insert_ne by discriminate. auto. }
  { exists d0. auto. }
  subst body. cbn [mbind result_bind for_each]. rewrite Hdoi.
  rewrite (arxiv_set_doi md2 d2) by assumption. cbn [mbind result_bind].
  rewrite for_each_skip.
  2:{ intros a Ha. rewrite Forall_forall in Hpost.
      now rewrite (Hpost a Ha). }
  cbn [mbind result_bind]. eexists. split; [reflexivity|].
  cbn [lookup_path]. rewrite !lookup_insert_eq.
  rewrite !(lookup_insert_ne _ "doi" "preprint") by discriminate.
  rewrite Hpre2, (lookup_insert_ne _ "ids" "publication") by discriminate.
  split; [reflexivity|]. split; [|auto].
  intros x Hx Hnone. now rewrite Hx, replace_doi_prefix.
Qed.

Lemma arxiv_parse_ids_final_segment_witness :
  let hdr := Tag None "header" [] [Sample.field "identifier" "1234:doi:xyz"] in
  let meta := Sample.dc [] (Sample.arxiv_fields
                            ++ [Sample.dc_field "identifier" "doi:10.1/doi:abc";
                                Sample.dc_field "identifier" "arXiv:0704.0001"]) in
  exists md',
    ArxivParser._parse_ids (ArxivParser.Self ∅ (Some hdr) (Some meta))
    = Ok (ArxivParser.Self md' (Some hdr) (Some meta))
    /\ lookup_path ["ids"; "doi"] md' = Some (VStr "10.1/abc")
    /\ lookup_path ["ids"; "preprint"; "id"] md' = Some (VStr "xyz")
    /\ lookup_path ["ids"; "preprint"; "source"] md' = Some (VStr "arXiv")
    /\ md' !! "publication" = Some (VStr "eprint arXiv:xyz").
Proof.
  intros hdr meta.
  destruct (arxiv_parse_ids_final_segment ∅ hdr meta
              (Sample.field "identifier" "1234:doi:xyz")
              (Sample.dc_field "identifier" "doi:10.1/doi:abc")
              [Sample.dc_field "identifier" "http://arxiv.org/abs/0704.0001";
               Sample.dc_field "identifier" "doi:10.1000/xyz"]
              [Sample.dc_field "identifier" "arXiv:0704.0001"]
              "1234:doi" "xyz" eq_refl eq_refl eq_refl eq_refl eq_refl)
    as (md' & Hr & Hdoi & _ & Hrest).
  { repeat constructor. }
  exists md'. split; [exact Hr|]. split; [exact Hdoi | exact Hrest].
Defined.

(** ** Results *)

Section Results.

Lemma bind_ok {A B} (r : result A) (k : A -> result B) (b : B) :
  r ≫= k = Ok b -> exists a, r = Ok a /\ k a = Ok b.
Proof. destruct r as [a|e]; cbn; [eauto | discriminate]. Qed.

Lemma deref_ok (o : option node) (n : node) : Soup.deref o = Ok n -> o = Some n.
Proof. destruct o; cbn; congruence. Qed.

End Results.

(** Splits a hypothesis [x ← r; k = Ok b] into [r = Ok x] and [k = Ok b]. *)
Ltac bind_inv H :=
  let x := fresh "x" in
  let E := fresh "E" in
  apply bind_ok in H as (x & E & H).

(** [bind_inv] with names for the value and for the first equation. *)
Tactic Notation "bind_as" hyp(H) ident(x) ident(E) :=
  apply bind_ok in H as (x & E & H).

Section ArxivFrame.
Context `{Collaborators}.

(** [_parse_ids] and [_parse_title] only write [base_metadata]. *)
Lemma arxiv_parse_ids_fields self self' :
  ArxivParser._parse_ids self = Ok self' ->
  ArxivParser.input_metadata self' = ArxivParser.input_metadata self.
Proof.
  unfold ArxivParser._parse_ids. intros Hr.
  bind_inv Hr. bind_inv Hr. bind_inv Hr. bind_inv Hr.
  now injection Hr as <-.
Qed.

Lemma arxiv_parse_title_fields self self' :
  ArxivParser._parse_title self = Ok self' ->
  ArxivParser.input_metadata self' = ArxivParser.input_metadata self.
Proof.
  unfold ArxivParser._parse_title. intros Hr. bind_inv Hr.
  destruct (Soup.find_all "dc:title" x) as [|t ts]; [discriminate|].
  destruct (length (t :: ts) =? 1)%nat.
  - bind_inv Hr. now injection Hr as <-.
  - now injection Hr as <-.
Qed.

End ArxivFrame.


(** ** Wiley: electronic publication date *)

Section PubdateLoop.
Import WileyParser.

Lemma getitem_some k n v : Soup.get k n = Some v -> Soup.getitem k n = Ok v.
Proof. unfold Soup.getitem. now intros ->. Qed.

Lemma getitem_ok k n v : Soup.getitem k n = Ok v -> Soup.get k n = Some v.
Proof. unfold Soup.getitem. destruct (Soup.get k n); congruence. Qed.

Lemma eqb_other ty ty' e :
  Soup.get "type" e = Some ty -> ~ Event.has_type ty' e -> String.eqb ty ty' = false.
Proof.
  intros Hty Hnot. apply String.eqb_neq. intros ->. now apply Hnot.
Qed.

(** One turn of the loop on a [firstOnline] node. *)
Lemma pubdate_loop_first_online e date events found md :
  Event.has_type "firstOnline" e -> Soup.get "date" e = Some date ->
  pubdate_loop (e :: events) found md = Ok (<["pubdate_electronic" := VStr date]> md).
Proof.
  intros Hty Hdate. cbn [pubdate_loop].
  rewrite (getitem_some _ _ _ Hty), (getitem_some _ _ _ Hdate). reflexivity.
Qed.

(** One turn on a [publishedOnlineFinalForm] node. *)
Lemma pubdate_loop_final_form e date events found md :
  Event.has_type "publishedOnlineFinalForm" e -> Soup.get "date" e = Some date ->
  pubdate_loop (e :: events) found md
  = pubdate_loop events true (<["pubdate_electronic" := VStr date]> md).
Proof.
  intros Hty Hdate. cbn [pubdate_loop].
  rewrite (getitem_some _ _ _ Hty), (getitem_some _ _ _ Hdate). reflexivity.
Qed.

(** One turn on a [publishedOnlineAccepted] node. *)
Lemma pubdate_loop_accepted e date events found md :
  Event.has_type "publishedOnlineAccepted" e -> Soup.get "date" e = Some date ->
  pubdate_loop (e :: events) found md
  = if found then pubdate_loop events found md
    else pubdate_loop events found (<["pubdate_electronic" := VStr date]> md).
Proof.
  intros Hty Hdate. cbn [pubdate_loop].
  rewrite (getitem_some _ _ _ Hty). cbn.
  destruct found; cbn; [reflexivity|].
  now rewrite (getitem_some _ _ _ Hdate).
Qed.

(** One turn on a well-formed node that is not [firstOnline]. *)
Lemma pubdate_loop_step e events found md :
  Event.well_formed e -> ~ Event.has_type "firstOnline" e ->
  exists found' md',
    pubdate_loop (e :: events) found md = pubdate_loop events found' md'
    /\ (found = true -> found' = true)
    /\ (~ Event.has_type "publishedOnlineFinalForm" e -> found' = found)
    /\ (~ Event.has_type "publishedOnlineFinalForm" e -> found = true -> md' = md)
    /\ (~ Event.has_type "publishedOnlineFinalForm" e ->
        ~ Event.has_type "publishedOnlineAccepted" e -> md' = md).
Proof.
  intros [[ty Hty] [date Hdate]] HnA. cbn [pubdate_loop].
  rewrite (getitem_some _ _ _ Hty), (getitem_some _ _ _ Hdate). cbn [mbind result_bind].
  rewrite (eqb_other _ _ _ Hty HnA).
  destruct (String.eqb ty "publishedOnlineFinalForm") eqn:EB.
  { apply String.eqb_eq in EB. subst ty.
    exists true, (<["pubdate_electronic" := VStr date]> md).
    split; [reflexivity|]. repeat split; auto; intros Hn; now destruct Hn. }
  destruct (String.eqb ty "publishedOnlineAccepted") eqn:EC.
  { apply String.eqb_eq in EC. subst ty. destruct found; cbn.
    - exists true, md. repeat split; auto; intros _ Hn; now destruct Hn.
    - exists false, (<["pubdate_electronic" := VStr date]> md).
      repeat split; auto; try discriminate. intros _ Hn. now destruct Hn. }
  cbn. exists found, md. repeat split; auto.
Qed.

(** A well-formed stretch without [firstOnline] is passed over; [found] can
    only be set by it, and only by a [publishedOnlineFinalForm] node. *)
Lemma pubdate_loop_prefix pre rest found md :
  Forall Event.well_formed pre -> Event.none_of "firstOnline" pre ->
  exists found' md',
    pubdate_loop (pre ++ rest) found md = pubdate_loop rest found' md'
    /\ (found = true -> found' = true)
    /\ (Event.none_of "publishedOnlineFinalForm" pre -> found' = found).
Proof.
  revert found md. induction pre as [|e pre IH]; intros found md Hwf HnA.
  - exists found, md. cbn. auto.
  - inversion Hwf as [|? ? He Hpre]; subst. inversion HnA as [|? ? HeA HpreA]; subst.
    destruct (pubdate_loop_step e (pre ++ rest) found md He HeA)
      as (f1 & m1 & E1 & Hf1 & Hk1 & _).
    destruct (IH f1 m1 Hpre HpreA) as (f2 & m2 & E2 & Hf2 & Hk2).
    exists f2, m2. cbn [app]. rewrite E1, E2. split; [reflexivity|]. split.
    + auto.
    + intros HnB. inversion HnB; subst. rewrite Hk2, Hk1 by assumption. reflexivity.
Qed.

(** After a [publishedOnlineFinalForm] node, a well-formed rest without
    [firstOnline] and [publishedOnlineFinalForm] leaves the date alone. *)
Lemma pubdate_loop_rest_found post md :
  Forall Event.well_formed post -> Event.none_of "firstOnline" post ->
  Event.none_of "publishedOnlineFinalForm" post ->
  pubdate_loop post true md = Ok md.
Proof.
  induction post as [|e post IH]; intros Hwf HnA HnB; [reflexivity|].
  inversion Hwf; inversion HnA; inversion HnB; subst.
  destruct (pubdate_loop_step e post true md) as (f1 & m1 & -> & Hf1 & _ & Hm1 & _);
    [assumption..|].
  rewrite Hf1, Hm1 by auto. now apply IH.
Qed.

(** A well-formed rest without any of the three types leaves the date alone. *)
Lemma pubdate_loop_rest_none post found md :
  Forall Event.well_formed post -> Event.none_of "firstOnline" post ->
  Event.none_of "publishedOnlineFinalForm" post ->
  Event.none_of "publishedOnlineAccepted" post ->
  pubdate_loop post found md = Ok md.
Proof.
  induction post as [|e post IH]; intros Hwf HnA HnB HnC; [reflexivity|].
  inversion Hwf; inversion HnA; inversion HnB; inversion HnC; subst.
  destruct (pubdate_loop_step e post found md) as (f1 & m1 & -> & _ & Hf1 & _ & Hm1);
    [assumption..|].
  rewrite Hf1, Hm1 by auto. now apply IH.
Qed.

(** Whatever the order of the nodes: if some node is [firstOnline] and the
    loop returns, the date it leaves is that of a [firstOnline] node. *)
Lemma pubdate_loop_tier_a events found md md' :
  (exists e, e ∈ events /\ Event.has_type "firstOnline" e) ->
  pubdate_loop events found md = Ok md' ->
  exists e date,
    e ∈ events /\ Event.has_type "firstOnline" e /\ Soup.get "date" e = Some date
    /\ md' !! "pubdate_electronic" = Some (VStr date).
Proof.
  revert found md. induction events as [|d events IH]; intros found md (e & He & HeA) Hr.
  - inversion He.
  - cbn [pubdate_loop] in Hr. bind_inv Hr. apply getitem_ok in E.
    assert (Hrest : forall f m, String.eqb x "firstOnline" = false ->
               pubdate_loop events f m = Ok md' ->
               exists e date, e ∈ d :: events /\ Event.has_type "firstOnline" e
                 /\ Soup.get "date" e = Some date
                 /\ md' !! "pubdate_electronic" = Some (VStr date)).
    { intros f m Hx Hl.
      destruct (IH f m) as (e' & date & He' & HA' & Hd' & Hm'); [|assumption|].
      - exists e. split; [|assumption]. inversion He; subst; [|assumption].
        unfold Event.has_type in HeA. rewrite E in HeA. injection HeA as ->.
        discriminate.
      - exists e', date. repeat split; auto. now right. }
    destruct (String.eqb x "firstOnline") eqn:EA.
    + apply String.eqb_eq in EA. subst x. bind_inv Hr. apply getitem_ok in E0.
      injection Hr as <-. exists d, x. repeat split; auto; [left|].
      now rewrite lookup_insert_eq.
    + destruct (String.eqb x "publishedOnlineFinalForm").
      { bind_inv Hr. eapply Hrest; eauto. }
      destruct (String.eqb x "publishedOnlineAccepted" && negb found).
      { bind_inv Hr. eapply Hrest; eauto. }
      eapply Hrest; eauto.
Qed.

(** On well-formed nodes the loop returns. *)
Lemma pubdate_loop_total events found md :
  Forall Event.well_formed events -> exists md', pubdate_loop events found md = Ok md'.
Proof.
  revert found md. induction events as [|d events IH]; intros found md Hwf.
  - now exists md.
  - inversion Hwf as [|? ? [[ty Hty] [date Hdate]] Hrest]; subst. cbn [pubdate_loop].
    rewrite (getitem_some _ _ _ Hty), (getitem_some _ _ _ Hdate). cbn [mbind result_bind].
    destruct (String.eqb ty "firstOnline"); [eauto|].
    destruct (String.eqb ty "publishedOnlineFinalForm"); [now apply IH|].
    destruct (String.eqb ty "publishedOnlineAccepted" && negb found); now apply IH.
Qed.

(** With a [startDate] on the cover date, if there is one, lines 79-90
    return, and they leave "pubdate_electronic" alone. *)
Lemma pubdate_print_total part md :
  (forall cd, Soup.find "coverDate" part = Some cd -> is_Some (Soup.get "startDate" cd)) ->
  exists md1, pubdate_print part md = Ok md1
              /\ md1 !! "pubdate_electronic" = md !! "pubdate_electronic".
Proof.
  intros Hcd. unfold pubdate_print.
  destruct (Soup.find "coverDate" part) as [cd|]; [|now exists md].
  destruct (Hcd cd eq_refl) as [start Hstart].
  rewrite (getitem_some _ _ _ Hstart). cbn [mbind result_bind]. unfold PyStr.split.
  pose proof (split_go_nonempty "-" start 0 EmptyString) as Hne.
  destruct (PyStr.split_go "-" start 0 EmptyString) as [|y ys]; [congruence|].
  cbn. eexists. split; [reflexivity|]. now rewrite lookup_insert_ne.
Qed.

End PubdateLoop.

(** C1: when the unit-level [publicationMeta] holds an event node of type
    [firstOnline], whatever the order of the event nodes: if
    [_parse_pubdate] returns, "pubdate_electronic" is the date of a
    [firstOnline] node (so of no node of the two lower tiers); and it does
    return when the part-level [publicationMeta] is there, its cover date,
    if any, has a [startDate], and the event nodes carry [type] and
    [date]. *)
Theorem wiley_pubdate_first_online_outranks (self : WileyParser.t) (unit : node) :
  WileyParser.pubmeta_unit self = Some unit ->
  (exists e, e ∈ Soup.find_all "event" unit /\ Event.has_type "firstOnline" e) ->
  (forall self',
      WileyParser._parse_pubdate self = Ok self' ->
      exists e date,
        e ∈ Soup.find_all "event" unit
        /\ Event.has_type "firstOnline" e
        /\ ~ Event.has_type "publishedOnlineFinalForm" e
        /\ ~ Event.has_type "publishedOnlineAccepted" e
        /\ Soup.get "date" e = Some date
        /\ WileyParser.base_metadata self' !! "pubdate_electronic" = Some (VStr date))
  /\ (forall part,
         WileyParser.pubmeta_part self = Some part ->
         (forall cd, Soup.find "coverDate" part = Some cd ->
                     is_Some (Soup.get "startDate" cd)) ->
         Forall Event.well_formed (Soup.find_all "event" unit) ->
         exists self', WileyParser._parse_pubdate self = Ok self').
Proof.
  intros Hunit HA. split.
  - intros self' Hr. unfold WileyParser._parse_pubdate in Hr.
    bind_inv Hr. bind_inv Hr. bind_inv Hr. bind_inv Hr.
    apply deref_ok in E1. rewrite Hunit in E1. injection E1 as <-.
    injection Hr as <-. cbn [WileyParser.put WileyParser.base_metadata].
    destruct (pubdate_loop_tier_a _ _ _ _ HA E2) as (e & date & He & HeA & Hd & Hm).
    exists e, date. unfold Event.has_type in *.
    repeat split; auto; rewrite HeA; discriminate.
  - intros part Hpart Hcd Hwf. unfold WileyParser._parse_pubdate.
    rewrite Hpart, Hunit. cbn [Soup.deref mbind result_bind].
    destruct (pubdate_print_total part (WileyParser.base_metadata self) Hcd)
      as (md1 & -> & _).
    cbn [mbind result_bind].
    destruct (pubdate_loop_total (Soup.find_all "event" unit) false md1 Hwf) as (md2 & ->).
    cbn. eauto.
Qed.

Lemma wiley_pubdate_first_online_outranks_witness :
  let events := [Sample.event "publishedOnlineAccepted" "2020-01-03";
                 Sample.event "publishedOnlineFinalForm" "2020-01-02";
                 Sample.event "firstOnline" "2020-01-01";
                 Sample.event "publishedOnlineFinalForm" "2020-01-04"] in
  let unit := Tag None "publicationMeta" [("level", "unit")] [Tag None "eventGroup" [] events] in
  let part := Tag None "publicationMeta" [("level", "part")] [] in
  let self := WileyParser.Self ∅ None (Some part) (Some unit) None None in
  exists self',
    WileyParser._parse_pubdate self = Ok self'
    /\ exists e date,
        e ∈ Soup.find_all "event" unit
        /\ Event.has_type "firstOnline" e
        /\ ~ Event.has_type "publishedOnlineFinalForm" e
        /\ ~ Event.has_type "publishedOnlineAccepted" e
        /\ Soup.get "date" e = Some date
        /\ WileyParser.base_metadata self' !! "pubdate_electronic" = Some (VStr date).
Proof.
  intros events unit part self.
  assert (HA : exists e, e ∈ Soup.find_all "event" unit /\ Event.has_type "firstOnline" e).
  { exists (Sample.event "firstOnline" "2020-01-01"). split; [|reflexivity].
    do 2 right. left. }
  destruct (wiley_pubdate_first_online_outranks self unit eq_refl HA) as [Hdate Htotal].
  destruct (Htotal part eq_refl) as (self' & Hr).
  - intros cd Hcd. discriminate Hcd.
  - repeat constructor; eexists; reflexivity.
  - exists self'. split; [exact Hr | exact (Hdate self' Hr)].
Defined.

(** C6, as stated, fails: of two [firstOnline] nodes the first one is kept,
    since the loop ends there. *)
Lemma wiley_pubdate_first_of_two_first_online :
  let events := [Sample.event "firstOnline" "2020-01-01";
                 Sample.event "firstOnline" "2020-03-01"] in
  let unit := Tag None "publicationMeta" [("level", "unit")] [Tag None "eventGroup" [] events] in
  let part := Tag None "publicationMeta" [("level", "part")] [] in
  let self := WileyParser.Self ∅ None (Some part) (Some unit) None None in
  let stored :=
    self' ← WileyParser._parse_pubdate self;
    Ok (WileyParser.base_metadata self' !! "pubdate_electronic") in
  stored = Ok (Some (VStr "2020-01-01")) /\ stored <> Ok (Some (VStr "2020-03-01")).
Proof.
  cbv zeta. split.
  - vm_compute. reflexivity.
  - vm_compute. discriminate.
Qed.

(** C6, as the code has it.  Let the event nodes be [pre], then [e], then
    [post], all nodes before [e] well formed and none of them
    [firstOnline].  (a) If [e] is [firstOnline], its date is kept: the first
    such node wins, whatever follows.  (b) If [e] is
    [publishedOnlineFinalForm] and no [firstOnline] or
    [publishedOnlineFinalForm] node follows, its date is kept: within this
    tier the last node wins.  (c) If [e] is [publishedOnlineAccepted], no
    node of the two higher tiers exists and no [publishedOnlineAccepted]
    node follows, its date is kept: within this tier the last node wins. *)
Theorem wiley_pubdate_within_tier
    (self : WileyParser.t) (part unit e : node) (pre post : list node) (date : string) :
  WileyParser.pubmeta_part self = Some part ->
  WileyParser.pubmeta_unit self = Some unit ->
  (forall cd, Soup.find "coverDate" part = Some cd -> is_Some (Soup.get "startDate" cd)) ->
  Soup.find_all "event" unit = pre ++ e :: post ->
  Forall Event.well_formed pre ->
  Event.none_of "firstOnline" pre ->
  Soup.get "date" e = Some date ->
  let kept :=
    exists self',
      WileyParser._parse_pubdate self = Ok self'
      /\ WileyParser.base_metadata self' !! "pubdate_electronic" = Some (VStr date) in
  (Event.has_type "firstOnline" e -> kept)
  /\ (Event.has_type "publishedOnlineFinalForm" e ->
      Forall Event.well_formed post ->
      Event.none_of "firstOnline" post ->
      Event.none_of "publishedOnlineFinalForm" post ->
      kept)
  /\ (Event.has_type "publishedOnlineAccepted" e ->
      Forall Event.well_formed post ->
      Event.none_of "firstOnline" post ->
      Event.none_of "publishedOnlineFinalForm" pre ->
      Event.none_of "publishedOnlineFinalForm" post ->
      Event.none_of "publishedOnlineAccepted" post ->
      kept).
Proof.
  intros Hpart Hunit Hcd Hev Hwf HnA Hdate kept.
  assert (Hprefix : forall md1, exists found' md2,
             WileyParser.pubdate_loop (pre ++ e :: post) false md1
             = WileyParser.pubdate_loop (e :: post) found' md2
             /\ (Event.none_of "publishedOnlineFinalForm" pre -> found' = false)).
  { intros md1.
    destruct (pubdate_loop_prefix pre (e :: post) false md1 Hwf HnA)
      as (f & m & E & _ & Hf).
    exists f, m. auto. }
  split; [|split].
  - intros HA. unfold kept, WileyParser._parse_pubdate.
    rewrite Hpart, Hunit. cbn [Soup.deref mbind result_bind].
    destruct (pubdate_print_total part (WileyParser.base_metadata self) Hcd)
      as (md1 & -> & _).
    cbn [mbind result_bind]. rewrite Hev.
    destruct (Hprefix md1) as (f & m & -> & _).
    rewrite (pubdate_loop_first_online e date post f m HA Hdate).
    cbn [mbind result_bind]. eexists. split; [reflexivity|].
    cbn. now rewrite lookup_insert_eq.
  - intros HB Hwfp HnAp HnBp. unfold kept, WileyParser._parse_pubdate.
    rewrite Hpart, Hunit. cbn [Soup.deref mbind result_bind].
    destruct (pubdate_print_total part (WileyParser.base_metadata self) Hcd)
      as (md1 & -> & _).
    cbn [mbind result_bind]. rewrite Hev.
    destruct (Hprefix md1) as (f & m & -> & _).
    rewrite (pubdate_loop_final_form e date post f m HB Hdate).
    rewrite pubdate_loop_rest_found by assumption.
    cbn [mbind result_bind]. eexists. split; [reflexivity|].
    cbn. now rewrite lookup_insert_eq.
  - intros HC Hwfp HnAp HnB HnBp HnCp. unfold kept, WileyParser._parse_pubdate.
    rewrite Hpart, Hunit. cbn [Soup.deref mbind result_bind].
    destruct (pubdate_print_total part (WileyParser.base_metadata self) Hcd)
      as (md1 & -> & _).
    cbn [mbind result_bind]. rewrite Hev.
    destruct (Hprefix md1) as (f & m & -> & Hf). rewrite (Hf HnB).
    rewrite (pubdate_loop_accepted e date post false m HC Hdate).
    rewrite pubdate_loop_rest_none by assumption.
    cbn [mbind result_bind]. eexists. split; [reflexivity|].
    cbn. now rewrite lookup_insert_eq.
Qed.

Lemma wiley_pubdate_within_tier_witness :
  let run events :=
    self' ← WileyParser._parse_pubdate
              (WileyParser.Self ∅ None
                 (Some (Tag None "publicationMeta" [("level", "part")] []))
                 (Some (Tag None "publicationMeta" [("level", "unit")] [Tag None "eventGroup" [] events]))
                 None None);
    Ok (WileyParser.base_metadata self' !! "pubdate_electronic") in
  run [Sample.event "publishedOnlineFinalForm" "2020-02-01";
       Sample.event "firstOnline" "2020-01-01";
       Sample.event "firstOnline" "2020-03-01";
       Sample.event "publishedOnlineAccepted" "2020-04-01"]
  = Ok (Some (VStr "2020-01-01"))
  /\ run [Sample.event "publishedOnlineAccepted" "2019-12-01";
          Sample.event "publishedOnlineFinalForm" "2020-02-01";
          Sample.event "publishedOnlineFinalForm" "2020-02-02";
          Sample.event "publishedOnlineAccepted" "2020-04-01"]
     = Ok (Some (VStr "2020-02-02"))
  /\ run [Sample.event "publishedOnlineAccepted" "2019-12-01";
          Sample.event "manuscriptReceived" "2019-10-01";
          Sample.event "publishedOnlineAccepted" "2019-12-02";
          Sample.event "manuscriptAccepted" "2019-11-01"]
     = Ok (Some (VStr "2019-12-02")).
Proof.
  intros run.
  pose (part := Tag None "publicationMeta" [("level", "part")] []).
  pose (unit := fun events =>
                  Tag None "publicationMeta" [("level", "unit")] [Tag None "eventGroup" [] events]).
  pose (self := fun events =>
                  WileyParser.Self ∅ None (Some part) (Some (unit events)) None None).
  assert (Hcd : forall cd, Soup.find "coverDate" part = Some cd ->
                           is_Some (Soup.get "startDate" cd))
    by (intros cd Hcd; discriminate Hcd).
  assert (Hrun : forall events date,
             (exists self', WileyParser._parse_pubdate (self events) = Ok self'
                /\ WileyParser.base_metadata self' !! "pubdate_electronic"
                   = Some (VStr date)) ->
             run events = Ok (Some (VStr date))).
  { intros events date (self' & Hr & Hk). unfold run. fold part. fold (unit events).
    fold (self events). rewrite Hr. cbn. now rewrite Hk. }
  split; [|split]; apply Hrun.
  - pose (pre := [Sample.event "publishedOnlineFinalForm" "2020-02-01"]).
    pose (post := [Sample.event "firstOnline" "2020-03-01";
                   Sample.event "publishedOnlineAccepted" "2020-04-01"]).
    apply (proj1 (wiley_pubdate_within_tier (self (pre ++ Sample.event "firstOnline" "2020-01-01" :: post))
                    part (unit (pre ++ Sample.event "firstOnline" "2020-01-01" :: post))
                    (Sample.event "firstOnline" "2020-01-01") pre post "2020-01-01"
                    eq_refl eq_refl Hcd eq_refl
                    ltac:(repeat constructor; eexists; reflexivity)
                    ltac:(repeat constructor; intros Ht; vm_compute in Ht; discriminate)
                    eq_refl)).
    reflexivity.
  - pose (pre := [Sample.event "publishedOnlineAccepted" "2019-12-01";
                  Sample.event "publishedOnlineFinalForm" "2020-02-01"]).
    pose (post := [Sample.event "publishedOnlineAccepted" "2020-04-01"]).
    apply (proj1 (proj2 (wiley_pubdate_within_tier
                    (self (pre ++ Sample.event "publishedOnlineFinalForm" "2020-02-02" :: post))
                    part (unit (pre ++ Sample.event "publishedOnlineFinalForm" "2020-02-02" :: post))
                    (Sample.event "publishedOnlineFinalForm" "2020-02-02") pre post "2020-02-02"
                    eq_refl eq_refl Hcd eq_refl
                    ltac:(repeat constructor; eexists; reflexivity)
                    ltac:(repeat constructor; intros Ht; vm_compute in Ht; discriminate)
                    eq_refl))).
    + reflexivity.
    + repeat constructor; eexists; reflexivity.
    + repeat constructor; intros Ht; vm_compute in Ht; discriminate.
    + repeat constructor; intros Ht; vm_compute in Ht; discriminate.
  - pose (pre := [Sample.event "publishedOnlineAccepted" "2019-12-01";
                  Sample.event "manuscriptReceived" "2019-10-01"]).
    pose (post := [Sample.event "manuscriptAccepted" "2019-11-01"]).
    apply (proj2 (proj2 (wiley_pubdate_within_tier
                    (self (pre ++ Sample.event "publishedOnlineAccepted" "2019-12-02" :: post))
                    part (unit (pre ++ Sample.event "publishedOnlineAccepted" "2019-12-02" :: post))
                    (Sample.event "publishedOnlineAccepted" "2019-12-02") pre post "2019-12-02"
                    eq_refl eq_refl Hcd eq_refl
                    ltac:(repeat constructor; eexists; reflexivity)
                    ltac:(repeat constructor; intros Ht; vm_compute in Ht; discriminate)
                    eq_refl))).
    + reflexivity.
    + repeat constructor; eexists; reflexivity.
    + repeat constructor; intros Ht; vm_compute in Ht; discriminate.
    + repeat constructor; intros Ht; vm_compute in Ht; discriminate.
    + repeat constructor; intros Ht; vm_compute in Ht; discriminate.
    + repeat constructor; intros Ht; vm_compute in Ht; discriminate.
Defined.

(** ** Wiley: authors and affiliations *)

Section WileyAuthors.
Import WileyParser.

(** One turn of the loop over the labels appends to both lists. *)
Lemma resolve_label_lengths aff_dict a akey affs xaffs akey' affs' xaffs' :
  resolve_label aff_dict a (akey, affs, xaffs) = Ok (akey', affs', xaffs') ->
  length affs = length xaffs -> length affs' = length xaffs'.
Proof.
  unfold resolve_label.
  destruct (choose_akey aff_dict a akey) as [k|]; [|discriminate].
  destruct (aff_dict !! k); [|discriminate].
  intros [= <- <- <-] Hlen. rewrite !length_app, Hlen. reflexivity.
Qed.

Lemma resolve_labels_lengths aff_dict labels akey akey' affs' xaffs' :
  for_each (resolve_label aff_dict) labels (akey, [], []) = Ok (akey', affs', xaffs') ->
  length affs' = length xaffs'.
Proof.
  intros Hr.
  apply (for_each_preserves (resolve_label aff_dict)
           (fun st => length st.1.2 = length st.2) labels _ _) in Hr;
    [exact Hr | | reflexivity].
  intros a [[ak af] xf] [[ak' af'] xf'] _ Hstep Hlen.
  exact (resolve_label_lengths _ _ _ _ _ _ _ _ Hstep Hlen).
Qed.

(** The keys "aff" and "xaff" are only written by lines 176-177. *)
Lemma author_entry_lengths aff_dict c akey akey' entry affs xaffs :
  author_entry aff_dict c akey = Ok (akey', entry) ->
  entry !! "aff" = Some (VList affs) ->
  entry !! "xaff" = Some (VList xaffs) ->
  length affs = length xaffs.
Proof.
  unfold author_entry. cbv zeta. intros Hr Haff Hxaff. bind_inv Hr.
  destruct (Soup.has_attr "affiliationRef" c).
  - bind_inv Hr. bind_inv Hr. destruct x1 as [[ak af] xf]. injection Hr as <- <-.
    rewrite lookup_insert_ne, lookup_insert_eq in Haff by discriminate.
    rewrite lookup_insert_eq in Hxaff.
    injection Haff as <-. injection Hxaff as <-.
    exact (resolve_labels_lengths _ _ _ _ _ _ E1).
  - injection Hr as <- <-. exfalso.
    assert (Hnone : x !! "aff" = None); [|destruct (Soup.find "email" c);
      [rewrite lookup_insert_ne in Haff by discriminate|]; congruence].
    eapply (for_each_preserves _ (fun tmp : metadata => tmp !! "aff" = None)); [|exact E|].
    + intros id tmp tmp' _ Hstep Htmp. bind_inv Hstep.
      destruct (String.eqb x0 "orcid"); [|congruence].
      bind_inv Hstep. destruct (Re.search orcid_format x1); injection Hstep as <-;
        [now rewrite lookup_insert_ne by discriminate | assumption].
    + destruct (Soup.find "givenNames" c), (Soup.find "familyName" c);
        rewrite ?lookup_insert_ne by discriminate; apply lookup_empty.
Qed.

(** The loop over the creator nodes appends one entry per node. *)
Lemma author_loop_entries aff_dict creators akey acc akey' l :
  for_each (fun c '(akey, author_list) =>
      '(akey, author_tmp) ← author_entry aff_dict c akey;
      Ok (akey, author_list ++ [VDict author_tmp]))
    creators (akey, acc) = Ok (akey', l) ->
  exists entries,
    l = acc ++ (VDict <$> entries)
    /\ Forall2 (fun c entry => exists ak ak', author_entry aff_dict c ak = Ok (ak', entry))
               creators entries.
Proof.
  revert akey acc. induction creators as [|c creators IH]; intros akey acc Hr.
  - injection Hr as <- <-. exists []. split; [now rewrite app_nil_r | constructor].
  - cbn [for_each] in Hr. bind_inv Hr. bind_inv E. destruct x0 as [ak1 entry].
    injection E as <-.
    destruct (IH _ _ Hr) as (entries & -> & Hall).
    exists (entry :: entries). split.
    + now rewrite <- app_assoc.
    + constructor; eauto.
Qed.

Lemma author_list_of_entries cm l :
  author_list_of cm = Ok l ->
  exists aff_dict entries,
    build_aff_dict cm = Ok aff_dict
    /\ l = VDict <$> entries
    /\ Forall2 (fun c entry => exists ak ak', author_entry aff_dict c ak = Ok (ak', entry))
               (Soup.find_all "creator" cm) entries.
Proof.
  unfold author_list_of. intros Hr. bind_inv Hr. bind_inv Hr. destruct x0 as [ak l'].
  injection Hr as <-.
  destruct (author_loop_entries _ _ _ _ _ _ E0) as (entries & -> & Hall).
  exists x, entries. auto.
Qed.

End WileyAuthors.

(** C5: every entry of the author list that [_parse_authors] builds (and
    stores under "authors" when it is not empty) that has both the "aff" and
    the "xaff" key holds lists of one length under them, whatever
    affiliation table the fragment gives. *)
Theorem wiley_aff_xaff_same_length (self self' : WileyParser.t) (cm : node) :
  WileyParser.content_meta self = Some cm ->
  WileyParser._parse_authors self = Ok self' ->
  exists author_list,
    WileyParser.author_list_of cm = Ok author_list
    /\ (author_list <> [] ->
        WileyParser.base_metadata self' !! "authors" = Some (VList author_list))
    /\ forall entry affs xaffs,
         VDict entry ∈ author_list ->
         entry !! "aff" = Some (VList affs) ->
         entry !! "xaff" = Some (VList xaffs) ->
         length affs = length xaffs.
Proof.
  intros Hcm Hr. unfold WileyParser._parse_authors in Hr. rewrite Hcm in Hr.
  cbn [Soup.deref mbind result_bind] in Hr. bind_inv Hr.
  exists x. split; [assumption|]. split.
  - intros Hne. destruct x; [congruence|]. injection Hr as <-.
    cbn. now rewrite lookup_insert_eq.
  - intros entry affs xaffs Hin Haff Hxaff.
    destruct (author_list_of_entries _ _ E) as (aff_dict & entries & _ & -> & Hall).
    apply list_elem_of_fmap in Hin as (entry' & [= <-] & Hin).
    apply list_elem_of_lookup in Hin as (i & Hi).
    destruct (Forall2_lookup_r _ _ _ _ _ Hall Hi) as (c & _ & ak & ak' & Hentry).
    exact (author_entry_lengths _ _ _ _ _ _ _ Hentry Haff Hxaff).
Qed.

Lemma wiley_aff_xaff_same_length_witness :
  let cm := Tag None "contentMeta" [] Sample.wiley_content in
  let self := WileyParser.Self ∅ None None None (Some cm) None in
  exists self' author_list,
    WileyParser._parse_authors self = Ok self'
    /\ WileyParser.author_list_of cm = Ok author_list
    /\ length author_list = 3
    /\ (author_list <> [] ->
        WileyParser.base_metadata self' !! "authors" = Some (VList author_list))
    /\ forall entry affs xaffs,
         VDict entry ∈ author_list ->
         entry !! "aff" = Some (VList affs) ->
         entry !! "xaff" = Some (VList xaffs) ->
         length affs = length xaffs.
Proof.
  intros cm self.
  destruct (WileyParser._parse_authors self) as [self'|] eqn:Hr; [|discriminate Hr].
  destruct (wiley_aff_xaff_same_length self self' cm eq_refl Hr)
    as (author_list & Hl & Hstored & Hlen).
  exists self', author_list. repeat split; try assumption.
  vm_compute in Hl. injection Hl as <-. reflexivity.
Defined.

Section WileyLabels.
Import WileyParser.

(** A label that resolves sets [akey], whatever it held. *)
Lemma choose_akey_resolved aff_dict a akey k text :
  Affiliation.resolved aff_dict a = Some (k, text) ->
  choose_akey aff_dict a akey = Some k /\ aff_dict !! k = Some text.
Proof.
  unfold Affiliation.resolved, choose_akey.
  destruct (aff_get aff_dict a).
  - destruct (aff_dict !! a) eqn:Ha; [|discriminate]. intros [= <- <-]. auto.
  - destruct (aff_get aff_dict (PyStr.replace "#" "" a)); [|discriminate].
    destruct (aff_dict !! PyStr.replace "#" "" a) eqn:Ha; [|discriminate].
    intros [= <- <-]. auto.
Qed.

Lemma resolve_label_resolved aff_dict a akey affs xaffs k text :
  Affiliation.resolved aff_dict a = Some (k, text) ->
  resolve_label aff_dict a (akey, affs, xaffs)
  = Ok (Some k, affs ++ [VStr text], xaffs ++ [VStr k]).
Proof.
  intros Ha. destruct (choose_akey_resolved _ _ akey _ _ Ha) as [Hk Ht].
  unfold resolve_label. now rewrite Hk, Ht.
Qed.

(** The loop over labels that all resolve appends their keys and texts. *)
Lemma resolve_labels_resolved aff_dict labels pairs akey affs xaffs :
  Affiliation.resolved_all aff_dict labels = Some pairs ->
  exists akey',
    for_each (resolve_label aff_dict) labels (akey, affs, xaffs)
    = Ok (akey', affs ++ ((fun kt => VStr kt.2) <$> pairs),
                 xaffs ++ ((fun kt => VStr kt.1) <$> pairs)).
Proof.
  revert pairs akey affs xaffs.
  induction labels as [|a labels IH]; intros pairs akey affs xaffs Hall.
  - injection Hall as <-. exists akey. cbn. now rewrite !app_nil_r.
  - cbn [Affiliation.resolved_all] in Hall.
    destruct (Affiliation.resolved aff_dict a) as [[k text]|] eqn:Ha; [|discriminate].
    destruct (Affiliation.resolved_all aff_dict labels) as [kts|] eqn:Hl; [|discriminate].
    injection Hall as <-.
    cbn [for_each]. rewrite (resolve_label_resolved _ _ akey affs xaffs _ _ Ha).
    cbn [mbind result_bind].
    destruct (IH kts (Some k) (affs ++ [VStr text]) (xaffs ++ [VStr k]) eq_refl)
      as (akey' & ->).
    exists akey'. cbn [fmap list_fmap]. now rewrite <- !app_assoc.
Qed.

(** The entry of a creator whose labels all resolve. *)
Lemma author_entry_resolved aff_dict c ak ak' entry raw pairs :
  author_entry aff_dict c ak = Ok (ak', entry) ->
  Soup.get "affiliationRef" c = Some raw ->
  Affiliation.resolved_all aff_dict (PyStr.split_ws raw) = Some pairs ->
  entry !! "xaff" = Some (VList ((fun kt => VStr kt.1) <$> pairs))
  /\ entry !! "aff" = Some (VList ((fun kt => VStr kt.2) <$> pairs)).
Proof.
  unfold author_entry, Soup.has_attr. cbv zeta. intros Hr Hraw Hall.
  rewrite (getitem_some _ _ _ Hraw), Hraw in Hr. cbn [mbind result_bind] in Hr.
  bind_inv Hr.
  destruct (resolve_labels_resolved aff_dict _ _ ak [] [] Hall) as (akey' & Hloop).
  rewrite Hloop in Hr. cbn in Hr. injection Hr as <- <-.
  rewrite lookup_insert_eq, lookup_insert_ne, lookup_insert_eq by discriminate.
  auto.
Qed.

(** On a well-formed creator lines 151-177 return. *)
Lemma author_entry_total aff_dict c ak :
  Affiliation.well_formed aff_dict c ->
  exists ak' entry, author_entry aff_dict c ak = Ok (ak', entry).
Proof.
  intros [Hids Hres]. unfold author_entry. cbv zeta.
  match goal with
  | |- context [for_each ?body (Soup.find_all "id" c) ?tmp] =>
      destruct (for_each_invariant body (fun _ => True) (Soup.find_all "id" c) tmp)
        as (tmp' & -> & _); [|exact I|]
  end.
  { intros id tmp Hin _. rewrite Forall_forall in Hids.
    destruct (Hids id Hin) as (ty & Hty & Hval).
    rewrite (getitem_some _ _ _ Hty). cbn [mbind result_bind].
    destruct (String.eqb ty "orcid") eqn:Eo; [|eauto].
    apply String.eqb_eq in Eo. destruct (Hval Eo) as [v Hv].
    rewrite (getitem_some _ _ _ Hv). cbn [mbind result_bind].
    destruct (Re.search orcid_format v); eauto. }
  cbn [mbind result_bind]. unfold Soup.has_attr, Soup.getitem.
  destruct (Soup.get "affiliationRef" c) as [raw|] eqn:Hraw; [|eauto].
  destruct (Hres raw eq_refl) as [pairs Hpairs]. cbn [mbind result_bind].
  destruct (resolve_labels_resolved aff_dict _ _ ak [] [] Hpairs) as (ak' & ->).
  cbn. eauto.
Qed.

(** On well-formed creators the loop over them returns. *)
Lemma author_loop_total aff_dict creators akey acc :
  Forall (Affiliation.well_formed aff_dict) creators ->
  exists st,
    for_each (fun c '(akey, author_list) =>
        '(akey, author_tmp) ← author_entry aff_dict c akey;
        Ok (akey, author_list ++ [VDict author_tmp]))
      creators (akey, acc) = Ok st.
Proof.
  intros Hwf. revert akey acc.
  induction Hwf as [|c creators Hc _ IH]; intros akey acc; [cbn; eauto|].
  destruct (author_entry_total aff_dict c akey Hc) as (ak' & entry & Hentry).
  cbn [for_each]. rewrite Hentry. cbn [mbind result_bind]. apply IH.
Qed.

End WileyLabels.

(** C4, where the code departs from it: a creator whose label "#zz" is in
    no entry of the affiliation table is not dropped.  Lines 170-173 have no
    branch for it, so [akey] keeps what an earlier label left there: after
    a creator that resolved "#a2" the entry is emitted with that creator's
    last key and affiliation; as the first creator with labels it meets
    [akey] unbound, [_parse_authors] raises UnboundLocalError, and the
    creator after it, whose label resolves, is not emitted either. *)
Theorem wiley_unresolved_label_keeps_entry :
  let summary (cm : node) : result (list (option value * option value * option value)) :=
    author_list ← WileyParser.author_list_of cm;
    Ok (List.map (fun v => match v with
                           | VDict entry =>
                               (entry !! "surname", entry !! "xaff", entry !! "aff")
                           | _ => (None, None, None)
                           end) author_list) in
  let unresolved_first :=
    Tag None "contentMeta" []
      [Sample.affiliation "a1" "Univ A";
       Sample.creator [("affiliationRef", "#zz")] "John" "Roe";
       Sample.creator [("affiliationRef", "#a1")] "Jane" "Doe"] in
  summary (Tag None "contentMeta" [] Sample.wiley_content)
  = Ok [(Some (VStr "Doe"), Some (VList [VStr "a1"; VStr "a2"]),
         Some (VList [VStr "Univ A"; VStr "Univ B"]));
        (Some (VStr "Roe"), Some (VList [VStr "a2"]), Some (VList [VStr "Univ B"]));
        (Some (VStr "Poe"), None, None)]
  /\ summary unresolved_first = Raise (UnboundLocalError "akey")
  /\ WileyParser._parse_authors
       (WileyParser.Self ∅ None None None (Some unresolved_first) None)
     = Raise (UnboundLocalError "akey").
Proof. cbv zeta. repeat split; vm_compute; reflexivity. Qed.

(** X21: creators whose labels resolve.  With the affiliation table built:
    whenever the author list is built, it has one entry per creator node, in
    document order, and the entry of a creator whose [affiliationRef] labels
    all resolve (as given, or with every "#" removed, to a table entry that
    is not empty) holds the resolved keys under "xaff" and their table texts
    under "aff"; and the list is built when, for every creator, the [id]
    nodes carry [type] (and [value] when the type is "orcid") and the labels
    all resolve. *)
Theorem wiley_authors_one_entry_per_creator (cm : node) (aff_dict : gmap string string) :
  WileyParser.build_aff_dict cm = Ok aff_dict ->
  (forall author_list,
      WileyParser.author_list_of cm = Ok author_list ->
      length author_list = length (Soup.find_all "creator" cm)
      /\ forall (i : nat) (c : node) (raw : string) (pairs : list (string * string)),
           Soup.find_all "creator" cm !! i = Some c ->
           Soup.get "affiliationRef" c = Some raw ->
           Affiliation.resolved_all aff_dict (PyStr.split_ws raw) = Some pairs ->
           exists entry,
             author_list !! i = Some (VDict entry)
             /\ entry !! "xaff" = Some (VList ((fun kt => VStr kt.1) <$> pairs))
             /\ entry !! "aff" = Some (VList ((fun kt => VStr kt.2) <$> pairs)))
  /\ (Forall (Affiliation.well_formed aff_dict) (Soup.find_all "creator" cm) ->
      exists author_list, WileyParser.author_list_of cm = Ok author_list).
Proof.
  intros Hdict. split.
  - intros author_list Hl.
    destruct (author_list_of_entries _ _ Hl) as (aff_dict' & entries & Hdict' & -> & Hall).
    rewrite Hdict in Hdict'. injection Hdict' as <-.
    split.
    + rewrite length_fmap. symmetry. exact (Forall2_length _ _ _ Hall).
    + intros i c raw pairs Hc Hraw Hres.
      destruct (Forall2_lookup_l _ _ _ _ _ Hall Hc) as (entry & Hentry & ak & ak' & Hr).
      exists entry. split.
      * now rewrite list_lookup_fmap, Hentry.
      * exact (author_entry_resolved _ _ _ _ _ _ _ Hr Hraw Hres).
  - intros Hwf. unfold WileyParser.author_list_of. rewrite Hdict.
    cbn [mbind result_bind].
    destruct (author_loop_total aff_dict _ None [] Hwf) as ([ak l] & ->).
    cbn. eauto.
Qed.

Lemma wiley_authors_one_entry_per_creator_witness :
  let cm := Tag None "contentMeta" []
              [Sample.affiliation "a1" " Univ A "; Sample.affiliation "a2" "Univ B";
               Sample.creator [("affiliationRef", "#a1 #a2")] "Jane" "Doe";
               Sample.creator [] "Ann" "Poe"] in
  exists author_list entry,
    WileyParser.author_list_of cm = Ok author_list
    /\ length author_list = 2
    /\ author_list !! 0%nat = Some (VDict entry)
    /\ entry !! "xaff" = Some (VList [VStr "a1"; VStr "a2"])
    /\ entry !! "aff" = Some (VList [VStr "Univ A"; VStr "Univ B"]).
Proof.
  intros cm.
  destruct (WileyParser.build_aff_dict cm) as [aff_dict|] eqn:Hd; [|discriminate Hd].
  destruct (wiley_authors_one_entry_per_creator cm aff_dict Hd) as [Hentries Htotal].
  assert (Haff : aff_dict
                 = <["a2" := "Univ B"]> (<["a1" := "Univ A"]> (∅ : gmap string string))).
  { vm_compute in Hd. now injection Hd as <-. }
  destruct Htotal as (author_list & Hl).
  { subst aff_dict. repeat constructor; try (intros raw [= <-]; eexists; reflexivity);
      intros raw Hraw; discriminate Hraw. }
  destruct (Hentries author_list Hl) as [Hlen Hentry].
  destruct (Hentry 0%nat
              (Sample.creator [("affiliationRef", "#a1 #a2")] "Jane" "Doe")
              "#a1 #a2" [("a1", "Univ A"); ("a2", "Univ B")] eq_refl eq_refl)
    as (entry & H0 & Hx & Ha).
  { subst aff_dict. reflexivity. }
  exists author_list, entry. repeat split; assumption.
Defined.

(** ** Wiley: the keys that the steps write *)

(** Takes apart a hypothesis [H] saying that a step body returned. *)
Ltac step_inv H :=
  lazymatch type of H with
  | Ok _ = Ok _ => inversion H; subst; clear H
  | Raise _ = Ok _ => discriminate H
  | _ ≫= _ = Ok _ =>
      let x := fresh "x" in
      let E := fresh "E" in
      apply bind_ok in H as (x & E & H); step_inv E; step_inv H
  | match ?x with _ => _ end = Ok _ => destruct x eqn:?; step_inv H
  | _ => idtac
  end.

Section Frame.

(** [update_path] only touches the key where the path starts. *)
Lemma update_path_keeps path k f (md md' : metadata) key :
  update_path path k f md = Ok md' ->
  key <> default k (head path) ->
  md' !! key = md !! key.
Proof.
  destruct path as [|p path]; cbn [update_path head default]; intros Hr Hkey.
  - step_inv Hr. now rewrite lookup_insert_ne.
  - step_inv Hr. now rewrite lookup_insert_ne.
Qed.

Lemma for_each_keeps {A} (body : A -> metadata -> result metadata) key l md md' :
  (forall a m m', body a m = Ok m' -> m' !! key = m !! key) ->
  for_each body l md = Ok md' -> md' !! key = md !! key.
Proof.
  intros Hbody Hr.
  apply (for_each_preserves body (fun m => m !! key = md !! key) l md md');
    [|assumption|reflexivity].
  intros a m m' _ Hstep Hm. now rewrite (Hbody a m m' Hstep).
Qed.

(** The same for a loop that carries a local variable along. *)
Lemma for_each_keeps_snd {A B} (body : A -> B * metadata -> result (B * metadata))
    key l st st' :
  (forall a s s', body a s = Ok s' -> s'.2 !! key = s.2 !! key) ->
  for_each body l st = Ok st' -> st'.2 !! key = st.2 !! key.
Proof.
  intros Hbody Hr.
  apply (for_each_preserves body (fun s => s.2 !! key = st.2 !! key) l st st');
    [|assumption|reflexivity].
  intros a s s' _ Hstep Hs. now rewrite (Hbody a s s' Hstep).
Qed.

Lemma pubdate_loop_keeps events found md md' key :
  key <> "pubdate_electronic" ->
  WileyParser.pubdate_loop events found md = Ok md' -> md' !! key = md !! key.
Proof.
  intros Hkey. revert found md.
  induction events as [|d events IH]; intros found md Hr; cbn [WileyParser.pubdate_loop] in Hr.
  - now injection Hr as <-.
  - bind_inv Hr.
    destruct (String.eqb x "firstOnline").
    { step_inv Hr. now rewrite lookup_insert_ne. }
    destruct (String.eqb x "publishedOnlineFinalForm").
    { bind_inv Hr. rewrite (IH _ _ Hr). now rewrite lookup_insert_ne. }
    destruct (String.eqb x "publishedOnlineAccepted" && negb found).
    { bind_inv Hr. rewrite (IH _ _ Hr). now rewrite lookup_insert_ne. }
    exact (IH _ _ Hr).
Qed.

End Frame.

(** Shows that a key written by a step is not the key of the goal: both
    are literals, or the key of the goal is known to be none of
    [wiley_keys]. *)
Ltac other_key :=
  solve [ discriminate
        | let E := fresh "E" in
          intros E;
          match goal with
          | Hk : PyStr.in_list _ wiley_keys = false |- _ =>
              first [rewrite <- E in Hk | rewrite E in Hk];
              vm_compute in Hk; discriminate Hk
          end ].

(** Closes [m' !! key = m !! key] from a hypothesis [H] saying that a
    straight-line block returned [m'] from [m]. *)
Ltac keeps_from H :=
  unfold set_path, append_path in H; step_inv H;
  cbn [fst snd WileyParser.put WileyParser.base_metadata];
  rewrite ?lookup_insert_ne by other_key;
  first [ reflexivity
        | assumption
        | eapply update_path_keeps; [eassumption | other_key] ].

(** The same for the body of a loop. *)
Ltac body_keeps :=
  let Hb := fresh "Hb" in
  intros ? ? ? Hb; keeps_from Hb.

(** Turns a hypothesis [for_each body l m = Ok m'] into
    [m' !! key = m !! key], for the key of the goal. *)
Ltac loop_keeps E :=
  lazymatch goal with
  | |- _ !! ?key = _ => apply (for_each_keeps _ key) in E; [|solve [body_keeps]]
  end.

Section WileyKeys.
Import WileyParser.
Context `{Collaborators}.

Lemma dates_trans_keys key ty k :
  PyStr.in_list key wiley_keys = false ->
  Soup.assoc ty dates_trans = Some k -> k <> key.
Proof.
  intros Hkey. unfold dates_trans. cbn [Soup.assoc].
  repeat match goal with |- context [if ?b then _ else _] => destruct b end;
    intros [= <-]; other_key.
Qed.

Lemma wiley_parse_ids_keeps key self self' :
  PyStr.in_list key wiley_keys = false ->
  _parse_ids self = Ok self' ->
  base_metadata self' !! key = base_metadata self !! key.
Proof.
  intros Hkey. unfold _parse_ids. cbv zeta. intros Hr.
  bind_inv Hr. bind_inv Hr. bind_inv Hr. bind_inv Hr. bind_inv Hr. bind_inv Hr.
  injection Hr as <-. cbn [put base_metadata].
  loop_keeps E4. rewrite E4.
  rewrite (update_path_keeps _ _ _ _ _ key E3) by other_key.
  transitivity (x0 !! key); [keeps_from E2|].
  loop_keeps E0. rewrite E0. now rewrite !lookup_insert_ne by other_key.
Qed.

Lemma wiley_parse_pub_keeps key self self' :
  PyStr.in_list key wiley_keys = false ->
  _parse_pub self = Ok self' ->
  base_metadata self' !! key = base_metadata self !! key.
Proof.
  intros Hkey. unfold _parse_pub. cbv zeta. intros Hr.
  bind_inv Hr. bind_inv Hr. bind_inv Hr. bind_inv Hr.
  injection Hr as <-. cbn [put base_metadata].
  loop_keeps E2. rewrite E2. now loop_keeps E0.
Qed.

Lemma wiley_parse_page_keeps key self self' :
  PyStr.in_list key wiley_keys = false ->
  _parse_page self = Ok self' ->
  base_metadata self' !! key = base_metadata self !! key.
Proof.
  intros Hkey. unfold _parse_page. cbv zeta. intros Hr.
  bind_inv Hr. bind_inv Hr. destruct x0 as [page_first md1].
  bind_inv Hr. destruct x0 as [page_first' md2]. bind_inv Hr.
  injection Hr as <-. cbn [put base_metadata].
  assert (H1 : md1 !! key = base_metadata self !! key).
  { apply (for_each_keeps_snd _ key) in E0; [exact E0|].
    intros a [pf m] [pf' m'] Hb. keeps_from Hb. }
  assert (H2 : md2 !! key = md1 !! key).
  { destruct (falsy page_first); [|now injection E1 as <- <-].
    apply (for_each_keeps_snd _ key) in E1; [exact E1|].
    intros a [pf m] [pf' m'] Hb. keeps_from Hb. }
  rewrite <- H1, <- H2.
  transitivity (match
       match page_first' with
       | Some s => if PyStr.in_list s ["n/a"; "no"] then None else Some s
       | None => None
       end
     with
     | Some s => if PyStr.truthy s then <["page_first" := VStr s]> md2 else md2
     | None => md2
     end !! key).
  - keeps_from E2.
  - repeat match goal with |- context [match ?x with _ => _ end] => destruct x end;
      rewrite ?lookup_insert_ne by other_key; reflexivity.
Qed.

Lemma wiley_parse_pubdate_keeps key self self' :
  PyStr.in_list key wiley_keys = false ->
  _parse_pubdate self = Ok self' ->
  base_metadata self' !! key = base_metadata self !! key.
Proof.
  intros Hkey. unfold _parse_pubdate, pubdate_print. cbv zeta. intros Hr.
  bind_inv Hr. bind_inv Hr. bind_inv Hr. bind_inv Hr.
  injection Hr as <-. cbn [put base_metadata].
  rewrite (pubdate_loop_keeps _ _ _ _ key ltac:(other_key) E2).
  keeps_from E0.
Qed.

Lemma wiley_parse_edhistory_keeps key self self' :
  PyStr.in_list key wiley_keys = false ->
  _parse_edhistory self = Ok self' ->
  base_metadata self' !! key = base_metadata self !! key.
Proof.
  intros Hkey. unfold _parse_edhistory. cbv zeta. intros Hr.
  bind_inv Hr. bind_inv Hr. injection Hr as <-. cbn [put base_metadata].
  apply (for_each_keeps _ key) in E0; [exact E0|].
  intros a m m' Hb. bind_inv Hb.
  destruct (Soup.assoc x1 dates_trans) as [k|] eqn:Hk; [|now injection Hb as <-].
  bind_inv Hb. injection Hb as <-.
  apply lookup_insert_ne. exact (dates_trans_keys _ _ _ Hkey Hk).
Qed.

Lemma wiley_parse_title_abstract_keeps key self self' :
  PyStr.in_list key wiley_keys = false ->
  _parse_title_abstract self = Ok self' ->
  base_metadata self' !! key = base_metadata self !! key.
Proof.
  intros Hkey. unfold _parse_title_abstract. cbv zeta. intros Hr.
  bind_inv Hr. bind_inv Hr. bind_inv Hr. injection Hr as <-. cbn [put base_metadata].
  transitivity (x0 !! key).
  - destruct (Soup.find "abstractGroup" x); [|now injection E1 as <-].
    now loop_keeps E1.
  - destruct (Soup.find "titleGroup" x); [|now injection E0 as <-].
    now loop_keeps E0.
Qed.

Lemma wiley_parse_copyright_keeps key self self' :
  PyStr.in_list key wiley_keys = false ->
  _parse_copyright self = Ok self' ->
  base_metadata self' !! key = base_metadata self !! key.
Proof. intros Hkey. unfold _parse_copyright. intros Hr. keeps_from Hr. Qed.

(** [_parse_authors] writes "authors" and nothing else. *)
Lemma wiley_parse_authors_keeps key self self' :
  key <> "authors" ->
  _parse_authors self = Ok self' ->
  base_metadata self' !! key = base_metadata self !! key.
Proof.
  intros Hkey. unfold _parse_authors. intros Hr. bind_inv Hr. bind_inv Hr.
  destruct x0; injection Hr as <-; [reflexivity|]. cbn [put base_metadata].
  now rewrite lookup_insert_ne by congruence.
Qed.

(** [_parse_keywords] returns the parser as it got it. *)
Lemma wiley_parse_keywords_id self self' :
  _parse_keywords self = Ok self' -> self' = self.
Proof. unfold _parse_keywords. intros Hr. bind_inv Hr. now injection Hr. Qed.

Lemma wiley_parse_references_keeps key self self' :
  PyStr.in_list key wiley_keys = false ->
  _parse_references self = Ok self' ->
  base_metadata self' !! key = base_metadata self !! key.
Proof. intros Hkey. unfold _parse_references. intros Hr. keeps_from Hr. Qed.

(** Lines 220-226, the steps before [_parse_authors]. *)
Lemma wiley_first_steps_keep key self self' :
  PyStr.in_list key wiley_keys = false ->
  (s ← _parse_ids self; s ← _parse_pub s; s ← _parse_page s; s ← _parse_pubdate s;
   s ← _parse_edhistory s; s ← _parse_title_abstract s; _parse_copyright s) = Ok self' ->
  base_metadata self' !! key = base_metadata self !! key.
Proof.
  intros Hkey Hr.
  bind_inv Hr. bind_inv Hr. bind_inv Hr. bind_inv Hr. bind_inv Hr. bind_inv Hr.
  rewrite (wiley_parse_copyright_keeps _ _ _ Hkey Hr).
  rewrite (wiley_parse_title_abstract_keeps _ _ _ Hkey E4).
  rewrite (wiley_parse_edhistory_keeps _ _ _ Hkey E3).
  rewrite (wiley_parse_pubdate_keeps _ _ _ Hkey E2), (wiley_parse_page_keeps _ _ _ Hkey E1).
  rewrite (wiley_parse_pub_keeps _ _ _ Hkey E0). exact (wiley_parse_ids_keeps _ _ _ Hkey E).
Qed.

(** No step writes a key that is neither "authors" nor one of
    [wiley_keys]. *)
Lemma wiley_extract_keeps key self self' :
  PyStr.in_list key wiley_keys = false -> key <> "authors" ->
  extract self = Ok self' ->
  base_metadata self' !! key = base_metadata self !! key.
Proof.
  intros Hkey Hauthors. unfold extract. intros Hr.
  bind_inv Hr. bind_inv Hr. bind_inv Hr. bind_inv Hr. bind_inv Hr.
  bind_inv Hr. bind_inv Hr. bind_inv Hr. bind_inv Hr.
  rewrite (wiley_parse_references_keeps _ _ _ Hkey Hr).
  rewrite (wiley_parse_keywords_id _ _ E7).
  rewrite (wiley_parse_authors_keeps _ _ _ Hauthors E6).
  rewrite (wiley_parse_copyright_keeps _ _ _ Hkey E5).
  rewrite (wiley_parse_title_abstract_keeps _ _ _ Hkey E4).
  rewrite (wiley_parse_edhistory_keeps _ _ _ Hkey E3).
  rewrite (wiley_parse_pubdate_keeps _ _ _ Hkey E2), (wiley_parse_page_keeps _ _ _ Hkey E1).
  rewrite (wiley_parse_pub_keeps _ _ _ Hkey E0). exact (wiley_parse_ids_keeps _ _ _ Hkey E).
Qed.

(** [locate] leaves [base_metadata] alone. *)
Lemma wiley_locate_metadata d self self' :
  locate d self = Ok self' -> base_metadata self' = base_metadata self.
Proof.
  unfold locate. intros Hr. bind_inv Hr. injection Hr as <-. cbn [base_metadata].
  apply (for_each_preserves _ (fun s => base_metadata s = base_metadata self)) in E;
    [exact E | | reflexivity].
  intros p s s' _ Hb Hs. bind_inv Hb.
  repeat match goal with
    | H : (if ?b then _ else _) = Ok _ |- _ => destruct b
    end; injection Hb as <-; exact Hs.
Qed.

(** What [locate] finds of the document. *)
Lemma wiley_locate_fields d self self' :
  locate d self = Ok self' ->
  content_meta self' = Soup.find "contentMeta" d
  /\ bib self' = Some (Soup.find "bibliography" d).
Proof. unfold locate. intros Hr. bind_inv Hr. injection Hr as <-. auto. Qed.

(** The steps before [_parse_authors] only write [base_metadata]. *)
Lemma wiley_first_steps_fields self self' :
  (s ← _parse_ids self; s ← _parse_pub s; s ← _parse_page s; s ← _parse_pubdate s;
   s ← _parse_edhistory s; s ← _parse_title_abstract s; _parse_copyright s) = Ok self' ->
  content_meta self' = content_meta self /\ bib self' = bib self.
Proof.
  assert (Hput : forall md s, content_meta (put md s) = content_meta s
                              /\ bib (put md s) = bib s) by (intros; split; reflexivity).
  assert (Hstep : forall (step : t -> result t),
             (forall s s', step s = Ok s' -> s' = s \/ exists md, s' = put md s) ->
             forall s s', step s = Ok s' ->
                          content_meta s' = content_meta s /\ bib s' = bib s).
  { intros step Hs s s' Hr. destruct (Hs s s' Hr) as [-> | (md & ->)]; auto. }
  intros Hr.
  bind_inv Hr. bind_inv Hr. bind_inv Hr. bind_inv Hr. bind_inv Hr. bind_inv Hr.
  assert (H1 : content_meta x = content_meta self /\ bib x = bib self).
  { apply (Hstep _parse_ids); [|assumption]. intros s s' Hs. right.
    unfold _parse_ids in Hs. cbv zeta in Hs.
    bind_inv Hs. bind_inv Hs. bind_inv Hs. bind_inv Hs. bind_inv Hs. bind_inv Hs.
    injection Hs as <-. eauto. }
  assert (H2 : content_meta x0 = content_meta x /\ bib x0 = bib x).
  { apply (Hstep _parse_pub); [|assumption]. intros s s' Hs. right.
    unfold _parse_pub in Hs. cbv zeta in Hs.
    bind_inv Hs. bind_inv Hs. bind_inv Hs. bind_inv Hs. injection Hs as <-. eauto. }
  assert (H3 : content_meta x1 = content_meta x0 /\ bib x1 = bib x0).
  { apply (Hstep _parse_page); [|assumption]. intros s s' Hs. right.
    unfold _parse_page in Hs. cbv zeta in Hs.
    bind_as Hs u Eu. bind_as Hs p1 Ep1. destruct p1 as [pf1 m1].
    bind_as Hs p2 Ep2. destruct p2 as [pf2 m2]. bind_as Hs m3 Em3.
    injection Hs as <-. eauto. }
  assert (H4 : content_meta x2 = content_meta x1 /\ bib x2 = bib x1).
  { apply (Hstep _parse_pubdate); [|assumption]. intros s s' Hs. right.
    unfold _parse_pubdate in Hs. cbv zeta in Hs.
    bind_inv Hs. bind_inv Hs. bind_inv Hs. bind_inv Hs. injection Hs as <-. eauto. }
  assert (H5 : content_meta x3 = content_meta x2 /\ bib x3 = bib x2).
  { apply (Hstep _parse_edhistory); [|assumption]. intros s s' Hs. right.
    unfold _parse_edhistory in Hs. cbv zeta in Hs.
    bind_inv Hs. bind_inv Hs. injection Hs as <-. eauto. }
  assert (H6 : content_meta x4 = content_meta x3 /\ bib x4 = bib x3).
  { apply (Hstep _parse_title_abstract); [|assumption]. intros s s' Hs. right.
    unfold _parse_title_abstract in Hs. cbv zeta in Hs.
    bind_inv Hs. bind_inv Hs. bind_inv Hs. injection Hs as <-. eauto. }
  assert (H7 : content_meta self' = content_meta x4 /\ bib self' = bib x4).
  { apply (Hstep _parse_copyright); [|assumption]. intros s s' Hs.
    unfold _parse_copyright in Hs. bind_inv Hs.
    destruct (Soup.find "copyright" x5); injection Hs as <-; eauto. }
  split.
  - rewrite (proj1 H7), (proj1 H6), (proj1 H5), (proj1 H4), (proj1 H3), (proj1 H2).
    exact (proj1 H1).
  - rewrite (proj2 H7), (proj2 H6), (proj2 H5), (proj2 H4), (proj2 H3), (proj2 H2).
    exact (proj2 H1).
Qed.

End WileyKeys.

(** ** Required authors *)

(** C3, as the code has it.  arXiv: when the [dc:creator] nodes yield no
    author entry, [_parse_author] raises MissingAuthorsException, and so
    does [parse] once the schema check and the two steps before it have
    passed, so no record is produced.  Wiley: a document yields no author
    entry exactly when it has no [creator] node (the affiliation table being
    built); [_parse_authors] then raises nothing and returns the parser as
    it was, writing no "authors" key; and when the seven steps before it
    have returned, [parse] returns the record, made from a [base_metadata]
    whose "authors" entry is the one the parser started with (a new parser
    has none). *)
Theorem missing_authors_by_dialect `{Collaborators} :
  (forall (md : metadata) (hdr : option node) (meta : node),
      flat_map (fun a => name_parser_parse (Soup.get_text a))
               (Soup.find_all "dc:creator" meta) = [] ->
      let self := ArxivParser.Self md hdr (Some meta) in
      ArxivParser._parse_author self = Raise MissingAuthorsException
      /\ (forall self1 self2,
             ArxivParser._parse_ids self = Ok self1 ->
             ArxivParser._parse_title self1 = Ok self2 ->
             ArxivParser.extract self = Raise MissingAuthorsException))
  /\ (forall (text : string) (d meta : node) (self self1 self2 : ArxivParser.t),
         bsstrtodict text = Some d ->
         ArxivParser.input_metadata (ArxivParser.locate d self) = Some meta ->
         Soup.get "xmlns:oai_dc" meta = Some "http://www.openarchives.org/OAI/2.0/oai_dc/" ->
         flat_map (fun a => name_parser_parse (Soup.get_text a))
                  (Soup.find_all "dc:creator" meta) = [] ->
         ArxivParser._parse_ids (ArxivParser.locate d self) = Ok self1 ->
         ArxivParser._parse_title self1 = Ok self2 ->
         ArxivParser.parse text self = Raise MissingAuthorsException)
  /\ (forall cm : node,
         WileyParser.author_list_of cm = Ok []
         <-> (exists aff_dict, WileyParser.build_aff_dict cm = Ok aff_dict)
             /\ Soup.find_all "creator" cm = [])
  /\ (forall (self : WileyParser.t) (cm : node),
         WileyParser.content_meta self = Some cm ->
         WileyParser.author_list_of cm = Ok [] ->
         WileyParser._parse_authors self = Ok self)
  /\ (forall (text : string) (d cm : node) (self self0 self7 : WileyParser.t),
         bsstrtodict text = Some d ->
         WileyParser.locate d self = Ok self0 ->
         (s ← WileyParser._parse_ids self0; s ← WileyParser._parse_pub s;
          s ← WileyParser._parse_page s; s ← WileyParser._parse_pubdate s;
          s ← WileyParser._parse_edhistory s; s ← WileyParser._parse_title_abstract s;
          WileyParser._parse_copyright s) = Ok self7 ->
         Soup.find "contentMeta" d = Some cm ->
         WileyParser.author_list_of cm = Ok [] ->
         exists md : metadata,
           WileyParser.parse text self = Ok (format md)
           /\ md !! "authors" = WileyParser.base_metadata self !! "authors").
Proof.
  assert (Harxiv : forall (md : metadata) (hdr : option node) (meta : node),
      flat_map (fun a => name_parser_parse (Soup.get_text a))
               (Soup.find_all "dc:creator" meta) = [] ->
      let self := ArxivParser.Self md hdr (Some meta) in
      ArxivParser._parse_author self = Raise MissingAuthorsException
      /\ (forall self1 self2,
             ArxivParser._parse_ids self = Ok self1 ->
             ArxivParser._parse_title self1 = Ok self2 ->
             ArxivParser.extract self = Raise MissingAuthorsException)).
  { intros md hdr meta Hnone self.
    assert (Hstep : forall s, ArxivParser.input_metadata s = Some meta ->
                              ArxivParser._parse_author s = Raise MissingAuthorsException).
    { intros s Hs. unfold ArxivParser._parse_author. rewrite Hs. cbn. now rewrite Hnone. }
    split; [now apply Hstep|].
    intros self1 self2 H1 H2. unfold ArxivParser.extract. rewrite H1. cbn.
    rewrite H2. cbn. rewrite Hstep; [reflexivity|].
    rewrite (arxiv_parse_title_fields _ _ H2), (arxiv_parse_ids_fields _ _ H1).
    reflexivity. }
  assert (Hwiley : forall (self : WileyParser.t) (cm : node),
             WileyParser.content_meta self = Some cm ->
             WileyParser.author_list_of cm = Ok [] ->
             WileyParser._parse_authors self = Ok self).
  { intros self cm Hcm Hl. unfold WileyParser._parse_authors.
    rewrite Hcm. cbn. rewrite Hl. reflexivity. }
  split; [exact Harxiv|]. split; [|split; [|split; [exact Hwiley|]]].
  - intros text d meta self self1 self2 Hd Hm Hns Hnone H1 H2.
    unfold ArxivParser.parse, ArxivParser.parse_tree. rewrite Hd. cbv zeta.
    rewrite Hm. cbn [Soup.deref mbind result_bind].
    unfold Soup.get_default. rewrite Hns.
    change (ArxivParser.extract (ArxivParser.locate d self)
            = Raise MissingAuthorsException).
    destruct (ArxivParser.locate d self) as [md hdr im].
    cbn [ArxivParser.input_metadata] in Hm. subst im.
    exact (proj2 (Harxiv md hdr meta Hnone) self1 self2 H1 H2).
  - intros cm. split.
    + intros Hl.
      destruct (author_list_of_entries _ _ Hl) as (aff_dict & entries & Hdict & Hnil & Hall).
      split; [eauto|]. symmetry in Hnil. apply fmap_nil_inv in Hnil. subst entries.
      now apply Forall2_nil_inv_r in Hall.
    + intros [(aff_dict & Hdict) Hnil]. unfold WileyParser.author_list_of.
      now rewrite Hdict, Hnil.
  - intros text d cm self self0 self7 Hd Hl H7 Hcm Hnone.
    destruct (wiley_locate_fields _ _ _ Hl) as [Hcm0 Hbib0].
    destruct (wiley_first_steps_fields _ _ H7) as [Hcm7 Hbib7].
    rewrite Hcm0, Hcm in Hcm7. rewrite Hbib0 in Hbib7.
    assert (Hmd : WileyParser.base_metadata self7 !! "authors"
                  = WileyParser.base_metadata self !! "authors").
    { rewrite (wiley_first_steps_keep "authors" _ _ eq_refl H7).
      now rewrite (wiley_locate_metadata _ _ _ Hl). }
    assert (Hk : WileyParser._parse_keywords self7 = Ok self7).
    { unfold WileyParser._parse_keywords. now rewrite Hcm7. }
    assert (Hrefs : exists self',
               WileyParser._parse_references self7 = Ok self'
               /\ WileyParser.base_metadata self' !! "authors"
                  = WileyParser.base_metadata self7 !! "authors").
    { unfold WileyParser._parse_references. rewrite Hbib7.
      cbn [WileyParser.getattr mbind result_bind].
      destruct (Soup.find "bibliography" d); eexists; (split; [reflexivity|]);
        cbn [WileyParser.put WileyParser.base_metadata];
        [now rewrite lookup_insert_ne by discriminate | reflexivity]. }
    destruct Hrefs as (self' & Hr & Hauthors).
    exists (WileyParser.base_metadata self'). split; [|now rewrite Hauthors].
    unfold WileyParser.parse. rewrite Hd. unfold WileyParser.parse_tree. rewrite Hl.
    cbn [mbind result_bind]. unfold WileyParser.extract.
    bind_as H7 s1 E1. bind_as H7 s2 E2. bind_as H7 s3 E3. bind_as H7 s4 E4.
    bind_as H7 s5 E5. bind_as H7 s6 E6.
    rewrite E1. cbn [mbind result_bind]. rewrite E2. cbn [mbind result_bind].
    rewrite E3. cbn [mbind result_bind]. rewrite E4. cbn [mbind result_bind].
    rewrite E5. cbn [mbind result_bind]. rewrite E6. cbn [mbind result_bind].
    rewrite H7. cbn [mbind result_bind].
    rewrite (Hwiley self7 cm Hcm7 Hnone). cbn [mbind result_bind].
    rewrite Hk. cbn [mbind result_bind]. rewrite Hr. reflexivity.
Qed.

Lemma missing_authors_by_dialect_witness :
  let hdr := Tag None "header" [] [Sample.field "identifier" "oai:arXiv.org:0704.0001"] in
  let meta := Sample.dc [("xmlns:oai_dc", Sample.oai_dc_ns)] [Sample.dc_field "title" "A title"] in
  let arxiv := ArxivParser.Self ∅ (Some hdr) (Some meta) in
  let arxiv_doc := Sample.arxiv_doc "oai:arXiv.org:0704.0001" meta in
  let cm := Tag None "contentMeta" [] [Sample.affiliation "a1" "Univ A"] in
  let wiley := WileyParser.Self ∅ None None None (Some cm) None in
  let wiley_doc := Sample.wiley_doc [] [Sample.affiliation "a1" "Univ A"] in
  @ArxivParser._parse_author (Sample.collaborators arxiv_doc) arxiv
  = Raise MissingAuthorsException
  /\ @ArxivParser.parse (Sample.collaborators arxiv_doc) Sample.source_text ArxivParser.init
     = Raise MissingAuthorsException
  /\ WileyParser.author_list_of cm = Ok []
  /\ WileyParser._parse_authors wiley = Ok wiley
  /\ exists md : metadata,
       @WileyParser.parse (Sample.collaborators wiley_doc) Sample.source_text WileyParser.init
       = Ok (VDict md)
       /\ md !! "authors" = None.
Proof.
  intros hdr meta arxiv arxiv_doc cm wiley wiley_doc.
  destruct (@missing_authors_by_dialect (Sample.collaborators arxiv_doc))
    as (Ha & Hparse & _).
  destruct (@missing_authors_by_dialect (Sample.collaborators wiley_doc))
    as (_ & _ & Hiff & Hw & Hwparse).
  split; [exact (proj1 (Ha ∅ (Some hdr) meta eq_refl))|]. split; [|split; [|split]].
  - destruct (ArxivParser._parse_ids (ArxivParser.locate arxiv_doc ArxivParser.init))
      as [self1|] eqn:H1; [|vm_compute in H1; discriminate H1].
    destruct (@ArxivParser._parse_title (Sample.collaborators arxiv_doc) self1)
      as [self2|] eqn:H2;
      [|vm_compute in H1; injection H1 as <-; vm_compute in H2; discriminate H2].
    exact (Hparse Sample.source_text arxiv_doc meta ArxivParser.init self1 self2
             eq_refl eq_refl eq_refl eq_refl H1 H2).
  - apply Hiff. split; [eexists|]; reflexivity.
  - apply (Hw wiley cm); reflexivity.
  - destruct (WileyParser.locate wiley_doc WileyParser.init) as [self0|] eqn:Hl;
      [|vm_compute in Hl; discriminate Hl].
    destruct (s ← WileyParser._parse_ids self0; s ← WileyParser._parse_pub s;
              s ← WileyParser._parse_page s; s ← WileyParser._parse_pubdate s;
              s ← WileyParser._parse_edhistory s;
              s ← @WileyParser._parse_title_abstract (Sample.collaborators wiley_doc) s;
              WileyParser._parse_copyright s) as [self7|] eqn:H7;
      [|vm_compute in Hl; injection Hl as <-; vm_compute in H7; discriminate H7].
    destruct (Hwparse Sample.source_text wiley_doc cm WileyParser.init self0 self7
                eq_refl Hl H7 eq_refl eq_refl) as (md & Hr & Hmd).
    exists md. split; [exact Hr | exact Hmd].
Defined.

(** C3, as stated, fails for Wiley: a document without creator nodes goes
    through the whole extraction, and the record has no "authors" key. *)
Lemma wiley_without_authors_is_parsed :
  let C := Sample.collaborators (Text "") in
  (self ← WileyParser.locate (Sample.wiley_doc [] []) WileyParser.init;
   self ← @WileyParser.extract C self;
   Ok (WileyParser.base_metadata self !! "authors",
       WileyParser.base_metadata self !! "publication"))
  = Ok (None, Some (VStr "A Journal"))
  /\ (exists output,
         @WileyParser.parse_tree C (Sample.wiley_doc [] []) WileyParser.init = Ok output)
  /\ @WileyParser.parse_tree C (Sample.wiley_doc [] []) WileyParser.init
     <> Raise MissingAuthorsException.
Proof.
  cbv zeta. split; [|split].
  - vm_compute. reflexivity.
  - eexists. vm_compute. reflexivity.
  - vm_compute. discriminate.
Qed.

(** ** Wiley: keywords *)

(** C10: [_parse_keywords] returns the parser as it got it, keyword nodes
    or not, since the list it builds stays local; and no step writes the key
    "keywords": when [parse] returns on a parser whose [base_metadata] has no
    such key (a new parser has none), the record it returns is [format] of a
    [base_metadata] without it, and so, [format] omitting the fields that are
    absent, a record without a "keywords" field. *)
Theorem wiley_keywords_never_stored `{Collaborators} :
  (forall (self : WileyParser.t) (cm : node),
      WileyParser.content_meta self = Some cm ->
      WileyParser._parse_keywords self = Ok self)
  /\ (forall (text : string) (self : WileyParser.t) (output : value),
         WileyParser.base_metadata self !! "keywords" = None ->
         WileyParser.parse text self = Ok output ->
         (exists d self1 self',
             bsstrtodict text = Some d
             /\ WileyParser.locate d self = Ok self1
             /\ WileyParser.extract self1 = Ok self'
             /\ output = format (WileyParser.base_metadata self')
             /\ WileyParser.base_metadata self' !! "keywords" = None)
         /\ (omits_absent "keywords" -> record_field "keywords" output = None)).
Proof.
  split.
  - intros self cm Hcm. unfold WileyParser._parse_keywords. now rewrite Hcm.
  - intros text self output Hnone Hr. unfold WileyParser.parse in Hr.
    destruct (bsstrtodict text) as [d|]; [|discriminate].
    unfold WileyParser.parse_tree in Hr. bind_inv Hr. bind_inv Hr.
    injection Hr as <-.
    assert (Hk : WileyParser.base_metadata x0 !! "keywords" = None).
    { rewrite (wiley_extract_keeps "keywords" _ _ eq_refl ltac:(discriminate) E0).
      now rewrite (wiley_locate_metadata _ _ _ E). }
    split.
    + exists d, x, x0. repeat split; assumption.
    + intros Hformat. exact (Hformat _ Hk).
Qed.

Lemma wiley_keywords_never_stored_witness :
  let doc := Sample.wiley_doc [Sample.event "firstOnline" "2020-01-01"] Sample.wiley_content in
  let C := Sample.collaborators doc in
  length (Soup.find_all "keyword" doc) = 2
  /\ exists output d self1 self',
      @WileyParser.parse C Sample.source_text WileyParser.init = Ok output
      /\ @bsstrtodict C Sample.source_text = Some d
      /\ WileyParser.locate d WileyParser.init = Ok self1
      /\ @WileyParser.extract C self1 = Ok self'
      /\ WileyParser._parse_keywords self1 = Ok self1
      /\ output = @format C (WileyParser.base_metadata self')
      /\ WileyParser.base_metadata self' !! "keywords" = None
      /\ record_field "keywords" output = None
      /\ is_Some (record_field "title" output).
Proof.
  intros doc C. split; [reflexivity|].
  destruct (@wiley_keywords_never_stored C) as [Hstep Hparse].
  destruct (@WileyParser.parse C Sample.source_text WileyParser.init) as [output|] eqn:Hr;
    [|discriminate Hr].
  destruct (Hparse Sample.source_text WileyParser.init output (lookup_empty _) Hr)
    as [(d & self1 & self' & Hd & Hl & He & Ho & Hk) Hrecord].
  exists output, d, self1, self'. repeat split; try assumption.
  - vm_compute in Hd. injection Hd as <-. vm_compute in Hl. injection Hl as <-.
    eapply Hstep. reflexivity.
  - apply Hrecord. intros md Hmd. exact Hmd.
  - vm_compute in Hr. injection Hr as <-. vm_compute. eauto.
Defined.


(** * Further properties *)

(** ** arXiv: identifiers without a header identifier *)

Section ArxivDoiLoop.

(** The loop of lines 67-70 on a [base_metadata] without "ids". *)
Lemma arxiv_doi_loop_without_ids (l : list node) (md : metadata) :
  md !! "ids" = None ->
  (Exists (fun d => PyStr.contains "doi:" (Soup.get_text d) = true) l ->
   for_each (fun d md =>
       if PyStr.contains "doi:" (Soup.get_text d)
       then set_path ["ids"] "doi" (VStr (PyStr.replace "doi:" "" (Soup.get_text d))) md
       else Ok md) l md = Raise (KeyError "ids"))
  /\ (Forall (fun d => PyStr.contains "doi:" (Soup.get_text d) = false) l ->
      for_each (fun d md =>
          if PyStr.contains "doi:" (Soup.get_text d)
          then set_path ["ids"] "doi" (VStr (PyStr.replace "doi:" "" (Soup.get_text d))) md
          else Ok md) l md = Ok md).
Proof.
  intros Hids. induction l as [|d l [IHe IHf]]; split.
  - intros Hex. inversion Hex.
  - reflexivity.
  - intros Hex. cbn [for_each].
    destruct (PyStr.contains "doi:" (Soup.get_text d)) eqn:Hd.
    + unfold set_path. cbn [update_path]. now rewrite Hids.
    + cbn [mbind result_bind]. apply IHe. inversion Hex; subst; [congruence | assumption].
  - intros Hall. inversion Hall as [|? ? Hd Hl]; subst. cbn [for_each].
    rewrite Hd. cbn [mbind result_bind]. now apply IHf.
Qed.

End ArxivDoiLoop.

(** X1: when the header has no [identifier] node and [base_metadata] has no
    "ids" entry (as in a new parser), [_parse_ids] raises KeyError('ids') as
    soon as the text of some [dc:identifier] node contains "doi:"; when none
    does, it returns with [base_metadata] as it was. *)
Theorem arxiv_parse_ids_without_identifier (md : metadata) (hdr meta : node) :
  Soup.find "identifier" hdr = None ->
  md !! "ids" = None ->
  let self := ArxivParser.Self md (Some hdr) (Some meta) in
  (Exists (fun d => PyStr.contains "doi:" (Soup.get_text d) = true)
          (Soup.find_all "dc:identifier" meta) ->
   ArxivParser._parse_ids self = Raise (KeyError "ids"))
  /\ (Forall (fun d => PyStr.contains "doi:" (Soup.get_text d) = false)
             (Soup.find_all "dc:identifier" meta) ->
      ArxivParser._parse_ids self = Ok self).
Proof.
  intros Hidn Hids self. unfold ArxivParser._parse_ids, self.
  cbn [ArxivParser.base_metadata ArxivParser.input_header ArxivParser.input_metadata
       Soup.deref mbind result_bind].
  rewrite Hidn. cbv zeta. cbn [mbind result_bind].
  destruct (arxiv_doi_loop_without_ids (Soup.find_all "dc:identifier" meta) md Hids)
    as [He Hf].
  split; intros Hl.
  - now rewrite (He Hl).
  - now rewrite (Hf Hl).
Qed.

Lemma arxiv_parse_ids_without_identifier_witness :
  let hdr := Tag None "header" [] [Sample.field "datestamp" "2007-04-02"] in
  ArxivParser._parse_ids
    (ArxivParser.Self ∅ (Some hdr) (Some (Sample.dc [] Sample.arxiv_fields)))
  = Raise (KeyError "ids")
  /\ ArxivParser._parse_ids
       (ArxivParser.Self ∅ (Some hdr) (Some (Sample.dc [] [Sample.dc_field "title" "A title"])))
     = Ok (ArxivParser.Self ∅ (Some hdr) (Some (Sample.dc [] [Sample.dc_field "title" "A title"]))).
Proof.
  intros hdr. split.
  - apply (proj1 (arxiv_parse_ids_without_identifier ∅ hdr
                    (Sample.dc [] Sample.arxiv_fields) eq_refl (lookup_empty _))).
    right. left. reflexivity.
  - apply (proj2 (arxiv_parse_ids_without_identifier ∅ hdr
                    (Sample.dc [] [Sample.dc_field "title" "A title"]) eq_refl (lookup_empty _))).
    constructor.
Defined.

(** ** arXiv: documents without a metadata root *)

Section ArxivLocate.

Lemma arxiv_locate_metadata d self :
  ArxivParser.base_metadata (ArxivParser.locate d self) = ArxivParser.base_metadata self.
Proof.
  unfold ArxivParser.locate.
  destruct (Soup.find "record" d) as [r|]; [|reflexivity].
  now destruct (Soup.find "metadata" r).
Qed.

End ArxivLocate.

(** X2: on a new parser, a document without a [record] element, or whose
    record has no [metadata] element, or whose metadata has no [oai_dc:dc]
    element, makes [parse] raise AttributeError (from [None.get]), not one of
    the two schema exceptions. *)
Theorem arxiv_parse_without_metadata_root `{Collaborators} (text : string) (d : node) :
  bsstrtodict text = Some d ->
  (Soup.find "record" d = None
   \/ exists r, Soup.find "record" d = Some r
                /\ (Soup.find "metadata" r = None
                    \/ exists m, Soup.find "metadata" r = Some m
                                 /\ Soup.find "oai_dc:dc" m = None)) ->
  ArxivParser.parse text ArxivParser.init = Raise AttributeError.
Proof.
  intros Hd Hroot. unfold ArxivParser.parse, ArxivParser.parse_tree. rewrite Hd.
  cbv zeta.
  assert (Hnone : ArxivParser.input_metadata (ArxivParser.locate d ArxivParser.init) = None).
  { unfold ArxivParser.locate.
    destruct Hroot as [-> | (r & -> & [-> | (m & -> & Hm)])]; [reflexivity..|exact Hm]. }
  now rewrite Hnone.
Qed.

Lemma arxiv_parse_without_metadata_root_witness :
  let doc := Tag None "[document]" [] [Tag None "record" [] [Tag None "header" [] []]] in
  @ArxivParser.parse (Sample.collaborators doc) Sample.source_text ArxivParser.init
  = Raise AttributeError.
Proof.
  intros doc.
  apply (@arxiv_parse_without_metadata_root (Sample.collaborators doc)
           Sample.source_text doc eq_refl).
  right. exists (Tag None "record" [] [Tag None "header" [] []]). split; [reflexivity|].
  left. reflexivity.
Defined.

(** ** arXiv: when [parse] returns *)

Section ArxivSteps.
Context `{Collaborators}.

(** Lines 59-64 again, with what they leave alone. *)
Lemma arxiv_preprint_block_frame (md : metadata) (P : value) (s : string) :
  exists md',
    (md1 ← set_path ["ids"; "preprint"] "source" (VStr "arXiv")
             (<["ids" := VDict {["preprint" := VDict ∅]}]> (<["publication" := P]> md));
     set_path ["ids"; "preprint"] "id" (VStr s) md1) = Ok md'
    /\ lookup_path ["ids"; "preprint"; "id"] md' = Some (VStr s)
    /\ lookup_path ["ids"; "preprint"; "source"] md' = Some (VStr "arXiv")
    /\ md' !! "publication" = Some P
    /\ forall k, k <> "ids" -> k <> "publication" -> md' !! k = md !! k.
Proof.
  unfold set_path. cbn [update_path mbind result_bind].
  rewrite lookup_insert_eq, lookup_singleton_eq. cbn [mbind result_bind].
  rewrite !lookup_insert_eq. cbn [mbind result_bind].
  eexists. split; [reflexivity|]. cbn [lookup_path].
  rewrite !lookup_insert_eq.
  rewrite (lookup_insert_ne _ "id" "source") by discriminate.
  rewrite lookup_insert_eq.
  rewrite !(lookup_insert_ne _ "ids" "publication") by discriminate.
  rewrite lookup_insert_eq. repeat split.
  intros k Hk1 Hk2. now rewrite !lookup_insert_ne by congruence.
Qed.

(** With an [identifier] node in the header, [_parse_ids] returns, whatever
    the [dc:identifier] nodes are. *)
Lemma arxiv_parse_ids_with_identifier (md : metadata) (hdr meta idn : node) :
  Soup.find "identifier" hdr = Some idn ->
  exists md1 seg,
    ArxivParser._parse_ids (ArxivParser.Self md (Some hdr) (Some meta))
    = Ok (ArxivParser.Self md1 (Some hdr) (Some meta))
    /\ last (PyStr.split ":" (Soup.get_text idn)) = Some seg
    /\ lookup_path ["ids"; "preprint"; "id"] md1 = Some (VStr seg)
    /\ lookup_path ["ids"; "preprint"; "source"] md1 = Some (VStr "arXiv")
    /\ md1 !! "publication" = Some (VStr ("eprint arXiv:" +:+ seg))
    /\ forall k, k <> "ids" -> k <> "publication" -> md1 !! k = md !! k.
Proof.
  intros Hidn. unfold ArxivParser._parse_ids.
  cbn [ArxivParser.base_metadata ArxivParser.input_header ArxivParser.input_metadata
       Soup.deref mbind result_bind].
  rewrite Hidn. cbv zeta. unfold last_item, PyStr.split.
  pose proof (split_go_nonempty ":" (Soup.get_text idn) 0 EmptyString) as Hne.
  destruct (last (PyStr.split_go ":" (Soup.get_text idn) 0 EmptyString)) as [seg|] eqn:Hseg.
  2:{ apply last_None in Hseg. contradiction. }
  cbn [mbind result_bind].
  destruct (arxiv_preprint_block_frame md (VStr ("eprint arXiv:" +:+ seg)) seg)
    as (md0 & -> & Hid & Hsrc & Hpub & Hframe).
  cbn [mbind result_bind].
  set (body := fun (d : node) (md : metadata) => _).
  set (I := fun m : metadata =>
              (exists d, m !! "ids" = Some (VDict d) /\ d !! "preprint" = md0 !! "ids" ≫= (fun v => match v with VDict d0 => d0 !! "preprint" | _ => None end))
              /\ m !! "publication" = Some (VStr ("eprint arXiv:" +:+ seg))
              /\ forall k, k <> "ids" -> k <> "publication" -> m !! k = md !! k).
  destruct (for_each_invariant body I (Soup.find_all "dc:identifier" meta) md0)
    as (md1 & -> & ((d1 & Hd1 & Hp1) & Hpub1 & Hframe1)).
  { intros a m _ ((d & Hd & Hp) & Hq & Hf). unfold body.
    destruct (PyStr.contains "doi:" (Soup.get_text a));
      [|exists m; split; [reflexivity | repeat split; eauto]].
    rewrite (arxiv_set_doi m d) by assumption. eexists. split; [reflexivity|].
    repeat split.
    - eexists. rewrite lookup_insert_eq. split; [reflexivity|].
      now rewrite lookup_insert_ne by discriminate.
    - now rewrite lookup_insert_ne by discriminate.
    - intros k Hk1 Hk2. rewrite lookup_insert_ne by congruence. auto. }
  { repeat split; auto. cbn [lookup_path] in Hid.
    destruct (md0 !! "ids") as [[| | |d0]|] eqn:Hd0; try discriminate.
    exists d0. auto. }
  cbn [mbind result_bind ArxivParser.put ArxivParser.input_header ArxivParser.input_metadata].
  exists md1, seg. split; [reflexivity|]. split; [reflexivity|].
  cbn [lookup_path] in *. rewrite Hd1.
  destruct (md0 !! "ids") as [[| | |d0]|] eqn:Hd0; try discriminate.
  cbn [mbind option_bind] in Hp1. rewrite Hp1. auto.
Qed.

Lemma arxiv_parse_title_present (md : metadata) (hdr : option node) (meta : node) :
  Soup.find_all "dc:title" meta <> [] ->
  ArxivParser._parse_title (ArxivParser.Self md hdr (Some meta))
  = Ok (ArxivParser.Self
          (<["title" := VStr (_clean_output
                                (PyStr.join ": " (List.map Soup.get_text
                                                    (Soup.find_all "dc:title" meta))))]> md)
          hdr (Some meta)).
Proof.
  intros Hne. unfold ArxivParser._parse_title.
  cbn [ArxivParser.input_metadata Soup.deref mbind result_bind].
  destruct (Soup.find_all "dc:title" meta) as [|t [|t' ts]]; [congruence | reflexivity..].
Qed.

Lemma arxiv_parse_author_present (md : metadata) (hdr : option node) (meta : node) :
  flat_map (fun a => name_parser_parse (Soup.get_text a))
           (Soup.find_all "dc:creator" meta) <> [] ->
  ArxivParser._parse_author (ArxivParser.Self md hdr (Some meta))
  = Ok (ArxivParser.Self
          (<["authors" := VList (flat_map (fun a => name_parser_parse (Soup.get_text a))
                                          (Soup.find_all "dc:creator" meta))]> md)
          hdr (Some meta)).
Proof.
  intros Hne. unfold ArxivParser._parse_author.
  cbn [ArxivParser.input_metadata Soup.deref mbind result_bind].
  now destruct (flat_map _ _).
Qed.

(** Lines 154-156: the three optional steps return and only write their own
    keys. *)
Lemma arxiv_optional_steps (md : metadata) (hdr : option node) (meta : node) :
  exists md',
    (self ← ArxivParser._parse_pubdate (ArxivParser.Self md hdr (Some meta));
     self ← ArxivParser._parse_abstract self;
     ArxivParser._parse_keywords self)
    = Ok (ArxivParser.Self md' hdr (Some meta))
    /\ forall k, k <> "pubdate_electronic" -> k <> "abstract" -> k <> "comments" ->
                 k <> "keywords" -> md' !! k = md !! k.
Proof.
  unfold ArxivParser._parse_pubdate, ArxivParser._parse_abstract, ArxivParser._parse_keywords.
  cbn [ArxivParser.input_metadata Soup.deref mbind result_bind].
  destruct (Soup.find "dc:date" meta);
    cbn [mbind result_bind ArxivParser.put ArxivParser.input_metadata
         ArxivParser.input_header ArxivParser.base_metadata Soup.deref];
    destruct (Soup.find_all "dc:description" meta) as [|? [|? ?]];
    cbn [mbind result_bind ArxivParser.put ArxivParser.input_metadata
         ArxivParser.input_header ArxivParser.base_metadata Soup.deref];
    destruct (Soup.find_all "dc:subject" meta);
    cbn [mbind result_bind ArxivParser.put ArxivParser.input_metadata
         ArxivParser.input_header ArxivParser.base_metadata Soup.deref];
    (eexists; split; [reflexivity|]);
    intros k ? ? ? ?; now rewrite ?lookup_insert_ne by congruence.
Qed.

End ArxivSteps.

(** X3: [parse] returns a record when the document has a header with an
    [identifier] node, a metadata root that declares the OAI Dublin Core
    namespace, at least one [dc:title] node and at least one author entry;
    the [base_metadata] it hands over holds the cleaned ": "-join of the
    title texts, the author entries, the final colon-split segment of the
    header identifier as preprint id and "eprint arXiv:" followed by it as
    publication. *)
Theorem arxiv_parse_returns `{Collaborators}
    (text : string) (d : node) (self : ArxivParser.t) (hdr meta idn : node) :
  bsstrtodict text = Some d ->
  ArxivParser.input_header (ArxivParser.locate d self) = Some hdr ->
  ArxivParser.input_metadata (ArxivParser.locate d self) = Some meta ->
  Soup.get "xmlns:oai_dc" meta = Some "http://www.openarchives.org/OAI/2.0/oai_dc/" ->
  Soup.find "identifier" hdr = Some idn ->
  Soup.find_all "dc:title" meta <> [] ->
  flat_map (fun a => name_parser_parse (Soup.get_text a))
           (Soup.find_all "dc:creator" meta) <> [] ->
  exists md seg,
    ArxivParser.parse text self = Ok (format (_entity_convert md))
    /\ last (PyStr.split ":" (Soup.get_text idn)) = Some seg
    /\ md !! "title"
       = Some (VStr (_clean_output
                       (PyStr.join ": " (List.map Soup.get_text
                                           (Soup.find_all "dc:title" meta)))))
    /\ md !! "authors"
       = Some (VList (flat_map (fun a => name_parser_parse (Soup.get_text a))
                               (Soup.find_all "dc:creator" meta)))
    /\ lookup_path ["ids"; "preprint"; "id"] md = Some (VStr seg)
    /\ md !! "publication" = Some (VStr ("eprint arXiv:" +:+ seg)).
Proof.
  intros Hd Hhdr Hmeta Hns Hidn Htitle Hauthors.
  unfold ArxivParser.parse, ArxivParser.parse_tree. rewrite Hd. cbv zeta.
  rewrite Hmeta. cbn [Soup.deref mbind result_bind].
  unfold Soup.get_default. rewrite Hns.
  change (PyStr.truthy "http://www.openarchives.org/OAI/2.0/oai_dc/") with true.
  change (PyStr.in_list "http://www.openarchives.org/OAI/2.0/oai_dc/"
            ArxivParser.DUBCORE_SCHEMA) with true.
  cbn [negb].
  assert (Hself : ArxivParser.locate d self
                  = ArxivParser.Self (ArxivParser.base_metadata self) (Some hdr) (Some meta)).
  { rewrite <- (arxiv_locate_metadata d self), <- Hhdr, <- Hmeta.
    now destruct (ArxivParser.locate d self). }
  rewrite Hself. unfold ArxivParser.extract.
  destruct (arxiv_parse_ids_with_identifier (ArxivParser.base_metadata self) hdr meta idn Hidn)
    as (md1 & seg & -> & Hseg & Hid & _ & Hpub & _).
  cbn [mbind result_bind].
  rewrite (arxiv_parse_title_present md1 (Some hdr) meta Htitle). cbn [mbind result_bind].
  rewrite (arxiv_parse_author_present _ (Some hdr) meta Hauthors). cbn [mbind result_bind].
  match goal with
  | |- context [ArxivParser._parse_pubdate (ArxivParser.Self ?m _ _)] =>
      destruct (arxiv_optional_steps m (Some hdr) meta) as (md' & Hsteps & Hframe)
  end.
  apply bind_ok in Hsteps as (s1 & -> & Hsteps). cbn [mbind result_bind].
  apply bind_ok in Hsteps as (s2 & -> & Hsteps). cbn [mbind result_bind].
  rewrite Hsteps. cbn [mbind result_bind ArxivParser.put ArxivParser.base_metadata].
  exists md', seg. split; [reflexivity|]. split; [exact Hseg|].
  cbn [lookup_path] in *.
  rewrite !Hframe by discriminate.
  rewrite lookup_insert_ne, lookup_insert_eq by discriminate.
  rewrite lookup_insert_eq.
  rewrite !(lookup_insert_ne _ "authors") by discriminate.
  rewrite !(lookup_insert_ne _ "title") by discriminate.
  auto.
Qed.

Lemma arxiv_parse_returns_witness :
  let doc := Sample.arxiv_doc "oai:arXiv.org:0704.0001"
               (Sample.dc [("xmlns:oai_dc", Sample.oai_dc_ns)] Sample.arxiv_fields) in
  let C := Sample.collaborators doc in
  exists md,
    @ArxivParser.parse C Sample.source_text ArxivParser.init
    = Ok (@format C (@_entity_convert C md))
    /\ md !! "title" = Some (VStr "A title")
    /\ md !! "authors" = Some (VList [VStr "Doe, Jane"])
    /\ lookup_path ["ids"; "preprint"; "id"] md = Some (VStr "0704.0001")
    /\ md !! "publication" = Some (VStr "eprint arXiv:0704.0001").
Proof.
  intros doc C.
  destruct (@arxiv_parse_returns C Sample.source_text doc ArxivParser.init
              (Tag None "header" [] [Sample.field "identifier" "oai:arXiv.org:0704.0001"])
              (Sample.dc [("xmlns:oai_dc", Sample.oai_dc_ns)] Sample.arxiv_fields)
              (Sample.field "identifier" "oai:arXiv.org:0704.0001")
              eq_refl eq_refl eq_refl eq_refl eq_refl
              ltac:(discriminate) ltac:(discriminate))
    as (md & seg & Hr & Hseg & Ht & Ha & Hi & Hp).
  vm_compute in Hseg. injection Hseg as <-.
  exists md. repeat split; assumption.
Defined.

(** X4: the title is checked before the authors: once [_parse_ids] has
    returned, a record without a [dc:title] node makes the extraction raise
    MissingTitleException, whether or not it has authors. *)
Theorem arxiv_missing_title_comes_first `{Collaborators}
    (self self1 : ArxivParser.t) (meta : node) :
  ArxivParser.input_metadata self = Some meta ->
  ArxivParser._parse_ids self = Ok self1 ->
  Soup.find_all "dc:title" meta = [] ->
  ArxivParser.extract self = Raise MissingTitleException.
Proof.
  intros Hmeta Hids Htitle. unfold ArxivParser.extract. rewrite Hids.
  cbn [mbind result_bind]. unfold ArxivParser._parse_title.
  rewrite (arxiv_parse_ids_fields _ _ Hids), Hmeta. cbn [Soup.deref mbind result_bind].
  now rewrite Htitle.
Qed.

Lemma arxiv_missing_title_comes_first_witness :
  let self := ArxivParser.Self ∅
                (Some (Tag None "header" [] [Sample.field "identifier" "oai:arXiv.org:0704.0001"]))
                (Some (Sample.dc [] [])) in
  @ArxivParser.extract (Sample.collaborators (Text "")) self = Raise MissingTitleException.
Proof.
  intros self.
  destruct (ArxivParser._parse_ids self) as [self1|] eqn:Hids; [|discriminate Hids].
  exact (@arxiv_missing_title_comes_first (Sample.collaborators (Text "")) self self1
           (Sample.dc [] []) eq_refl Hids eq_refl).
Defined.

(** ** More on strings *)

Section PyStrMore.
Import PyStr.

Lemma contains_char_cons e y t :
  contains (String e EmptyString) (String y t)
  = Ascii.eqb e y || contains (String e EmptyString) t.
Proof.
  cbn [contains]. rewrite startswith_char. now destruct (Ascii.eqb e y).
Qed.

Lemma contains_char_app e s t :
  contains (String e EmptyString) (s +:+ t)
  = contains (String e EmptyString) s || contains (String e EmptyString) t.
Proof.
  induction s as [|y s IH]; cbn [String.append].
  - reflexivity.
  - rewrite !contains_char_cons, IH. now rewrite orb_assoc.
Qed.

Lemma length_append (s t : string) :
  String.length (s +:+ t) = String.length s + String.length t.
Proof. induction s as [|c s IH]; cbn; [reflexivity | now rewrite IH]. Qed.

Lemma append_assoc (s t u : string) : (s +:+ t) +:+ u = s +:+ t +:+ u.
Proof. induction s as [|c s IH]; cbn; [reflexivity | now rewrite IH]. Qed.

(** Splitting on one character: a stretch without it is one segment, *)
Lemma split_go_char_absent c s cur :
  contains (String c EmptyString) s = false ->
  split_go (String c EmptyString) s 0 cur = [cur +:+ s].
Proof.
  revert cur. induction s as [|y s IH]; intros cur Hs.
  - cbn. now rewrite append_empty_r.
  - apply contains_cons_false in Hs as [Hp Hs].
    cbn [split_go]. rewrite Hp, IH by assumption. now rewrite append_assoc_char.
Qed.

(** and the first occurrence ends the first segment. *)
Lemma split_go_char_app c a rest cur :
  contains (String c EmptyString) a = false ->
  split_go (String c EmptyString) (a +:+ String c rest) 0 cur
  = (cur +:+ a) :: split_go (String c EmptyString) rest 0 EmptyString.
Proof.
  revert cur. induction a as [|y a IH]; intros cur Ha; cbn [String.append split_go].
  - rewrite startswith_char, Ascii.eqb_refl. cbn. now rewrite append_empty_r.
  - apply contains_cons_false in Ha as [Hp Ha].
    rewrite startswith_char in Hp. rewrite startswith_char, Hp.
    rewrite IH by assumption. now rewrite append_assoc_char.
Qed.

(** Replacing one character by another leaves none of the first, *)
Lemma replace_char_removes c d s :
  c <> d ->
  contains (String c EmptyString)
           (replace (String c EmptyString) (String d EmptyString) s) = false.
Proof.
  intros Hcd. cbn [replace]. induction s as [|y s IH]; [reflexivity|].
  cbn [replace_go]. rewrite startswith_char.
  change (String.length (String c EmptyString) - 1) with 0.
  destruct (Ascii.eqb c y) eqn:Hy.
  - cbn [String.append]. rewrite contains_char_cons, IH.
    apply Ascii.eqb_neq in Hcd. now rewrite Hcd.
  - now rewrite contains_char_cons, Hy, IH.
Qed.

(** and brings in no character other than the second. *)
Lemma replace_char_keeps_absent c d e s :
  e <> d ->
  contains (String e EmptyString) s = false ->
  contains (String e EmptyString)
           (replace (String c EmptyString) (String d EmptyString) s) = false.
Proof.
  intros Hed. cbn [replace]. induction s as [|y s IH]; intros Hs; [reflexivity|].
  rewrite contains_char_cons in Hs. apply orb_false_iff in Hs as [Hy Hs].
  cbn [replace_go]. rewrite startswith_char.
  change (String.length (String c EmptyString) - 1) with 0.
  destruct (Ascii.eqb c y).
  - cbn [String.append]. rewrite contains_char_cons, IH by assumption.
    apply Ascii.eqb_neq in Hed. now rewrite Hed.
  - now rewrite contains_char_cons, Hy, IH.
Qed.

Lemma rstrip_cons_nonspace c s :
  isspace c = false -> rstrip (String c s) = String c (rstrip s).
Proof. intros Hc. cbn [rstrip]. rewrite Hc. now destruct (rstrip s). Qed.

Lemma rstrip_idem s : rstrip (rstrip s) = rstrip s.
Proof.
  induction s as [|c s IH]; [reflexivity|]. cbn [rstrip].
  destruct (rstrip s) as [|y r] eqn:Hr.
  - destruct (isspace c) eqn:Hc; [reflexivity|]. cbn [rstrip]. now rewrite Hc.
  - cbn [rstrip]. cbn [rstrip] in IH. now rewrite IH.
Qed.

Lemma lstrip_head s :
  lstrip s = EmptyString \/ exists c t, lstrip s = String c t /\ isspace c = false.
Proof.
  induction s as [|c s IH]; [now left|]. cbn [lstrip].
  destruct (isspace c) eqn:Hc; [exact IH | right; eauto].
Qed.

(** [strip] is idempotent: its result has no white space at either end. *)
Lemma strip_idem s : strip (strip s) = strip s.
Proof.
  unfold strip. destruct (lstrip_head s) as [-> | (c & t & -> & Hc)]; [reflexivity|].
  rewrite rstrip_cons_nonspace by assumption. cbn [lstrip]. rewrite Hc.
  rewrite rstrip_cons_nonspace by assumption. now rewrite rstrip_idem.
Qed.

Lemma drop_chars_suffix n s :
  exists pre, s = pre +:+ drop_chars n s
              /\ String.length pre = Nat.min n (String.length s).
Proof.
  revert s. induction n as [|n IH]; intros s.
  - exists EmptyString. now destruct s.
  - destruct s as [|c s]; [now exists EmptyString|].
    destruct (IH s) as (pre & Hs & Hlen). exists (String c pre).
    cbn. split; [now rewrite <- Hs | now rewrite Hlen].
Qed.

(** [s[-n:]] is an end of [s] of at most [n] characters. *)
Lemma last_chars_suffix n s :
  String.length (last_chars n s) <= n /\ exists pre, s = pre +:+ last_chars n s.
Proof.
  unfold last_chars.
  destruct (drop_chars_suffix (String.length s - n) s) as (pre & Hs & Hlen).
  split; [|eauto].
  assert (Hl := f_equal String.length Hs). rewrite length_append in Hl. lia.
Qed.

End PyStrMore.

(** ** Chunks of a multi-record document *)

(** X5: [MultiArxivParser.parse] returns one chunk per chunk that
    [get_chunks] yields, in the same order, and none of them begins or ends
    with white space: stripping a returned chunk again changes nothing. *)
Theorem multi_arxiv_chunks_stripped `{Collaborators} (text : string) (header : bool) :
  length (MultiArxivParser.parse text header)
  = length (get_chunks text MultiArxivParser.start_re MultiArxivParser.end_re header)
  /\ Forall (fun chunk => PyStr.strip chunk = chunk) (MultiArxivParser.parse text header)
  /\ forall i chunk,
       get_chunks text MultiArxivParser.start_re MultiArxivParser.end_re header !! i
       = Some chunk ->
       MultiArxivParser.parse text header !! i = Some (PyStr.strip chunk).
Proof.
  unfold MultiArxivParser.parse. split; [|split].
  - apply length_map.
  - apply Forall_forall. intros chunk Hin.
    apply list_elem_of_In, in_map_iff in Hin as (c & <- & _). apply strip_idem.
  - intros i chunk Hi. change (List.map PyStr.strip) with (fmap (M:=list) PyStr.strip).
    now rewrite list_lookup_fmap, Hi.
Qed.

(** ** Wiley: pages *)

Section ForEachMore.
Context {A S : Type} (body : A -> S -> result S).

Lemma for_each_app_ok l1 l2 s s' :
  for_each body (l1 ++ l2) s = Ok s' ->
  exists s1, for_each body l1 s = Ok s1 /\ for_each body l2 s1 = Ok s'.
Proof.
  rewrite for_each_app. intros Hr. apply bind_ok in Hr as (s1 & H1 & H2). eauto.
Qed.

Lemma for_each_cons_ok a l s s' :
  for_each body (a :: l) s = Ok s' ->
  exists s1, body a s = Ok s1 /\ for_each body l s1 = Ok s'.
Proof. cbn [for_each]. intros Hr. apply bind_ok in Hr as (s1 & H1 & H2). eauto. Qed.

(** The first turn that raises decides the exception of the loop. *)
Lemma for_each_raise l s e :
  for_each body l s = Raise e -> exists a s0, a ∈ l /\ body a s0 = Raise e.
Proof.
  revert s. induction l as [|a l IH]; intros s; cbn [for_each]; [discriminate|].
  destruct (body a s) as [s1|e1] eqn:Ha; cbn [mbind result_bind].
  - intros Hr. destruct (IH _ Hr) as (b & s0 & Hb & Hr'). exists b, s0. split; [now right | assumption].
  - intros [= <-]. exists a, s. split; [left | assumption].
Qed.

End ForEachMore.

Section WileyPage.
Import WileyParser.

Lemma not_sentinel s :
  PyStr.in_list s ["n/a"; "no"] = false -> s <> "n/a" /\ s <> "no".
Proof.
  intros Hs. apply in_list_false in Hs. split; intros ->; apply Hs.
  - left.
  - right. left.
Qed.

End WileyPage.

(** X6: [_parse_page] never stores a sentinel: whenever it returns,
    "page_first" is as it was or a string that is not empty, not "n/a" and
    not "no", and "page_last" is as it was or a string that is not "n/a"
    and not "no". *)
Theorem wiley_page_never_sentinel (self self' : WileyParser.t) :
  WileyParser._parse_page self = Ok self' ->
  (WileyParser.base_metadata self' !! "page_first"
   = WileyParser.base_metadata self !! "page_first"
   \/ exists s, WileyParser.base_metadata self' !! "page_first" = Some (VStr s)
                /\ s <> EmptyString /\ s <> "n/a" /\ s <> "no")
  /\ (WileyParser.base_metadata self' !! "page_last"
      = WileyParser.base_metadata self !! "page_last"
      \/ exists s, WileyParser.base_metadata self' !! "page_last" = Some (VStr s)
                   /\ s <> "n/a" /\ s <> "no").
Proof.
  unfold WileyParser._parse_page. cbv zeta. intros Hr.
  bind_as Hr u E. bind_as Hr st1 E0. destruct st1 as [page_first md1].
  bind_as Hr st2 E1. destruct st2 as [page_first' md2]. bind_as Hr md4 E2.
  injection Hr as <-. cbn [WileyParser.put WileyParser.base_metadata].
  set (md0 := WileyParser.base_metadata self) in *.
  set (md3 := match
       match page_first' with
       | Some s => if PyStr.in_list s ["n/a"; "no"] then None else Some s
       | None => None
       end
     with
     | Some s => if PyStr.truthy s then <["page_first" := VStr s]> md2 else md2
     | None => md2
     end) in *.
  assert (H3 : forall k, k <> "numpages" -> md4 !! k = md3 !! k).
  { intros k Hk. clear -E2 Hk. step_inv E2; now rewrite ?lookup_insert_ne by congruence. }
  assert (H2 : forall k, k <> "electronic_id" -> md2 !! k = md1 !! k).
  { intros k Hk. destruct (WileyParser.falsy page_first); [|now injection E1 as <- <-].
    apply (for_each_keeps_snd _ k) in E1; [exact E1|].
    intros a [pf m] [pf' m'] Hb. clear -Hb Hk.
    step_inv Hb; cbn [fst snd]; now rewrite ?lookup_insert_ne by congruence. }
  assert (H1 : md1 !! "page_first" = md0 !! "page_first").
  { apply (for_each_keeps_snd _ "page_first") in E0; [exact E0|].
    intros a [pf m] [pf' m'] Hb. keeps_from Hb. }
  split.
  - rewrite H3 by discriminate. rewrite <- H1, <- H2 by discriminate. subst md3.
    destruct page_first' as [s|]; [|now left].
    destruct (PyStr.in_list s ["n/a"; "no"]) eqn:Hs; [now left|].
    destruct (PyStr.truthy s) eqn:Ht; [|now left].
    right. exists s. rewrite lookup_insert_eq.
    destruct (not_sentinel s Hs). repeat split; auto.
    intros ->. discriminate Ht.
  - rewrite H3 by discriminate.
    assert (H4 : md3 !! "page_last" = md2 !! "page_last").
    { subst md3. repeat match goal with |- context [match ?x with _ => _ end] => destruct x end;
        now rewrite ?lookup_insert_ne by discriminate. }
    rewrite H4, H2 by discriminate.
    apply (for_each_preserves _
             (fun st => st.2 !! "page_last" = md0 !! "page_last"
                        \/ exists s, st.2 !! "page_last" = Some (VStr s)
                                     /\ s <> "n/a" /\ s <> "no")) in E0;
      [exact E0 | | now left].
    intros n [pf m] [pf' m'] _ Hb Hm. cbn [snd] in *. bind_as Hb ty Ety.
    destruct (String.eqb ty "pageFirst"); [now injection Hb as <- <-|].
    destruct (String.eqb ty "pageLast"); [|now injection Hb as <- <-].
    destruct (PyStr.in_list (Soup.get_text n) ["n/a"; "no"]) eqn:Hs;
      cbn [negb] in Hb; injection Hb as <- <-; [assumption|].
    right. exists (Soup.get_text n). rewrite lookup_insert_eq.
    destruct (not_sentinel _ Hs). auto.
Qed.

Lemma wiley_page_never_sentinel_witness :
  let unit := Tag None "publicationMeta" [("level", "unit")]
                [Tag None "numbering" [("type", "pageFirst")] [Text "n/a"];
                 Tag None "numbering" [("type", "pageLast")] [Text "12"]] in
  let self := WileyParser.Self ∅ None None (Some unit) None None in
  exists self',
    WileyParser._parse_page self = Ok self'
    /\ WileyParser.base_metadata self' !! "page_first" = None
    /\ WileyParser.base_metadata self' !! "page_last" = Some (VStr "12").
Proof.
  intros unit self.
  destruct (WileyParser._parse_page self) as [self'|] eqn:Hr; [|discriminate Hr].
  pose proof (wiley_page_never_sentinel self self' Hr) as _.
  exists self'. vm_compute in Hr. injection Hr as <-.
  repeat split; reflexivity.
Defined.

Section WileyPageLoops.
Import WileyParser.

Lemma deref_some o (n m : node) : o = Some n -> Soup.deref o = Ok m -> m = n.
Proof. intros -> [= <-]. reflexivity. Qed.

Lemma eqb_other_type ty ty' n :
  Soup.get "type" n = Some ty -> Soup.get "type" n <> Some ty' -> String.eqb ty ty' = false.
Proof. intros Hty Hne. apply String.eqb_neq. intros ->. contradiction. Qed.

End WileyPageLoops.

(** X7: the page numbering comes first.  When the last [numbering] node of
    type [pageFirst] in the unit-level [publicationMeta] has a text that is
    not empty, [_parse_page] does not look at the [id] nodes: it leaves
    "electronic_id" alone, and it stores that text under "page_first"
    unless the text is "n/a" or "no", in which case "page_first" is left
    alone as well. *)
Theorem wiley_page_first_from_numbering
    (self self' : WileyParser.t) (unit n : node) (pre post : list node) :
  WileyParser.pubmeta_unit self = Some unit ->
  Soup.find_all "numbering" unit = pre ++ n :: post ->
  Soup.get "type" n = Some "pageFirst" ->
  Forall (fun m => Soup.get "type" m <> Some "pageFirst") post ->
  Soup.get_text n <> EmptyString ->
  WileyParser._parse_page self = Ok self' ->
  WileyParser.base_metadata self' !! "electronic_id"
  = WileyParser.base_metadata self !! "electronic_id"
  /\ WileyParser.base_metadata self' !! "page_first"
     = if PyStr.in_list (Soup.get_text n) ["n/a"; "no"]
       then WileyParser.base_metadata self !! "page_first"
       else Some (VStr (Soup.get_text n)).
Proof.
  intros Hunit Hnum Hn Hpost Htext. unfold WileyParser._parse_page. cbv zeta. intros Hr.
  bind_as Hr u E. apply (deref_some _ _ _ Hunit) in E. subst u.
  bind_as Hr st1 E0. destruct st1 as [page_first md1].
  bind_as Hr st2 E1. destruct st2 as [page_first' md2]. bind_as Hr md4 E2.
  injection Hr as <-. cbn [WileyParser.put WileyParser.base_metadata].
  set (md0 := WileyParser.base_metadata self) in *.
  set (md3 := match
       match page_first' with
       | Some s => if PyStr.in_list s ["n/a"; "no"] then None else Some s
       | None => None
       end
     with
     | Some s => if PyStr.truthy s then <["page_first" := VStr s]> md2 else md2
     | None => md2
     end) in *.
  assert (H3 : forall k, k <> "numpages" -> md4 !! k = md3 !! k).
  { intros k Hk. clear -E2 Hk. step_inv E2; now rewrite ?lookup_insert_ne by congruence. }
  assert (H1 : forall k, k <> "page_last" -> md1 !! k = md0 !! k).
  { intros k Hk. apply (for_each_keeps_snd _ k) in E0; [exact E0|].
    intros a [pf m] [pf' m'] Hb. clear -Hb Hk.
    step_inv Hb; cbn [fst snd]; now rewrite ?lookup_insert_ne by congruence. }
  assert (Hpf : page_first = Some (Soup.get_text n)).
  { rewrite Hnum in E0. apply for_each_app_ok in E0 as ([pfa mda] & _ & E0).
    apply for_each_cons_ok in E0 as ([pfn mdn] & Hturn & E0).
    rewrite (getitem_some _ _ _ Hn) in Hturn. cbn in Hturn. injection Hturn as <- <-.
    apply (for_each_preserves _ (fun st => st.1 = Some (Soup.get_text n))) in E0;
      [exact E0 | | reflexivity].
    intros m [pf mm] [pf' mm'] Hin Hb Hst. cbn [fst] in *. subst pf.
    rewrite Forall_forall in Hpost. bind_as Hb ty Ety. apply getitem_ok in Ety.
    rewrite (eqb_other_type _ _ _ Ety (Hpost m Hin)) in Hb.
    destruct (String.eqb ty "pageLast"); [|now injection Hb as <- _].
    destruct (negb _); now injection Hb as <- _. }
  subst page_first.
  assert (Hfalsy : WileyParser.falsy (Some (Soup.get_text n)) = false).
  { cbn. now destruct (Soup.get_text n). }
  rewrite Hfalsy in E1. injection E1 as <- <-.
  rewrite !H3 by discriminate. subst md3.
  destruct (PyStr.in_list (Soup.get_text n) ["n/a"; "no"]).
  - rewrite !H1 by discriminate. auto.
  - assert (Ht : PyStr.truthy (Soup.get_text n) = true) by now destruct (Soup.get_text n).
    rewrite Ht, lookup_insert_eq, lookup_insert_ne by discriminate.
    rewrite H1 by discriminate. auto.
Qed.

Lemma wiley_page_first_from_numbering_witness :
  let unit pf := Tag None "publicationMeta" [("level", "unit")]
                   [Tag None "numbering" [("type", "pageFirst")] [Text pf];
                    Tag None "numbering" [("type", "pageLast")] [Text "12"];
                    Tag None "id" [("type", "eLocator")] [Text "e1234567890"]] in
  let run pf :=
    self' ← WileyParser._parse_page (WileyParser.Self ∅ None None (Some (unit pf)) None None);
    Ok (WileyParser.base_metadata self' !! "electronic_id",
        WileyParser.base_metadata self' !! "page_first") in
  run "n/a" = Ok (None, None) /\ run "101" = Ok (None, Some (VStr "101")).
Proof.
  intros unit run. unfold run. split.
  - destruct (WileyParser._parse_page
                (WileyParser.Self ∅ None None (Some (unit "n/a")) None None))
      as [self'|] eqn:Hr; [|discriminate Hr].
    destruct (wiley_page_first_from_numbering
                (WileyParser.Self ∅ None None (Some (unit "n/a")) None None) self' (unit "n/a")
                (Tag None "numbering" [("type", "pageFirst")] [Text "n/a"]) []
                [Tag None "numbering" [("type", "pageLast")] [Text "12"]]
                eq_refl eq_refl eq_refl) as [He Hp];
      [repeat constructor; intros Ht; vm_compute in Ht; discriminate Ht
      | discriminate | exact Hr |].
    cbn [mbind result_bind]. now rewrite He, Hp.
  - destruct (WileyParser._parse_page
                (WileyParser.Self ∅ None None (Some (unit "101")) None None))
      as [self'|] eqn:Hr; [|discriminate Hr].
    destruct (wiley_page_first_from_numbering
                (WileyParser.Self ∅ None None (Some (unit "101")) None None) self' (unit "101")
                (Tag None "numbering" [("type", "pageFirst")] [Text "101"]) []
                [Tag None "numbering" [("type", "pageLast")] [Text "12"]]
                eq_refl eq_refl eq_refl) as [He Hp];
      [repeat constructor; intros Ht; vm_compute in Ht; discriminate Ht
      | discriminate | exact Hr |].
    cbn [mbind result_bind]. now rewrite He, Hp.
Defined.

(** X8: the fall-back.  Without a [numbering] node of type [pageFirst],
    [_parse_page] reads the [id] nodes of the unit-level [publicationMeta]:
    "electronic_id" becomes the last five characters (the whole text when it
    is shorter) of the last [id] node of type [eLocator], and "page_first"
    the text of the last [id] node of type [society] unless that text is
    empty, "n/a" or "no". *)
Theorem wiley_page_fallback (self self' : WileyParser.t) (unit : node) :
  WileyParser.pubmeta_unit self = Some unit ->
  Forall (fun m => Soup.get "type" m <> Some "pageFirst") (Soup.find_all "numbering" unit) ->
  WileyParser._parse_page self = Ok self' ->
  (forall pre i post,
      Soup.find_all "id" unit = pre ++ i :: post ->
      Soup.get "type" i = Some "eLocator" ->
      Forall (fun m => Soup.get "type" m <> Some "eLocator") post ->
      WileyParser.base_metadata self' !! "electronic_id"
      = Some (VStr (PyStr.last_chars 5 (Soup.get_text i)))
      /\ String.length (PyStr.last_chars 5 (Soup.get_text i)) <= 5
      /\ exists p, Soup.get_text i = p +:+ PyStr.last_chars 5 (Soup.get_text i))
  /\ (forall pre i post,
         Soup.find_all "id" unit = pre ++ i :: post ->
         Soup.get "type" i = Some "society" ->
         Forall (fun m => Soup.get "type" m <> Some "society") post ->
         WileyParser.base_metadata self' !! "page_first"
         = if PyStr.in_list (Soup.get_text i) ["n/a"; "no"]
              || negb (PyStr.truthy (Soup.get_text i))
           then WileyParser.base_metadata self !! "page_first"
           else Some (VStr (Soup.get_text i))).
Proof.
  intros Hunit Hnum. unfold WileyParser._parse_page. cbv zeta. intros Hr.
  bind_as Hr u E. apply (deref_some _ _ _ Hunit) in E. subst u.
  bind_as Hr st1 E0. destruct st1 as [page_first md1].
  bind_as Hr st2 E1. destruct st2 as [page_first' md2]. bind_as Hr md4 E2.
  injection Hr as <-. cbn [WileyParser.put WileyParser.base_metadata].
  set (md0 := WileyParser.base_metadata self) in *.
  set (md3 := match
       match page_first' with
       | Some s => if PyStr.in_list s ["n/a"; "no"] then None else Some s
       | None => None
       end
     with
     | Some s => if PyStr.truthy s then <["page_first" := VStr s]> md2 else md2
     | None => md2
     end) in *.
  assert (H3 : forall k, k <> "numpages" -> md4 !! k = md3 !! k).
  { intros k Hk. clear -E2 Hk. step_inv E2; now rewrite ?lookup_insert_ne by congruence. }
  assert (H1 : forall k, k <> "page_last" -> md1 !! k = md0 !! k).
  { intros k Hk. apply (for_each_keeps_snd _ k) in E0; [exact E0|].
    intros a [pf m] [pf' m'] Hb. clear -Hb Hk.
    step_inv Hb; cbn [fst snd]; now rewrite ?lookup_insert_ne by congruence. }
  assert (Hpf : page_first = None).
  { apply (for_each_preserves _ (fun st => st.1 = None)) in E0; [exact E0 | | reflexivity].
    intros m [pf mm] [pf' mm'] Hin Hb Hst. cbn [fst] in *. subst pf.
    rewrite Forall_forall in Hnum. bind_as Hb ty Ety. apply getitem_ok in Ety.
    rewrite (eqb_other_type _ _ _ Ety (Hnum m Hin)) in Hb.
    destruct (String.eqb ty "pageLast"); [|now injection Hb as <- _].
    destruct (negb _); now injection Hb as <- _. }
  subst page_first. cbn [WileyParser.falsy] in E1.
  split.
  - intros pre i post Hids Hi Hpost. split; [|apply last_chars_suffix].
    rewrite H3 by discriminate.
    assert (H2 : md2 !! "electronic_id"
                 = Some (VStr (PyStr.last_chars 5 (Soup.get_text i)))).
    { rewrite Hids in E1. apply for_each_app_ok in E1 as ([pfa mda] & _ & E1).
      apply for_each_cons_ok in E1 as ([pfi mdi] & Hturn & E1).
      rewrite (getitem_some _ _ _ Hi) in Hturn. cbn in Hturn. injection Hturn as _ <-.
      apply (for_each_preserves _
               (fun st => st.2 !! "electronic_id"
                          = Some (VStr (PyStr.last_chars 5 (Soup.get_text i))))) in E1;
        [exact E1 | | apply lookup_insert_eq].
      intros m [pf mm] [pf' mm'] Hin Hb Hst. cbn [snd] in *.
      rewrite Forall_forall in Hpost. bind_as Hb ty Ety. apply getitem_ok in Ety.
      rewrite (eqb_other_type _ _ _ Ety (Hpost m Hin)) in Hb.
      now injection Hb as _ <-. }
    subst md3.
    repeat match goal with |- context [match ?x with _ => _ end] => destruct x end;
      now rewrite ?lookup_insert_ne by discriminate.
  - intros pre i post Hids Hi Hpost.
    rewrite H3 by discriminate. subst md3.
    assert (Hpf' : page_first' = Some (Soup.get_text i)).
    { rewrite Hids in E1. apply for_each_app_ok in E1 as ([pfa mda] & _ & E1).
      apply for_each_cons_ok in E1 as ([pfi mdi] & Hturn & E1).
      rewrite (getitem_some _ _ _ Hi) in Hturn. cbn in Hturn. injection Hturn as <- _.
      apply (for_each_preserves _ (fun st => st.1 = Some (Soup.get_text i))) in E1;
        [exact E1 | | reflexivity].
      intros m [pf mm] [pf' mm'] Hin Hb Hst. cbn [fst] in *. subst pf.
      rewrite Forall_forall in Hpost. bind_as Hb ty Ety. apply getitem_ok in Ety.
      rewrite (eqb_other_type _ _ _ Ety (Hpost m Hin)) in Hb.
      destruct (String.eqb ty "eLocator"); now injection Hb as <- _. }
    assert (H2 : md2 !! "page_first" = md0 !! "page_first").
    { rewrite <- H1 by discriminate.
      apply (for_each_keeps_snd _ "page_first") in E1; [exact E1|].
      intros a [pf m] [pf' m'] Hb. clear -Hb.
      step_inv Hb; cbn [fst snd]; now rewrite ?lookup_insert_ne by discriminate. }
    subst page_first'.
    destruct (PyStr.in_list (Soup.get_text i) ["n/a"; "no"]); cbn [orb]; [exact H2|].
    destruct (PyStr.truthy (Soup.get_text i)); cbn [negb]; [|exact H2].
    apply lookup_insert_eq.
Qed.

Lemma wiley_page_fallback_witness :
  let unit := Tag None "publicationMeta" [("level", "unit")]
                [Tag None "numbering" [("type", "pageLast")] [Text "no"];
                 Tag None "id" [("type", "society")] [Text "L07"];
                 Tag None "id" [("type", "eLocator")] [Text "e1234567890"]] in
  let self := WileyParser.Self ∅ None None (Some unit) None None in
  exists self',
    WileyParser._parse_page self = Ok self'
    /\ WileyParser.base_metadata self' !! "electronic_id" = Some (VStr "67890")
    /\ WileyParser.base_metadata self' !! "page_first" = Some (VStr "L07").
Proof.
  intros unit self.
  destruct (WileyParser._parse_page self) as [self'|] eqn:Hr; [|discriminate Hr].
  destruct (wiley_page_fallback self self' unit eq_refl) as [Heid Hpf];
    [repeat constructor; intros Ht; vm_compute in Ht; discriminate Ht | exact Hr |].
  exists self'. split; [reflexivity|]. split.
  - apply (Heid [Tag None "id" [("type", "society")] [Text "L07"]]
                (Tag None "id" [("type", "eLocator")] [Text "e1234567890"]) [] eq_refl eq_refl).
    constructor.
  - apply (Hpf [] (Tag None "id" [("type", "society")] [Text "L07"])
               [Tag None "id" [("type", "eLocator")] [Text "e1234567890"]] eq_refl eq_refl).
    repeat constructor. intros Ht. vm_compute in Ht. discriminate Ht.
Defined.

(** ** Wiley: print date and editorial history *)

(** X9: with a [coverDate] node in the part-level [publicationMeta],
    [_parse_pubdate] stores its [startDate] under "pubdate_print" padded to
    year-month-day: a year alone gets "-00-00", a year and a month get "-00",
    a full date is stored as it stands, and what follows a third hyphen is
    dropped.  A [coverDate] node without [startDate] makes it raise
    KeyError('startDate'). *)
Theorem wiley_pubdate_print_padding
    (self : WileyParser.t) (part cd : node) (y m d : string) :
  WileyParser.pubmeta_part self = Some part ->
  Soup.find "coverDate" part = Some cd ->
  PyStr.contains "-" y = false ->
  PyStr.contains "-" m = false ->
  PyStr.contains "-" d = false ->
  let stored start v :=
    Soup.get "startDate" cd = Some start ->
    forall self', WileyParser._parse_pubdate self = Ok self' ->
                  WileyParser.base_metadata self' !! "pubdate_print" = Some (VStr v) in
  stored y (y +:+ "-00-00")
  /\ stored (y +:+ "-" +:+ m) (y +:+ "-" +:+ m +:+ "-00")
  /\ stored (y +:+ "-" +:+ m +:+ "-" +:+ d) (y +:+ "-" +:+ m +:+ "-" +:+ d)
  /\ (forall rest, stored (y +:+ "-" +:+ m +:+ "-" +:+ d +:+ "-" +:+ rest)
                          (y +:+ "-" +:+ m +:+ "-" +:+ d))
  /\ (Soup.get "startDate" cd = None ->
      WileyParser._parse_pubdate self = Raise (KeyError "startDate")).
Proof.
  intros Hpart Hcd Hy Hm Hd stored.
  assert (Hrun : forall start pubdate v,
             PyStr.split "-" start = pubdate ->
             (exists year, pubdate !! 0%nat = Some year
                /\ v = year +:+ "-" +:+ default "00" (pubdate !! 1%nat)
                            +:+ "-" +:+ default "00" (pubdate !! 2%nat)) ->
             stored start v).
  { intros start pubdate v Hsplit (year & Hyear & ->) Hstart self' Hr.
    unfold WileyParser._parse_pubdate in Hr. rewrite Hpart in Hr.
    cbn [Soup.deref mbind result_bind] in Hr.
    unfold WileyParser.pubdate_print in Hr. rewrite Hcd in Hr.
    rewrite (getitem_some _ _ _ Hstart) in Hr. cbn [mbind result_bind] in Hr.
    rewrite Hsplit, Hyear in Hr. cbn [mbind result_bind] in Hr.
    bind_as Hr u Eu. bind_as Hr md2 Eloop. injection Hr as <-.
    cbn [WileyParser.put WileyParser.base_metadata].
    rewrite (pubdate_loop_keeps _ _ _ _ "pubdate_print" ltac:(discriminate) Eloop).
    apply lookup_insert_eq. }
  repeat split.
  - apply (Hrun y [y]); [|now exists y].
    unfold PyStr.split. now rewrite split_go_char_absent.
  - apply (Hrun _ [y; m]); [|now exists y].
    unfold PyStr.split. change ("-" +:+ m) with (String "-" m).
    rewrite split_go_char_app by assumption. now rewrite split_go_char_absent.
  - apply (Hrun _ [y; m; d]); [|now exists y].
    unfold PyStr.split. change ("-" +:+ m +:+ "-" +:+ d) with (String "-" (m +:+ String "-" d)).
    rewrite !split_go_char_app by assumption. now rewrite split_go_char_absent.
  - intros rest.
    apply (Hrun _ (y :: m :: d :: PyStr.split "-" rest)); [|now exists y].
    unfold PyStr.split.
    change ("-" +:+ m +:+ "-" +:+ d +:+ "-" +:+ rest)
      with (String "-" (m +:+ String "-" (d +:+ String "-" rest))).
    now rewrite !split_go_char_app by assumption.
  - intros Hnone. unfold WileyParser._parse_pubdate. rewrite Hpart.
    cbn [Soup.deref mbind result_bind]. unfold WileyParser.pubdate_print, Soup.getitem.
    now rewrite Hcd, Hnone.
Qed.

Lemma wiley_pubdate_print_padding_witness :
  let part start := Tag None "publicationMeta" [("level", "part")]
                      [Tag None "coverDate" [("startDate", start)] []] in
  let unit := Tag None "publicationMeta" [("level", "unit")] [] in
  let run start :=
    self' ← WileyParser._parse_pubdate
              (WileyParser.Self ∅ None (Some (part start)) (Some unit) None None);
    Ok (WileyParser.base_metadata self' !! "pubdate_print") in
  run "2020" = Ok (Some (VStr "2020-00-00"))
  /\ run "2020-05" = Ok (Some (VStr "2020-05-00"))
  /\ run "2020-05-17" = Ok (Some (VStr "2020-05-17")).
Proof.
  intros part unit run.
  assert (Hrun : forall start v,
             (Soup.get "startDate" (Tag None "coverDate" [("startDate", start)] []) = Some start ->
              forall self',
                WileyParser._parse_pubdate
                  (WileyParser.Self ∅ None (Some (part start)) (Some unit) None None) = Ok self' ->
                WileyParser.base_metadata self' !! "pubdate_print" = Some (VStr v)) ->
             (exists self', WileyParser._parse_pubdate
                  (WileyParser.Self ∅ None (Some (part start)) (Some unit) None None) = Ok self') ->
             run start = Ok (Some (VStr v))).
  { intros start v Hv (self' & Hr). unfold run. rewrite Hr. cbn [mbind result_bind].
    rewrite (Hv eq_refl self' Hr). reflexivity. }
  split; [|split].
  - apply Hrun; [|eexists; reflexivity].
    apply (wiley_pubdate_print_padding
             (WileyParser.Self ∅ None (Some (part "2020")) (Some unit) None None)
             (part "2020") (Tag None "coverDate" [("startDate", "2020")] [])
             "2020" "05" "17" eq_refl eq_refl eq_refl eq_refl eq_refl).
  - apply Hrun; [|eexists; reflexivity].
    apply (wiley_pubdate_print_padding
             (WileyParser.Self ∅ None (Some (part "2020-05")) (Some unit) None None)
             (part "2020-05") (Tag None "coverDate" [("startDate", "2020-05")] [])
             "2020" "05" "17" eq_refl eq_refl eq_refl eq_refl eq_refl).
  - apply Hrun; [|eexists; reflexivity].
    apply (wiley_pubdate_print_padding
             (WileyParser.Self ∅ None (Some (part "2020-05-17")) (Some unit) None None)
             (part "2020-05-17") (Tag None "coverDate" [("startDate", "2020-05-17")] [])
             "2020" "05" "17" eq_refl eq_refl eq_refl eq_refl eq_refl).
Defined.

Section EdHistory.
Import WileyParser.

Lemma dates_trans_cases ty key :
  Soup.assoc ty dates_trans = Some key ->
  (ty = "manuscriptRevised" /\ key = "edhist_rev")
  \/ (ty = "manuscriptReceived" /\ key = "edhist_rec")
  \/ (ty = "manuscriptAccepted" /\ key = "edhist_acc").
Proof.
  unfold dates_trans. cbn [Soup.assoc].
  destruct (String.eqb_spec "manuscriptRevised" ty) as [<-|_]; [intros [= <-]; auto|].
  destruct (String.eqb_spec "manuscriptReceived" ty) as [<-|_]; [intros [= <-]; auto|].
  destruct (String.eqb_spec "manuscriptAccepted" ty) as [<-|_]; [intros [= <-]; auto|].
  discriminate.
Qed.

(** Different event types are stored under different keys. *)
Lemma dates_trans_inj ty ty' key key' :
  Soup.assoc ty dates_trans = Some key ->
  Soup.assoc ty' dates_trans = Some key' ->
  ty <> ty' -> key <> key'.
Proof.
  intros H1 H2 Hne.
  destruct (dates_trans_cases _ _ H1) as [[-> ->] | [[-> ->] | [-> ->]]];
    destruct (dates_trans_cases _ _ H2) as [[-> ->] | [[-> ->] | [-> ->]]];
    congruence.
Qed.

End EdHistory.

(** X10: the editorial history keeps one date per kind.  For each of the
    three event types of [dates_trans], whenever [_parse_edhistory] returns,
    its key holds the date of the last event node of that type and nothing
    of the earlier ones: as a plain string for [manuscriptAccepted], as a
    list of that one date for [manuscriptRevised] and
    [manuscriptReceived]. *)
Theorem wiley_edhistory_last_event
    (self self' : WileyParser.t) (unit e : node) (pre post : list node)
    (ty key date : string) :
  WileyParser.pubmeta_unit self = Some unit ->
  Soup.find_all "event" unit = pre ++ e :: post ->
  Soup.assoc ty WileyParser.dates_trans = Some key ->
  Soup.get "type" e = Some ty ->
  Soup.get "date" e = Some date ->
  Forall (fun m => Soup.get "type" m <> Some ty) post ->
  WileyParser._parse_edhistory self = Ok self' ->
  WileyParser.base_metadata self' !! key
  = Some (if String.eqb ty "manuscriptAccepted" then VStr date else VList [VStr date]).
Proof.
  intros Hunit Hev Hkey Hty Hdate Hpost. unfold WileyParser._parse_edhistory. cbv zeta.
  intros Hr. bind_as Hr u E. apply (deref_some _ _ _ Hunit) in E. subst u.
  bind_as Hr md1 E0. injection Hr as <-. cbn [WileyParser.put WileyParser.base_metadata].
  rewrite Hev in E0. apply for_each_app_ok in E0 as (mda & _ & E0).
  apply for_each_cons_ok in E0 as (mde & Hturn & E0).
  rewrite (getitem_some _ _ _ Hty) in Hturn. cbn [mbind result_bind] in Hturn.
  rewrite Hkey, (getitem_some _ _ _ Hdate) in Hturn. cbn [mbind result_bind] in Hturn.
  injection Hturn as <-.
  apply (for_each_preserves _
           (fun md => md !! key
                      = Some (if String.eqb ty "manuscriptAccepted"
                              then VStr date else VList [VStr date]))) in E0;
    [exact E0 | | apply lookup_insert_eq].
  intros m md md' Hin Hb Hmd. rewrite Forall_forall in Hpost.
  bind_as Hb ty' Ety. apply getitem_ok in Ety.
  destruct (Soup.assoc ty' WileyParser.dates_trans) as [key'|] eqn:Hkey';
    [|now injection Hb as <-].
  bind_as Hb date' Edate. injection Hb as <-.
  rewrite lookup_insert_ne; [exact Hmd|].
  apply (dates_trans_inj ty' ty key' key Hkey' Hkey).
  intros ->. exact (Hpost m Hin Ety).
Qed.

Lemma wiley_edhistory_last_event_witness :
  let events := [Sample.event "manuscriptRevised" "2019-10-01";
                 Sample.event "manuscriptAccepted" "2019-11-01";
                 Sample.event "manuscriptRevised" "2019-10-20";
                 Sample.event "firstOnline" "2020-01-01"] in
  let unit := Tag None "publicationMeta" [("level", "unit")] [Tag None "eventGroup" [] events] in
  let self := WileyParser.Self ∅ None None (Some unit) None None in
  exists self',
    WileyParser._parse_edhistory self = Ok self'
    /\ WileyParser.base_metadata self' !! "edhist_rev" = Some (VList [VStr "2019-10-20"])
    /\ WileyParser.base_metadata self' !! "edhist_acc" = Some (VStr "2019-11-01").
Proof.
  intros events unit self.
  destruct (WileyParser._parse_edhistory self) as [self'|] eqn:Hr; [|discriminate Hr].
  exists self'. split; [reflexivity|]. split.
  - apply (wiley_edhistory_last_event self self' unit
             (Sample.event "manuscriptRevised" "2019-10-20")
             [Sample.event "manuscriptRevised" "2019-10-01";
              Sample.event "manuscriptAccepted" "2019-11-01"]
             [Sample.event "firstOnline" "2020-01-01"]
             "manuscriptRevised" "edhist_rev" "2019-10-20"
             eq_refl eq_refl eq_refl eq_refl eq_refl);
      [repeat constructor; intros Ht; vm_compute in Ht; discriminate Ht | exact Hr].
  - apply (wiley_edhistory_last_event self self' unit
             (Sample.event "manuscriptAccepted" "2019-11-01")
             [Sample.event "manuscriptRevised" "2019-10-01"]
             [Sample.event "manuscriptRevised" "2019-10-20";
              Sample.event "firstOnline" "2020-01-01"]
             "manuscriptAccepted" "edhist_acc" "2019-11-01"
             eq_refl eq_refl eq_refl eq_refl eq_refl);
      [repeat constructor; intros Ht; vm_compute in Ht; discriminate Ht | exact Hr].
Defined.

(** ** Wiley: documents without the expected parts *)

Section WileyLocate.
Import WileyParser.

(** Without a product-level node the loop of lines 209-215 leaves
    [pubmeta_prod] alone. *)
Lemma wiley_locate_without_product d self :
  Forall (fun p => exists level, Soup.get "level" p = Some level /\ level <> "product")
         (Soup.find_all "publicationMeta" d) ->
  exists self', locate d self = Ok self' /\ pubmeta_prod self' = pubmeta_prod self.
Proof.
  intros Hall. unfold locate.
  match goal with
  | |- context [for_each ?body _ self] =>
      destruct (for_each_invariant body (fun s => pubmeta_prod s = pubmeta_prod self)
                  (Soup.find_all "publicationMeta" d) self) as (s1 & -> & Hs1);
        [|reflexivity|]
  end.
  - intros p s Hin Hs. rewrite Forall_forall in Hall.
    destruct (Hall p Hin) as (level & Hlevel & Hne).
    rewrite (getitem_some _ _ _ Hlevel). cbn [mbind result_bind].
    apply String.eqb_neq in Hne. rewrite Hne.
    destruct (String.eqb level "part"); [eauto|].
    destruct (String.eqb level "unit"); eauto.
  - cbn [mbind result_bind]. eexists. split; [reflexivity | exact Hs1].
Qed.

(** The first node without [level] ends the loop with KeyError. *)
Lemma wiley_locate_without_level d self :
  Exists (fun p => Soup.get "level" p = None) (Soup.find_all "publicationMeta" d) ->
  locate d self = Raise (KeyError "level").
Proof.
  unfold locate. intros Hex.
  match goal with
  | |- context [for_each ?body ?l self] =>
      assert (Hloop : forall s, for_each body l s = Raise (KeyError "level"))
  end.
  { induction Hex as [p l Hp | p l _ IH]; intros s; cbn [for_each].
    - assert (Hg : Soup.getitem "level" p = Raise (KeyError "level"))
        by (unfold Soup.getitem; now rewrite Hp).
      now rewrite Hg.
    - destruct (Soup.get "level" p) as [level|] eqn:Hl.
      2:{ assert (Hg : Soup.getitem "level" p = Raise (KeyError "level"))
            by (unfold Soup.getitem; now rewrite Hl).
          now rewrite Hg. }
      rewrite (getitem_some _ _ _ Hl). cbn [mbind result_bind].
      destruct (String.eqb level "product"), (String.eqb level "part"),
        (String.eqb level "unit"); cbn [mbind result_bind]; apply IH. }
  now rewrite Hloop.
Qed.

End WileyLocate.

(** X11: what is not Wiley markup fails with built-in exceptions.  On a new
    parser, a document in which no [publicationMeta] node has level
    "product" (for one, a document without such nodes) makes [parse] raise
    AttributeError; a [publicationMeta] node without the [level] attribute
    makes it raise KeyError('level'). *)
Theorem wiley_parse_without_product_level `{Collaborators} (text : string) (d : node) :
  bsstrtodict text = Some d ->
  (Forall (fun p => exists level, Soup.get "level" p = Some level /\ level <> "product")
          (Soup.find_all "publicationMeta" d) ->
   WileyParser.parse text WileyParser.init = Raise AttributeError)
  /\ (Exists (fun p => Soup.get "level" p = None) (Soup.find_all "publicationMeta" d) ->
      WileyParser.parse text WileyParser.init = Raise (KeyError "level")).
Proof.
  intros Hd. unfold WileyParser.parse, WileyParser.parse_tree. rewrite Hd. split.
  - intros Hall.
    destruct (wiley_locate_without_product d WileyParser.init Hall) as (s & -> & Hprod).
    cbn [mbind result_bind]. unfold WileyParser.extract, WileyParser._parse_ids.
    cbv zeta. now rewrite Hprod.
  - intros Hex. now rewrite wiley_locate_without_level.
Qed.

Lemma wiley_parse_without_product_level_witness :
  let arxiv := Sample.arxiv_doc "oai:arXiv.org:0704.0001"
                 (Sample.dc [("xmlns:oai_dc", Sample.oai_dc_ns)] Sample.arxiv_fields) in
  let broken := Tag None "[document]" [] [Tag None "publicationMeta" [] []] in
  @WileyParser.parse (Sample.collaborators arxiv) Sample.source_text WileyParser.init
  = Raise AttributeError
  /\ @WileyParser.parse (Sample.collaborators broken) Sample.source_text WileyParser.init
     = Raise (KeyError "level").
Proof.
  intros arxiv broken. split.
  - apply (proj1 (@wiley_parse_without_product_level (Sample.collaborators arxiv)
                    Sample.source_text arxiv eq_refl)).
    constructor.
  - apply (proj2 (@wiley_parse_without_product_level (Sample.collaborators broken)
                    Sample.source_text broken eq_refl)).
    left. reflexivity.
Defined.

(** ** Wiley: ORCID identifiers *)

Section ReChr.
Import Re.

(** A pattern of single-character classes matches as many characters as it
    has classes, and matches them again on their own. *)
Lemma match_chr_only ps s g :
  match_ (List.map Chr ps) s = Some g ->
  String.length g = length ps
  /\ (exists post, s = g +:+ post)
  /\ match_ (List.map Chr ps) g = Some g.
Proof.
  revert s g. induction ps as [|p ps IH]; intros s g; cbn [List.map].
  - cbn. intros [= <-]. repeat split. now exists s.
  - destruct s as [|c s]; [discriminate|]. rewrite match_chr_cons.
    destruct (p c) eqn:Hp; [|discriminate].
    destruct (match_ (List.map Chr ps) s) as [g'|] eqn:Hg; [|discriminate].
    intros [= <-]. destruct (IH _ _ Hg) as (Hlen & (post & ->) & Hself).
    repeat split.
    + cbn. now rewrite Hlen.
    + now exists post.
    + rewrite match_chr_cons, Hp, Hself. reflexivity.
Qed.

Lemma match_chr_only_app ps g post :
  match_ (List.map Chr ps) g = Some g ->
  match_ (List.map Chr ps) (g +:+ post) = Some g.
Proof.
  revert g. induction ps as [|p ps IH]; intros g; cbn [List.map].
  - cbn. now intros [= <-].
  - destruct g as [|c g]; [discriminate|]. cbn [String.append]. rewrite !match_chr_cons.
    destruct (p c); [|discriminate].
    destruct (match_ (List.map Chr ps) g) as [g'|] eqn:Hg; [|discriminate].
    intros [= ->]. now rewrite (IH _ Hg).
Qed.

(** What [search] returns is matched somewhere in the string. *)
Lemma search_found r s g :
  search r s = Some g -> exists pre s', s = pre +:+ s' /\ match_ r s' = Some g.
Proof.
  induction s as [|c s IH]; cbn [search].
  - destruct (match_ r EmptyString) eqn:Hm; [|discriminate].
    intros [= <-]. now exists EmptyString, EmptyString.
  - destruct (match_ r (String c s)) eqn:Hm.
    + intros [= <-]. now exists EmptyString, (String c s).
    + intros Hs. destruct (IH Hs) as (pre & s' & -> & Hg).
      now exists (String c pre), s'.
Qed.

Lemma orcid_format_chr :
  WileyParser.orcid_format
  = List.map Chr
      (let d := digit in
       let block := [d; d; d; d; is_char "-"] in
       block ++ block ++ block ++ [d; d; d; fun c => digit c || is_char "X" c]).
Proof. reflexivity. Qed.

(** A match of the ORCID pattern: nineteen characters of the string. *)
Lemma orcid_search_shape value g :
  search WileyParser.orcid_format value = Some g ->
  String.length g = 19
  /\ (exists pre post, value = pre +:+ g +:+ post)
  /\ match_ WileyParser.orcid_format g = Some g.
Proof.
  intros Hs. destruct (search_found _ _ _ Hs) as (pre & s' & -> & Hm).
  rewrite orcid_format_chr in *.
  destruct (match_chr_only _ _ _ Hm) as (Hlen & (post & ->) & Hself).
  repeat split; [exact Hlen | now exists pre, post | exact Hself].
Qed.

(** The search passes over characters that are not digits. *)
Lemma orcid_search_skips prefix s :
  Forall (fun c => digit c = false) (list_ascii_of_string prefix) ->
  s <> EmptyString ->
  search WileyParser.orcid_format (prefix +:+ s) = search WileyParser.orcid_format s.
Proof.
  intros Hp Hs. induction prefix as [|c prefix IH]; [reflexivity|].
  cbn [list_ascii_of_string] in Hp. inversion Hp as [|? ? Hc Hrest]; subst.
  cbn [String.append search].
  assert (Hm : match_ WileyParser.orcid_format (String c (prefix +:+ s)) = None).
  { rewrite orcid_format_chr. cbn [List.map app]. rewrite match_chr_cons. now rewrite Hc. }
  rewrite Hm. now apply IH.
Qed.

End ReChr.

Section WileyOrcid.
Import WileyParser.

(** The loop of lines 156-161 as a loop over the [id] nodes. *)
Lemma author_entry_orcid_loop aff_dict c ak ak' entry :
  author_entry aff_dict c ak = Ok (ak', entry) ->
  exists tmp0 tmp : metadata,
    tmp0 !! "orcid" = None
    /\ for_each (fun (id : node) (author_tmp : metadata) =>
           ty ← Soup.getitem "type" id;
           if String.eqb ty "orcid"
           then
             orcid ← Soup.getitem "value" id;
             match Re.search orcid_format orcid with
             | Some group0 => Ok (<["orcid" := VStr group0]> author_tmp)
             | None => Ok author_tmp
             end
           else Ok author_tmp)
         (Soup.find_all "id" c) tmp0 = Ok tmp
    /\ entry !! "orcid" = tmp !! "orcid".
Proof.
  unfold author_entry. cbv zeta. intros Hr. bind_as Hr tmp E.
  eexists _, tmp. split; [|split; [exact E|]].
  - destruct (Soup.find "givenNames" c), (Soup.find "familyName" c);
      now rewrite ?lookup_insert_ne by discriminate.
  - destruct (Soup.has_attr "affiliationRef" c).
    + bind_as Hr raw Eraw. bind_as Hr st Est. destruct st as [[ak1 af] xf].
      injection Hr as _ <-. rewrite !lookup_insert_ne by discriminate.
      destruct (Soup.find "email" c); now rewrite ?lookup_insert_ne by discriminate.
    + injection Hr as _ <-.
      destruct (Soup.find "email" c); now rewrite ?lookup_insert_ne by discriminate.
Qed.

End WileyOrcid.

(** X12: an "orcid" in an author entry is always an ORCID: whenever the
    author list is built, the value stored under "orcid" in one of its
    entries is a stretch of nineteen characters of the [value] attribute of
    an [id] node of type [orcid] of some creator, and it matches the ORCID
    pattern on its own. *)
Theorem wiley_orcid_is_wellformed
    (cm : node) (author_list : list value) (entry : metadata) (v : value) :
  WileyParser.author_list_of cm = Ok author_list ->
  VDict entry ∈ author_list ->
  entry !! "orcid" = Some v ->
  exists g c id value,
    v = VStr g
    /\ c ∈ Soup.find_all "creator" cm
    /\ id ∈ Soup.find_all "id" c
    /\ Soup.get "type" id = Some "orcid"
    /\ Soup.get "value" id = Some value
    /\ (exists pre post, value = pre +:+ g +:+ post)
    /\ String.length g = 19
    /\ Re.match_ WileyParser.orcid_format g = Some g.
Proof.
  intros Hl Hin Horcid.
  destruct (author_list_of_entries _ _ Hl) as (aff_dict & entries & _ & -> & Hall).
  apply list_elem_of_fmap in Hin as (entry' & [= <-] & Hin).
  apply list_elem_of_lookup in Hin as (i & Hi).
  destruct (Forall2_lookup_r _ _ _ _ _ Hall Hi) as (c & Hc & ak & ak' & Hentry).
  destruct (author_entry_orcid_loop _ _ _ _ _ Hentry) as (tmp0 & tmp & H0 & Hloop & Heq).
  rewrite Heq in Horcid.
  assert (Hinv : forall v, tmp !! "orcid" = Some v ->
            exists g id value,
              v = VStr g /\ id ∈ Soup.find_all "id" c
              /\ Soup.get "type" id = Some "orcid"
              /\ Soup.get "value" id = Some value
              /\ Re.search WileyParser.orcid_format value = Some g).
  { eapply (for_each_preserves _
              (fun tmp : metadata => forall v, tmp !! "orcid" = Some v ->
                 exists g id value,
                   v = VStr g /\ id ∈ Soup.find_all "id" c
                   /\ Soup.get "type" id = Some "orcid"
                   /\ Soup.get "value" id = Some value
                   /\ Re.search WileyParser.orcid_format value = Some g));
      [|exact Hloop|].
    - intros id tmp1 tmp2 Hid Hb Htmp v' Hv'.
      bind_as Hb ty Ety. apply getitem_ok in Ety.
      destruct (String.eqb_spec ty "orcid") as [->|_]; [|injection Hb as <-; auto].
      bind_as Hb value Eval. apply getitem_ok in Eval.
      destruct (Re.search WileyParser.orcid_format value) as [g|] eqn:Hs;
        injection Hb as <-; [|auto].
      rewrite lookup_insert_eq in Hv'. injection Hv' as <-.
      exists g, id, value. auto.
    - intros v' Hv'. congruence. }
  destruct (Hinv v Horcid) as (g & id & value & -> & Hid & Hty & Hval & Hs).
  destruct (orcid_search_shape _ _ Hs) as (Hlen & Hsub & Hself).
  exists g, c, id, value. repeat split; auto.
  apply list_elem_of_lookup. eauto.
Qed.

Lemma wiley_orcid_is_wellformed_witness :
  let cm := Tag None "contentMeta" []
              [Tag None "creator" []
                 [Sample.field "familyName" "Doe";
                  Tag None "id" [("type", "orcid");
                            ("value", "https://orcid.org/0000-0002-1825-009X")] []]] in
  exists author_list entry,
    WileyParser.author_list_of cm = Ok author_list
    /\ VDict entry ∈ author_list
    /\ entry !! "orcid" = Some (VStr "0000-0002-1825-009X")
    /\ Re.match_ WileyParser.orcid_format "0000-0002-1825-009X" = Some "0000-0002-1825-009X".
Proof.
  intros cm.
  destruct (WileyParser.author_list_of cm) as [author_list|] eqn:Hl; [|discriminate Hl].
  assert (Hentry : exists entry, VDict entry ∈ author_list
                                 /\ entry !! "orcid" = Some (VStr "0000-0002-1825-009X")).
  { vm_compute in Hl. injection Hl as <-. eexists. split; [left | reflexivity]. }
  destruct Hentry as (entry & Hin & Horcid).
  destruct (wiley_orcid_is_wellformed cm author_list entry _ Hl Hin Horcid)
    as (g & c & id & value & Hg & _ & _ & _ & _ & _ & _ & Hself).
  injection Hg as <-.
  exists author_list, entry. repeat split; assumption.
Defined.

(** X13: the URL in front of an ORCID is removed.  For a creator whose last
    [id] node of type [orcid] has a [value] made of characters that are not
    digits followed by an ORCID (and whatever else), the author entry, when
    built, holds that ORCID under "orcid". *)
Theorem wiley_orcid_prefix_removed
    (aff_dict : gmap string string) (c id : node) (pre post : list node)
    (ak ak' : option string) (entry : metadata) (prefix g rest : string) :
  Soup.find_all "id" c = pre ++ id :: post ->
  Soup.get "type" id = Some "orcid" ->
  Soup.get "value" id = Some (prefix +:+ g +:+ rest) ->
  Forall (fun ch => Re.digit ch = false) (list_ascii_of_string prefix) ->
  Re.match_ WileyParser.orcid_format g = Some g ->
  Forall (fun m => Soup.get "type" m <> Some "orcid") post ->
  WileyParser.author_entry aff_dict c ak = Ok (ak', entry) ->
  entry !! "orcid" = Some (VStr g).
Proof.
  intros Hids Hty Hval Hprefix Hg Hpost Hentry.
  destruct (author_entry_orcid_loop _ _ _ _ _ Hentry) as (tmp0 & tmp & _ & Hloop & ->).
  rewrite Hids in Hloop. apply for_each_app_ok in Hloop as (tmpa & _ & Hloop).
  apply for_each_cons_ok in Hloop as (tmpi & Hturn & Hloop).
  rewrite (getitem_some _ _ _ Hty) in Hturn. cbn [mbind result_bind] in Hturn.
  change (String.eqb "orcid" "orcid") with true in Hturn. cbv iota in Hturn.
  rewrite (getitem_some _ _ _ Hval) in Hturn. cbn [mbind result_bind] in Hturn.
  assert (Hs : Re.search WileyParser.orcid_format (prefix +:+ g +:+ rest) = Some g).
  { rewrite orcid_search_skips; [|assumption|].
    - destruct g as [|ch g]; [discriminate Hg|]. cbn [String.append Re.search].
      change (String ch (g +:+ rest)) with (String ch g +:+ rest).
      rewrite orcid_format_chr in *. now rewrite (match_chr_only_app _ _ rest Hg).
    - destruct g; [discriminate Hg | discriminate]. }
  rewrite Hs in Hturn. injection Hturn as <-.
  apply (for_each_preserves _ (fun tmp => tmp !! "orcid" = Some (VStr g))) in Hloop;
    [exact Hloop | | apply lookup_insert_eq].
  intros m tmp1 tmp2 Hin Hb Htmp. rewrite Forall_forall in Hpost.
  bind_as Hb ty Ety. apply getitem_ok in Ety.
  rewrite (eqb_other_type _ _ _ Ety (Hpost m Hin)) in Hb. now injection Hb as <-.
Qed.

Lemma wiley_orcid_prefix_removed_witness :
  let c := Tag None "creator" []
             [Sample.field "familyName" "Doe";
              Tag None "id" [("type", "orcid"); ("value", "0000-0001-0000-0001")] [];
              Tag None "id" [("type", "orcid");
                        ("value", "https://orcid.org/0000-0002-1825-009X")] [];
              Tag None "id" [("type", "scopus"); ("value", "7")] []] in
  exists ak' entry,
    WileyParser.author_entry ∅ c None = Ok (ak', entry)
    /\ entry !! "orcid" = Some (VStr "0000-0002-1825-009X").
Proof.
  intros c.
  destruct (WileyParser.author_entry ∅ c None) as [[ak' entry]|] eqn:Hr; [|discriminate Hr].
  exists ak', entry. split; [reflexivity|].
  apply (wiley_orcid_prefix_removed ∅ c
           (Tag None "id" [("type", "orcid");
                      ("value", "https://orcid.org/0000-0002-1825-009X")] [])
           [Tag None "id" [("type", "orcid"); ("value", "0000-0001-0000-0001")] []]
           [Tag None "id" [("type", "scopus"); ("value", "7")] []]
           None ak' entry "https://orcid.org/" "0000-0002-1825-009X" ""
           eq_refl eq_refl eq_refl);
    [ repeat constructor | reflexivity
    | repeat constructor; intros Ht; vm_compute in Ht; discriminate Ht | exact Hr ].
Defined.

(** ** Wiley: references *)

(** X14: with a [bibliography] element, [_parse_references] stores one
    string per [citation] node under "references" (an empty list when there
    is none), and no stored string contains a newline or a non-breaking
    space. *)
Theorem wiley_references_normalised `{Collaborators} (self : WileyParser.t) (b : node) :
  WileyParser.bib self = Some (Some b) ->
  exists references,
    WileyParser._parse_references self
    = Ok (WileyParser.put (<["references" := VList references]>
                             (WileyParser.base_metadata self)) self)
    /\ length references = length (Soup.find_all "citation" b)
    /\ Forall (fun v => exists r, v = VStr r
                                  /\ PyStr.contains (String "010" "") r = false
                                  /\ PyStr.contains (String "160" "") r = false)
              references.
Proof.
  intros Hb. unfold WileyParser._parse_references. rewrite Hb.
  cbn [WileyParser.getattr mbind result_bind]. cbv zeta.
  eexists. split; [reflexivity|]. split; [apply length_map|].
  apply Forall_forall. intros v Hin.
  apply list_elem_of_In, in_map_iff in Hin as (ref & <- & _).
  eexists. split; [reflexivity|]. split.
  - apply replace_char_keeps_absent; [discriminate|].
    apply replace_char_removes. discriminate.
  - apply replace_char_removes. discriminate.
Qed.

Lemma wiley_references_normalised_witness :
  let b := Tag None "bibliography" []
             [Tag None "citation" [] [Text ("Doe, J." +:+ String "010" "" +:+ "2020")];
              Tag None "citation" [] [Text ("Roe," +:+ String "160" "" +:+ "R.")]] in
  let self := WileyParser.Self ∅ None None None None (Some (Some b)) in
  exists references,
    @WileyParser._parse_references (Sample.collaborators (Text "")) self
    = Ok (WileyParser.put (<["references" := VList references]> ∅) self)
    /\ references = [VStr "Doe, J. 2020"; VStr "Roe, R."]
    /\ length references = 2.
Proof.
  intros b self.
  destruct (@wiley_references_normalised (Sample.collaborators (Text "")) self b eq_refl)
    as (references & Hr & Hlen & _).
  exists references. split; [exact Hr|]. split; [|exact Hlen].
  vm_compute in Hr. now injection Hr.
Defined.

(** ** Wiley: what [parse] raises *)

Section Raises.

Lemma bind_raise {A B} (r : result A) (k : A -> result B) (e : exn) :
  r ≫= k = Raise e -> r = Raise e \/ exists a, r = Ok a /\ k a = Raise e.
Proof. destruct r as [a|e']; cbn; [eauto | intros [= <-]; auto]. Qed.

Lemma getitem_raise k n e : Soup.getitem k n = Raise e -> e = KeyError k.
Proof. unfold Soup.getitem. destruct (Soup.get k n); congruence. Qed.

Lemma deref_raise o e : Soup.deref o = Raise e -> e = AttributeError.
Proof. destruct o; cbn; congruence. Qed.

Lemma getattr_raise {A} (o : option A) e :
  WileyParser.getattr o = Raise e -> e = AttributeError.
Proof. destruct o; cbn; congruence. Qed.

Lemma update_path_raise path k f (d : metadata) e :
  (forall o e', f o = Raise e' -> builtin_exn e') ->
  update_path path k f d = Raise e -> builtin_exn e.
Proof.
  intros Hf. revert d. induction path as [|p path IH]; intros d; cbn [update_path].
  - intros Hr. apply bind_raise in Hr as [Hr | (v & _ & Hr)]; [eauto | discriminate].
  - destruct (d !! p) as [[| | |d']|]; try (intros [= <-]; exact I).
    intros Hr. apply bind_raise in Hr as [Hr | (v & _ & Hr)]; [eauto | discriminate].
Qed.

Lemma set_path_raise path k v (d : metadata) e :
  set_path path k v d = Raise e -> builtin_exn e.
Proof. apply update_path_raise. discriminate. Qed.

Lemma append_path_raise path k v (d : metadata) e :
  append_path path k v d = Raise e -> builtin_exn e.
Proof.
  apply update_path_raise. intros [[| | |]|] e'; try discriminate; intros [= <-]; exact I.
Qed.

Lemma pubdate_loop_raise events found md e :
  WileyParser.pubdate_loop events found md = Raise e -> builtin_exn e.
Proof.
  revert found md. induction events as [|d events IH]; intros found md;
    cbn [WileyParser.pubdate_loop]; [discriminate|].
  intros Hr. apply bind_raise in Hr as [Hr | (ty & _ & Hr)].
  { apply getitem_raise in Hr. now subst. }
  destruct (String.eqb ty "firstOnline").
  { apply bind_raise in Hr as [Hr | (date & _ & Hr)]; [|discriminate].
    apply getitem_raise in Hr. now subst. }
  destruct (String.eqb ty "publishedOnlineFinalForm").
  { apply bind_raise in Hr as [Hr | (date & _ & Hr)]; [|eauto].
    apply getitem_raise in Hr. now subst. }
  destruct (String.eqb ty "publishedOnlineAccepted" && negb found); [|eauto].
  apply bind_raise in Hr as [Hr | (date & _ & Hr)]; [|eauto].
  apply getitem_raise in Hr. now subst.
Qed.

End Raises.

(** Shows [builtin_exn e] from a hypothesis [H] saying that a block of a
    Wiley step raised [e]. *)
Ltac raise_inv H :=
  lazymatch type of H with
  | Raise _ = Raise _ => injection H as <-; exact I
  | Ok _ = Raise _ => discriminate H
  | Soup.getitem _ _ = Raise _ => apply getitem_raise in H; subst; exact I
  | Soup.deref _ = Raise _ => apply deref_raise in H; subst; exact I
  | WileyParser.getattr _ = Raise _ => apply getattr_raise in H; subst; exact I
  | set_path _ _ _ _ = Raise _ => exact (set_path_raise _ _ _ _ _ H)
  | append_path _ _ _ _ = Raise _ => exact (append_path_raise _ _ _ _ _ H)
  | WileyParser.pubdate_loop _ _ _ = Raise _ => exact (pubdate_loop_raise _ _ _ _ H)
  | WileyParser.pubdate_print _ _ = Raise _ =>
      unfold WileyParser.pubdate_print in H; raise_inv H
  | WileyParser.build_aff_dict _ = Raise _ =>
      unfold WileyParser.build_aff_dict in H; raise_inv H
  | WileyParser.author_list_of _ = Raise _ =>
      unfold WileyParser.author_list_of in H; raise_inv H
  | WileyParser.author_entry _ _ _ = Raise _ =>
      unfold WileyParser.author_entry in H; cbv zeta in H; raise_inv H
  | WileyParser.resolve_label _ _ _ = Raise _ =>
      unfold WileyParser.resolve_label in H; cbv zeta in H; raise_inv H
  | for_each _ _ _ = Raise _ =>
      let a := fresh "a" in
      let s := fresh "s" in
      apply for_each_raise in H as (a & s & _ & H); cbv beta in H; raise_inv H
  | _ ≫= _ = Raise _ =>
      let x := fresh "x" in
      apply bind_raise in H as [H | (x & _ & H)]; [raise_inv H | raise_inv H]
  | match ?x with _ => _ end = Raise _ => destruct x; raise_inv H
  end.

Section WileyRaises.
Import WileyParser.
Context `{Collaborators}.

Lemma wiley_extract_raise self e : extract self = Raise e -> builtin_exn e.
Proof.
  unfold extract, _parse_ids, _parse_pub, _parse_page, _parse_pubdate, _parse_edhistory,
    _parse_title_abstract, _parse_copyright, _parse_authors, _parse_keywords,
    _parse_references.
  cbv zeta. intros Hr. raise_inv Hr.
Qed.

End WileyRaises.

(** X15: [WileyParser.parse] raises none of the typed exceptions for schema
    or required fields.  Whatever the document, if it raises at all then it
    raises XmlLoadException, and that exactly when the text could not be
    loaded, or one of the exceptions that Python itself raises (KeyError,
    AttributeError, ...); never MissingTitleException,
    MissingAuthorsException, NoSchemaException or WrongSchemaException. *)
Theorem wiley_parse_raises `{Collaborators}
    (text : string) (self : WileyParser.t) (e : exn) :
  WileyParser.parse text self = Raise e ->
  (e = XmlLoadException /\ bsstrtodict text = None)
  \/ (builtin_exn e /\ is_Some (bsstrtodict text)
      /\ e <> MissingTitleException /\ e <> MissingAuthorsException
      /\ e <> NoSchemaException /\ e <> WrongSchemaException).
Proof.
  unfold WileyParser.parse. destruct (bsstrtodict text) as [d|]; [|intros [= <-]; auto].
  intros Hr. right.
  assert (Hb : builtin_exn e).
  { unfold WileyParser.parse_tree in Hr.
    apply bind_raise in Hr as [Hr | (s1 & _ & Hr)].
    - unfold WileyParser.locate in Hr. raise_inv Hr.
    - apply bind_raise in Hr as [Hr | (s2 & _ & Hr)]; [|discriminate].
      exact (wiley_extract_raise _ _ Hr). }
  split; [exact Hb|]. split; [eauto|].
  repeat split; intros ->; exact Hb.
Qed.

Lemma wiley_parse_raises_witness :
  let doc := Sample.wiley_doc [Tag None "event" [("type", "firstOnline")] []] [] in
  let C := Sample.collaborators doc in
  @WileyParser.parse C Sample.source_text WileyParser.init = Raise (KeyError "date")
  /\ @WileyParser.parse C "other text" WileyParser.init = Raise XmlLoadException
  /\ builtin_exn (KeyError "date").
Proof.
  intros doc C.
  assert (Hr : @WileyParser.parse C Sample.source_text WileyParser.init
               = Raise (KeyError "date")) by reflexivity.
  destruct (@wiley_parse_raises C Sample.source_text WileyParser.init _ Hr)
    as [[Hx _] | (Hb & _)]; [discriminate Hx|].
  split; [exact Hr|]. split; [reflexivity | exact Hb].
Defined.

(** ** Wiley: the affiliation table and unresolved labels *)

Section AffDict.
Import WileyParser.

(** The loop of lines 143-147 from any table. *)
Lemma aff_loop_lookup (l : list node) (d0 d : gmap string string) label :
  for_each (fun a aff_dict =>
      label ← Soup.getitem "xml:id" a;
      Ok (<[label := Soup.get_text_strip ", " a]> aff_dict)) l d0 = Ok d ->
  (is_Some (d !! label)
   <-> is_Some (d0 !! label) \/ exists a, a ∈ l /\ Soup.get "xml:id" a = Some label)
  /\ (Forall (fun b => Soup.get "xml:id" b <> Some label) l -> d !! label = d0 !! label).
Proof.
  revert d0. induction l as [|a l IH]; intros d0 Hr.
  - injection Hr as <-. split; [|reflexivity]. split; [auto|].
    intros [Hd | (a & Ha & _)]; [assumption | inversion Ha].
  - apply for_each_cons_ok in Hr as (d1 & Hturn & Hr).
    bind_as Hturn la Ela. apply getitem_ok in Ela. injection Hturn as <-.
    destruct (IH _ Hr) as [Hdom Hkeep]. split.
    + rewrite Hdom. split.
      * intros [Hd | (b & Hb & Hlb)].
        -- destruct (decide (la = label)) as [->|Hne].
           ++ right. exists a. split; [left | assumption].
           ++ rewrite lookup_insert_ne in Hd by assumption. now left.
        -- right. exists b. split; [now right | assumption].
      * intros [Hd | (b & Hb & Hlb)].
        -- left. destruct (decide (la = label)) as [->|Hne].
           ++ rewrite lookup_insert_eq. eauto.
           ++ now rewrite lookup_insert_ne by assumption.
        -- apply elem_of_cons in Hb as [-> | Hb].
           ++ left. rewrite Ela in Hlb. injection Hlb as ->.
              rewrite lookup_insert_eq. eauto.
           ++ right. eauto.
    + intros Hall. inversion Hall as [|? ? Ha Hl]; subst.
      rewrite (Hkeep Hl). apply lookup_insert_ne. intros ->. contradiction.
Qed.

Lemma aff_loop_without_id (l : list node) (d0 : gmap string string) :
  Exists (fun a => Soup.get "xml:id" a = None) l ->
  for_each (fun a aff_dict =>
      label ← Soup.getitem "xml:id" a;
      Ok (<[label := Soup.get_text_strip ", " a]> aff_dict)) l d0
  = Raise (KeyError "xml:id").
Proof.
  intros Hex. revert d0. induction Hex as [a l Ha | a l _ IH]; intros d0; cbn [for_each].
  - assert (Hg : Soup.getitem "xml:id" a = Raise (KeyError "xml:id"))
      by (unfold Soup.getitem; now rewrite Ha).
    now rewrite Hg.
  - destruct (Soup.get "xml:id" a) as [label|] eqn:Hl.
    + rewrite (getitem_some _ _ _ Hl). cbn [mbind result_bind]. apply IH.
    + assert (Hg : Soup.getitem "xml:id" a = Raise (KeyError "xml:id"))
        by (unfold Soup.getitem; now rewrite Hl).
      now rewrite Hg.
Qed.

End AffDict.

(** X16: the affiliation table of [_parse_authors].  An [affiliation] node
    without [xml:id] makes the author list fail with KeyError('xml:id').
    Otherwise the table has exactly the [xml:id] values of the
    [affiliation] nodes as keys, and each key stands for the text of the
    last node that carries it (its strings stripped and joined with
    ", "). *)
Theorem wiley_aff_dict_table (cm : node) :
  (Exists (fun a => Soup.get "xml:id" a = None) (Soup.find_all "affiliation" cm) ->
   WileyParser.author_list_of cm = Raise (KeyError "xml:id"))
  /\ (forall aff_dict,
         WileyParser.build_aff_dict cm = Ok aff_dict ->
         (forall label,
             is_Some (aff_dict !! label)
             <-> exists a, a ∈ Soup.find_all "affiliation" cm
                           /\ Soup.get "xml:id" a = Some label)
         /\ (forall pre a post label,
                Soup.find_all "affiliation" cm = pre ++ a :: post ->
                Soup.get "xml:id" a = Some label ->
                Forall (fun b => Soup.get "xml:id" b <> Some label) post ->
                aff_dict !! label = Some (Soup.get_text_strip ", " a))).
Proof.
  split.
  - intros Hex. unfold WileyParser.author_list_of, WileyParser.build_aff_dict. cbv zeta.
    now rewrite aff_loop_without_id.
  - intros aff_dict Hd. unfold WileyParser.build_aff_dict in Hd. cbv zeta in Hd. split.
    + intros label. destruct (aff_loop_lookup _ _ _ label Hd) as [Hdom _].
      rewrite Hdom. split; [|auto].
      intros [Hd0 | Ha]; [|assumption].
      rewrite lookup_empty in Hd0. now destruct Hd0.
    + intros pre a post label Hl Ha Hpost. rewrite Hl in Hd.
      apply for_each_app_ok in Hd as (d1 & _ & Hd).
      apply for_each_cons_ok in Hd as (d2 & Hturn & Hd).
      rewrite (getitem_some _ _ _ Ha) in Hturn. injection Hturn as <-.
      destruct (aff_loop_lookup _ _ _ label Hd) as [_ Hkeep].
      rewrite (Hkeep Hpost). apply lookup_insert_eq.
Qed.

Lemma wiley_aff_dict_table_witness :
  let cm := Tag None "contentMeta" []
              [Sample.affiliation "a1" "Univ A"; Sample.affiliation "a2" "Univ B";
               Tag None "affiliation" [("xml:id", "a1")]
                 [Sample.field "orgName" " Univ C "; Text " "; Sample.field "country" "NL"]] in
  exists aff_dict,
    WileyParser.build_aff_dict cm = Ok aff_dict
    /\ aff_dict !! "a1" = Some "Univ C, NL"
    /\ aff_dict !! "a2" = Some "Univ B".
Proof.
  intros cm.
  destruct (WileyParser.build_aff_dict cm) as [aff_dict|] eqn:Hd; [|discriminate Hd].
  destruct (wiley_aff_dict_table cm) as [_ Htable].
  destruct (Htable aff_dict Hd) as [_ Hlast].
  exists aff_dict. split; [reflexivity|]. split.
  - apply (Hlast [Sample.affiliation "a1" "Univ A"; Sample.affiliation "a2" "Univ B"]
                 (Tag None "affiliation" [("xml:id", "a1")]
                    [Sample.field "orgName" " Univ C "; Text " "; Sample.field "country" "NL"])
                 [] "a1" eq_refl eq_refl).
    constructor.
  - apply (Hlast [Sample.affiliation "a1" "Univ A"] (Sample.affiliation "a2" "Univ B")
                 [Tag None "affiliation" [("xml:id", "a1")]
                    [Sample.field "orgName" " Univ C "; Text " "; Sample.field "country" "NL"]]
                 "a2" eq_refl eq_refl).
    repeat constructor. intros Ht. vm_compute in Ht. discriminate Ht.
Defined.

Section Unresolved.
Import WileyParser.






End Unresolved.





(** ** Wiley: identifiers *)

Section WileyIds.
Import WileyParser.

Lemma append_path_top k v (md : metadata) l :
  md !! k = Some (VList l) -> append_path [] k v md = Ok (<[k := VList (l ++ [v])]> md).
Proof. intros Hk. unfold append_path. cbn [update_path]. now rewrite Hk. Qed.

Lemma append_path_in p k v (md d : metadata) l :
  md !! p = Some (VDict d) -> d !! k = Some (VList l) ->
  append_path [p] k v md = Ok (<[p := VDict (<[k := VList (l ++ [v])]> d)]> md).
Proof. intros Hp Hk. unfold append_path. cbn [update_path]. now rewrite Hp, Hk. Qed.

(** Lines 24-25 from any list under "issn". *)
Lemma issn_loop (l : list node) (md md' : metadata) acc :
  md !! "issn" = Some (VList acc) ->
  for_each (fun i md =>
      ty ← Soup.getitem "type" i;
      append_path [] "issn" (VTuple [VStr ty; VStr (Soup.get_text i)]) md) l md = Ok md' ->
  exists new,
    md' !! "issn" = Some (VList (acc ++ new))
    /\ (forall k, k <> "issn" -> md' !! k = md !! k)
    /\ Forall2 (fun i v => exists ty, Soup.get "type" i = Some ty
                                      /\ v = VTuple [VStr ty; VStr (Soup.get_text i)])
               l new.
Proof.
  revert md acc. induction l as [|i l IH]; intros md acc Hacc Hr.
  - injection Hr as <-. exists []. rewrite app_nil_r. repeat split; auto.
  - apply for_each_cons_ok in Hr as (md1 & Hturn & Hr).
    bind_as Hturn ty Ety. apply getitem_ok in Ety.
    rewrite (append_path_top _ _ _ _ Hacc) in Hturn. injection Hturn as <-.
    destruct (IH _ (acc ++ [VTuple [VStr ty; VStr (Soup.get_text i)]])
                (lookup_insert_eq _ _ _) Hr) as (new & Hnew & Hframe & Hall).
    exists (VTuple [VStr ty; VStr (Soup.get_text i)] :: new). split; [|split].
    + now rewrite Hnew, <- app_assoc.
    + intros k Hk. rewrite Hframe by assumption. now rewrite lookup_insert_ne.
    + constructor; eauto.
Qed.

(** Lines 31-35 from any list under ids.pub-id. *)
Lemma pub_id_loop (l : list node) (md md' d : metadata) acc :
  md !! "ids" = Some (VDict d) ->
  d !! "pub-id" = Some (VList acc) ->
  for_each (fun i md =>
      ty ← Soup.getitem "type" i;
      if negb (PyStr.in_list ty ["society"; "eLocator"])
      then
        v ← Soup.getitem "value" i;
        append_path ["ids"] "pub-id"
          (VDict {["attribute" := VStr ty; "Identifier" := VStr v]}) md
      else Ok md) l md = Ok md' ->
  exists d' new,
    md' !! "ids" = Some (VDict d')
    /\ d' !! "pub-id" = Some (VList (acc ++ new))
    /\ (forall k, k <> "pub-id" -> d' !! k = d !! k)
    /\ (forall k, k <> "ids" -> md' !! k = md !! k)
    /\ Forall2 (fun i v => exists ty value,
                   Soup.get "type" i = Some ty
                   /\ ty <> "society" /\ ty <> "eLocator"
                   /\ Soup.get "value" i = Some value
                   /\ v = VDict {["attribute" := VStr ty; "Identifier" := VStr value]})
               (List.filter is_pub_id l) new.
Proof.
  revert md d acc. induction l as [|i l IH]; intros md d acc Hids Hacc Hr.
  - injection Hr as <-. exists d, []. rewrite app_nil_r. repeat split; auto.
  - apply for_each_cons_ok in Hr as (md1 & Hturn & Hr).
    bind_as Hturn ty Ety. apply getitem_ok in Ety.
    cbn [List.filter]. unfold is_pub_id at 1. rewrite Ety.
    destruct (PyStr.in_list ty ["society"; "eLocator"]) eqn:Ein; cbn [negb] in *.
    + injection Hturn as <-. exact (IH _ _ _ Hids Hacc Hr).
    + assert (Hty : ty <> "society" /\ ty <> "eLocator").
      { apply in_list_false in Ein. split; intros ->; apply Ein; [left | right; left]. }
      bind_as Hturn value Eval. apply getitem_ok in Eval.
      rewrite (append_path_in _ _ _ _ _ _ Hids Hacc) in Hturn. injection Hturn as <-.
      destruct (IH _ _ _ (lookup_insert_eq _ _ _) (lookup_insert_eq _ _ _) Hr)
        as (d' & new & Hd' & Hnew & Hframe & Hframe' & Hall).
      exists d', (VDict {["attribute" := VStr ty; "Identifier" := VStr value]} :: new).
      split; [exact Hd'|]. split; [now rewrite Hnew, <- app_assoc|]. split; [|split].
      * intros k Hk. rewrite Hframe by assumption. now rewrite lookup_insert_ne.
      * intros k Hk. rewrite Hframe' by assumption. now rewrite lookup_insert_ne.
      * constructor; [|exact Hall]. exists ty, value. tauto.
Qed.

End WileyIds.

(** X19: what [_parse_ids] leaves under "ids" and "issn".  Whenever it
    returns, "ids" is a dict with no key but "doi" and "pub-id" (what was
    there before is gone): "doi" is the text of the first [doi] node of the
    unit-level [publicationMeta], absent when there is none, and "pub-id"
    holds, in document order, one attribute/Identifier entry for each [id]
    node whose type is not "society" or "eLocator", and no other; "issn"
    holds one (type, text) pair per [issn] node of the product level. *)
Theorem wiley_parse_ids_contents (self self' : WileyParser.t) (prod unit : node) :
  WileyParser.pubmeta_prod self = Some prod ->
  WileyParser.pubmeta_unit self = Some unit ->
  WileyParser._parse_ids self = Ok self' ->
  exists ids pub_ids issns,
    WileyParser.base_metadata self' !! "ids" = Some (VDict ids)
    /\ ids !! "doi" = (fun n => VStr (Soup.get_text n)) <$> Soup.find "doi" unit
    /\ ids !! "pub-id" = Some (VList pub_ids)
    /\ (forall k, k <> "doi" -> k <> "pub-id" -> ids !! k = None)
    /\ Forall2 (fun i v => exists ty value,
                   Soup.get "type" i = Some ty
                   /\ ty <> "society" /\ ty <> "eLocator"
                   /\ Soup.get "value" i = Some value
                   /\ v = VDict {["attribute" := VStr ty; "Identifier" := VStr value]})
               (List.filter is_pub_id (Soup.find_all "id" unit)) pub_ids
    /\ WileyParser.base_metadata self' !! "issn" = Some (VList issns)
    /\ Forall2 (fun i v => exists ty, Soup.get "type" i = Some ty
                                      /\ v = VTuple [VStr ty; VStr (Soup.get_text i)])
               (Soup.find_all "issn" prod) issns.
Proof.
  intros Hprod Hunit. unfold WileyParser._parse_ids. cbv zeta. intros Hr.
  bind_as Hr p Ep. apply (deref_some _ _ _ Hprod) in Ep. subst p.
  bind_as Hr md1 E1. bind_as Hr u Eu. apply (deref_some _ _ _ Hunit) in Eu. subst u.
  bind_as Hr md2 E2. bind_as Hr md3 E3. bind_as Hr md4 E4.
  injection Hr as <-. cbn [WileyParser.put WileyParser.base_metadata].
  destruct (issn_loop _ _ _ [] (lookup_insert_eq _ _ _) E1) as (issns & Hissn & Hframe1 & Hall1).
  assert (Hids1 : md1 !! "ids" = Some (VDict ∅)).
  { rewrite Hframe1 by discriminate.
    now rewrite lookup_insert_ne, lookup_insert_eq by discriminate. }
  assert (H2 : exists d2, md2 !! "ids" = Some (VDict d2)
                 /\ d2 !! "doi" = (fun n => VStr (Soup.get_text n)) <$> Soup.find "doi" unit
                 /\ (forall k, k <> "doi" -> d2 !! k = None)
                 /\ md2 !! "issn" = md1 !! "issn").
  { destruct (Soup.find "doi" unit) as [n|].
    - unfold set_path in E2. cbn [update_path] in E2. rewrite Hids1 in E2.
      cbn [mbind result_bind] in E2. injection E2 as <-.
      eexists. rewrite lookup_insert_eq. split; [reflexivity|].
      rewrite lookup_insert_eq. split; [reflexivity|]. split.
      + intros k Hk. now rewrite lookup_insert_ne, lookup_empty by congruence.
      + now rewrite lookup_insert_ne by discriminate.
    - injection E2 as <-. exists ∅. repeat split; auto. }
  destruct H2 as (d2 & Hids2 & Hdoi & Hother & Hissn2).
  unfold set_path in E3. cbn [update_path] in E3. rewrite Hids2 in E3.
  cbn [mbind result_bind] in E3. injection E3 as <-.
  destruct (pub_id_loop _ _ _ _ [] (lookup_insert_eq _ _ _) (lookup_insert_eq _ _ _) E4)
    as (d4 & pub_ids & Hids4 & Hpub & Hframe4 & Hframe4' & Hall4).
  exists d4, pub_ids, issns. split; [exact Hids4|]. split; [|split; [exact Hpub|split; [|split; [|split]]]].
  - rewrite Hframe4 by discriminate. now rewrite lookup_insert_ne by discriminate.
  - intros k Hk1 Hk2. rewrite Hframe4 by assumption.
    rewrite lookup_insert_ne by congruence. auto.
  - exact Hall4.
  - rewrite Hframe4', lookup_insert_ne, Hissn2, Hissn by discriminate. reflexivity.
  - exact Hall1.
Qed.

Lemma wiley_parse_ids_contents_witness :
  let prod := Tag None "publicationMeta" [("level", "product")]
                [Tag None "issn" [("type", "print")] [Text "0148-0227"];
                 Tag None "issn" [("type", "electronic")] [Text "2156-2202"]] in
  let unit := Tag None "publicationMeta" [("level", "unit")]
                [Tag None "doi" [] [Text "10.1029/2010JA015928"];
                 Tag None "id" [("type", "society"); ("value", "L07")] [];
                 Tag None "id" [("type", "unit"); ("value", "JGRA20928")] [];
                 Tag None "id" [("type", "eLocator"); ("value", "e1234567890")] []] in
  let self := WileyParser.Self (<["ids" := VDict {["stale" := VStr "x"]}]> ∅)
                (Some prod) None (Some unit) None None in
  exists self' ids,
    WileyParser._parse_ids self = Ok self'
    /\ WileyParser.base_metadata self' !! "ids" = Some (VDict ids)
    /\ ids !! "stale" = None
    /\ ids !! "doi" = Some (VStr "10.1029/2010JA015928").
Proof.
  intros prod unit self.
  destruct (WileyParser._parse_ids self) as [self'|] eqn:Hr; [|discriminate Hr].
  destruct (wiley_parse_ids_contents self self' prod unit eq_refl eq_refl Hr)
    as (ids & pub_ids & issns & Hids & Hdoi & _ & Hother & _).
  exists self', ids. split; [reflexivity|]. split; [exact Hids|]. split.
  - apply Hother; discriminate.
  - exact Hdoi.
Defined.
